(** * CGAN for tabular data: a shallow embedding of [src/models/cgan/model.py]

    The Python module defines the class [CGAN] (constructor, batch sampler
    [get_data_batch], training loop [train], [save], [load]) and the two
    network builders [Generator] and [Discriminator].

    Python integers are [Z] ([//] and [%] are [Z.div] and [Z.modulo], which
    round like Python's for either sign of the divisor), Python lists and
    NumPy arrays are [list]s, a two-dimensional array is the list of its
    rows, exceptions are the left summand of [Result], and every object the
    code mutates lives in an explicit state that is threaded through the
    calls. *)

From Stdlib Require Import String Ascii DecimalString.
From Stdlib Require QArith_base.
From Stdlib Require Import ZArith List Bool Lia Permutation.
Import ListNotations.

Set Implicit Arguments.
Open Scope Z_scope.

(** ** Python: exceptions, state and the error monad *)

Inductive exn : Set :=
| ZeroDivisionError
| ValueError
| KeyError
| IndexError
| AssertionError
| TypeError
| AttributeError
| OSError (* [FileNotFoundError] when the directory of a file is missing,
             [PermissionError] and the like *)
| FormatFieldError. (* what [str.format] raises on a replacement field it cannot fill:
                       an IndexError, KeyError, ValueError or AttributeError *)

Definition Result (A : Type) : Type := (exn + A)%type.

(** A computation over a mutable state [S] that may raise: it returns the
    state as it is when the exception leaves the call. *)
Definition M (S A : Type) : Type := S -> Result A * S.

Definition ret {S A} (a : A) : M S A := fun s => (inr a, s).

Definition raise {S A} (e : exn) : M S A := fun s => (inl e, s).

Definition bind {S A B} (c : M S A) (k : A -> M S B) : M S B :=
  fun s => match c s with
           | (inr a, s') => k a s'
           | (inl e, s') => (inl e, s')
           end.

Definition lift_result {S A} (r : Result A) : M S A := fun s => (r, s).

Definition modify {S} (f : S -> S) : M S unit := fun s => (inr tt, f s).

Definition gets {S A} (f : S -> A) : M S A := fun s => (inr (f s), s).

Declare Scope py_scope.
Delimit Scope py_scope with py.
Notation "x <- c ;; k" := (bind c (fun x => k))
  (at level 61, c at next level, right associativity) : py_scope.
Notation "c ;;; k" := (bind c (fun _ => k))
  (at level 61, right associativity) : py_scope.
Open Scope py_scope.

(** [for x in xs: body x] *)
Fixpoint for_each {S A} (xs : list A) (body : A -> M S unit) : M S unit :=
  match xs with
  | [] => ret tt
  | x :: rest => body x ;;; for_each rest body
  end.

(** [range(n)] *)
Definition range (n : Z) : list Z := map Z.of_nat (seq 0 (Z.to_nat n)).

Definition len {A} (l : list A) : Z := Z.of_nat (List.length l).

(** [a % b] and [a // b] on Python integers. *)
Definition py_mod (a b : Z) : Result Z :=
  if b =? 0 then inl ZeroDivisionError else inr (a mod b).

Definition py_floordiv (a b : Z) : Result Z :=
  if b =? 0 then inl ZeroDivisionError else inr (a / b).

(** An index of a slice, brought into [0 .. n]: a negative index counts
    from the end, and both ends are clipped. *)
Definition clip_index (n i : Z) : Z :=
  if i <? 0 then Z.max (i + n) 0 else Z.min i n.

(** [l[i:j]] *)
Definition py_slice {A} (l : list A) (i j : Z) : list A :=
  let a := clip_index (len l) i in
  let b := clip_index (len l) j in
  firstn (Z.to_nat (b - a)) (skipn (Z.to_nat a) l).

(** [l[i]] for an integer [i]: negative indices count from the end. *)
Definition py_index {A} (l : list A) (i : Z) : Result A :=
  let j := if i <? 0 then i + len l else i in
  if (0 <=? j) && (j <? len l)
  then match nth_error l (Z.to_nat j) with
       | Some x => inr x
       | None => inl IndexError
       end
  else inl IndexError.

(** ** pandas and NumPy, as far as [get_data_batch] uses them *)

Section Table.

Variable V : Type. (* the cells of the table: floating-point numbers *)

(** A [DataFrame]: its rows in order, each with its index label. *)
Definition DataFrame : Type := list (Z * list V).

Definition index (train : DataFrame) : list Z := map fst train.

Definition values (train : DataFrame) : list (list V) := map snd train.

(** The rows carrying one label ([KeyError] when there is none). *)
Definition loc_label (train : DataFrame) (l : Z) : Result DataFrame :=
  match filter (fun r => fst r =? l) train with
  | [] => inl KeyError
  | rows => inr rows
  end.

(** [train.loc[labels]] for a list of labels: the rows of each label, in
    the order of the list. *)
Fixpoint loc (train : DataFrame) (labels : list Z) : Result DataFrame :=
  match labels with
  | [] => inr []
  | l :: rest =>
      match loc_label train l with
      | inl e => inl e
      | inr rows =>
          match loc train rest with
          | inl e => inl e
          | inr more => inr (rows ++ more)
          end
      end
  end.

(** Row [i] of width [w] of a flat, row-major array. *)
Definition chunk (w : nat) (flat : list V) (i : nat) : list V :=
  firstn w (skipn (i * w) flat).

(** [np.reshape(x, (rows, -1))] of a two-dimensional array: the unknown
    width is the size divided by [rows], which must be positive and
    divide the size. *)
Definition np_reshape (x : list (list V)) (rows : Z) : Result (list (list V)) :=
  let flat := concat x in
  if rows <=? 0 then inl ValueError
  else if negb (len flat mod rows =? 0) then inl ValueError
  else let w := Z.to_nat (len flat / rows) in
       inr (map (chunk w flat) (seq 0 (Z.to_nat rows))).

End Table.

(** [batch[:, j]] of a two-dimensional array. *)
Fixpoint np_column {V} (batch : list (list V)) (j : Z) : Result (list V) :=
  match batch with
  | [] => inr []
  | row :: rest =>
      match py_index row j with
      | inl e => inl e
      | inr v =>
          match np_column rest j with
          | inl e => inl e
          | inr vs => inr (v :: vs)
          end
      end
  end.

(** [batch[:, :-1]] *)
Definition np_drop_last_column {V} (batch : list (list V)) : list (list V) :=
  map (fun row => py_slice row 0 (-1)) batch.

(** [np.ones((rows, cols))] and [np.zeros((rows, cols))], filled with [v]. *)
Definition np_full {V} (v : V) (rows cols : Z) : Result (list (list V)) :=
  if (rows <? 0) || (cols <? 0) then inl ValueError
  else inr (repeat (repeat v (Z.to_nat cols)) (Z.to_nat rows)).

(** ** Strings: [str.format], [str(int)] and [os.path.join] *)

Definition is_brace (c : ascii) : bool :=
  (Ascii.eqb c "{" || Ascii.eqb c "}")%char.

(** [template.format(a0, a1, ...)] for templates whose replacement fields are all
    the automatic field [{}]; [{{] and [}}] stand for one brace. A field
    with a name, a number, a conversion or a format specification is not
    interpreted: [FormatFieldError] stands for its outcome. In [train] the
    template ends in two automatic fields and gets two arguments, so that
    any further field makes [str.format] raise. *)
Fixpoint str_format (template : string) (args : list string) : Result string :=
  match template with
  | EmptyString => inr EmptyString
  | String c rest =>
      if Ascii.eqb c "{" then
        match rest with
        | String d rest' =>
            if Ascii.eqb d "{" then
              match str_format rest' args with
              | inl e => inl e
              | inr out => inr (String "{" out)
              end
            else if Ascii.eqb d "}" then
              match args with
              | [] => inl FormatFieldError
              | a :: args' =>
                  match str_format rest' args' with
                  | inl e => inl e
                  | inr out => inr (a ++ out)%string
                  end
              end
            else inl FormatFieldError
        | EmptyString => inl ValueError
        end
      else if Ascii.eqb c "}" then
        match rest with
        | String d rest' =>
            if Ascii.eqb d "}" then
              match str_format rest' args with
              | inl e => inl e
              | inr out => inr (String "}" out)
              end
            else inl ValueError
        | EmptyString => inl ValueError
        end
      else
        match str_format rest args with
        | inl e => inl e
        | inr out => inr (String c out)
        end
  end.

(** [str(n)] of an integer, as [{}] formats it. *)
Definition str_of_int (n : Z) : string := NilZero.string_of_int (Z.to_int n).

Fixpoint ends_with_slash (s : string) : bool :=
  match s with
  | EmptyString => false
  | String c EmptyString => Ascii.eqb c "/"
  | String _ rest => ends_with_slash rest
  end.

(** [os.path.join(path, name)] on a POSIX system. *)
Definition os_path_join (path name : string) : string :=
  match name with
  | String c _ =>
      if Ascii.eqb c "/" then name
      else if ends_with_slash path then (path ++ name)%string
      else match path with
           | EmptyString => name
           | _ => (path ++ "/" ++ name)%string
           end
  | EmptyString =>
      if ends_with_slash path then path
      else match path with
           | EmptyString => EmptyString
           | _ => (path ++ "/")%string
           end
  end.

(** ** Keras: the layer graphs that the builders assemble *)

Inductive activation : Set := relu | sigmoid.

(** A symbolic tensor is the expression that computes it. The [name] of an
    [Input] stands for the identity of the Python object (the variable it is
    bound to); [Apply] is a model called on tensors, as in
    [self.generator([z, label])]. *)
#[warnings="-register-all"]
Inductive tensor : Type :=
| Input (name : string) (shape : list Z) (batch_size : Z) (dtype : option string)
| Embedding (input_dim output_dim : Z) (x : tensor)
| Flatten (x : tensor)
| tf_concat (axis : Z) (values : list tensor)
| Dense (units : Z) (act : option activation) (x : tensor)
| Dropout (rate : QArith_base.Q) (x : tensor)
| Apply (model_inputs : list tensor) (model_outputs : tensor) (args : list tensor).

Record Model : Type := { inputs : list tensor; outputs : tensor }.

(** Whether the value of a tensor depends on an [Embedding] layer. *)
Fixpoint through_embedding (t : tensor) : bool :=
  match t with
  | Input _ _ _ _ => false
  | Embedding _ _ _ => true
  | Flatten x => through_embedding x
  | tf_concat _ xs => existsb through_embedding xs
  | Dense _ _ x => through_embedding x
  | Dropout _ x => through_embedding x
  | Apply _ out args => through_embedding out || existsb through_embedding args
  end.

(** The operands of the first [tf.concat] under a chain of layers. *)
Fixpoint concat_operands (t : tensor) : list tensor :=
  match t with
  | tf_concat _ xs => xs
  | Dense _ _ x => concat_operands x
  | Dropout _ x => concat_operands x
  | Flatten x => concat_operands x
  | _ => []
  end.

(** The widths and activations of the [Dense] layers, output layer first. *)
Fixpoint dense_layers (t : tensor) : list (Z * option activation) :=
  match t with
  | Dense units act x => (units, act) :: dense_layers x
  | Dropout _ x => dense_layers x
  | _ => []
  end.

Module Generator.

Record t : Type := { batch_size : Z; num_classes : Z }.

(** [Generator(a0, a1, ...)]: [__init__(self, batch_size, num_classes)] has two
    required positional parameters. *)
Definition new (args : list Z) : Result t :=
  match args with
  | [batch_size; num_classes] =>
      inr {| batch_size := batch_size; num_classes := num_classes |}
  | _ => inl TypeError
  end.

Definition build_model (self : t) (input_shape : list Z) (dim data_dim : Z) : Model :=
  let noise := Input "noise" input_shape (batch_size self) None in
  let label := Input "label" [1] (batch_size self) (Some "float32"%string) in
  let label_embedding := Flatten (Embedding (num_classes self) 1 label) in
  let input := tf_concat 1 [noise; label] in
  let x := Dense dim (Some relu) input in
  let x := Dense (dim * 2) (Some relu) x in
  let x := Dense (dim * 4) (Some relu) x in
  let x := Dense data_dim None x in
  {| inputs := [noise; label]; outputs := x |}.

(** The architecture as the specification words it: the flattened
    embedding of the label is what is joined to the noise. *)
Definition spec_model (self : t) (input_shape : list Z) (dim data_dim : Z) : Model :=
  let noise := Input "noise" input_shape (batch_size self) None in
  let label := Input "label" [1] (batch_size self) (Some "float32"%string) in
  let label_embedding := Flatten (Embedding (num_classes self) 1 label) in
  let input := tf_concat 1 [noise; label_embedding] in
  let x := Dense dim (Some relu) input in
  let x := Dense (dim * 2) (Some relu) x in
  let x := Dense (dim * 4) (Some relu) x in
  let x := Dense data_dim None x in
  {| inputs := [noise; label]; outputs := x |}.

End Generator.

Module Discriminator.

Record t : Type := { batch_size : Z; num_classes : Z }.

Definition new (args : list Z) : Result t :=
  match args with
  | [batch_size; num_classes] =>
      inr {| batch_size := batch_size; num_classes := num_classes |}
  | _ => inl TypeError
  end.

Definition build_model (self : t) (input_shape : list Z) (dim : Z) : Model :=
  let events := Input "events" input_shape (batch_size self) None in
  let label := Input "label" [1] (batch_size self) (Some "float32"%string) in
  let label_embedding := Flatten (Embedding (num_classes self) 1 label) in
  let events_flat := Flatten events in
  let input := tf_concat 1 [events; label] in
  let x := Dense (dim * 4) (Some relu) input in
  let x := Dropout (QArith_base.Qmake 1 10) x in
  let x := Dense (dim * 2) (Some relu) x in
  let x := Dropout (QArith_base.Qmake 1 10) x in
  let x := Dense dim (Some relu) x in
  let x := Dense 1 (Some sigmoid) x in
  {| inputs := [events; label]; outputs := x |}.

End Discriminator.

(** *** The shapes that Keras infers *)

Fixpoint shape_eqb (s t : list Z) : bool :=
  match s, t with
  | [], [] => true
  | a :: s', b :: t' => (a =? b) && shape_eqb s' t'
  | _, _ => false
  end.

Fixpoint shapes_eqb (ss ts : list (list Z)) : bool :=
  match ss, ts with
  | [], [] => true
  | s :: ss', t :: ts' => shape_eqb s t && shapes_eqb ss' ts'
  | _, _ => false
  end.

(** [tf.concat] along the axis [a]: the operands have this axis and agree
    on every other one; their sizes along [a] add up. *)
Fixpoint concat_shapes (a : nat) (ss : list (list Z)) : Result (list Z) :=
  match ss with
  | [] => inl ValueError
  | s :: rest =>
      if negb (a <? List.length s)%nat then inl ValueError
      else match rest with
           | [] => inr s
           | _ =>
               match concat_shapes a rest with
               | inl e => inl e
               | inr t =>
                   if shape_eqb (firstn a s) (firstn a t)
                      && shape_eqb (skipn (S a) s) (skipn (S a) t)
                   then inr (firstn a s ++ [nth a s 0 + nth a t 0] ++ skipn (S a) s)
                   else inl ValueError
               end
           end
  end.

(** The shape of a symbolic tensor, batch axis first, or the [ValueError]
    that building it raises: an [Input] has the batch size before its
    shape, [Embedding] adds an axis of its output size, [Flatten] merges
    all axes after the first, [Dense] (on at least two axes) replaces the
    last axis by its units, [Dropout] keeps the shape, and a model called
    on tensors wants the shapes of its inputs and gives the one of its
    output. *)
Fixpoint shape_of (t : tensor) : Result (list Z) :=
  match t with
  | Input _ shape batch_size _ => inr (batch_size :: shape)
  | Embedding _ output_dim x =>
      match shape_of x with
      | inl e => inl e
      | inr s => inr (s ++ [output_dim])
      end
  | Flatten x =>
      match shape_of x with
      | inl e => inl e
      | inr [] => inl ValueError
      | inr (b :: rest) => inr [b; fold_right Z.mul 1 rest]
      end
  | tf_concat axis values =>
      let fix shapes (l : list tensor) : Result (list (list Z)) :=
        match l with
        | [] => inr []
        | x :: r =>
            match shape_of x, shapes r with
            | inl e, _ => inl e
            | _, inl e => inl e
            | inr s, inr ss => inr (s :: ss)
            end
        end in
      match shapes values with
      | inl e => inl e
      | inr ss =>
          let rank := match ss with [] => 0 | s :: _ => len s end in
          let a := if axis <? 0 then axis + rank else axis in
          if a <? 0 then inl ValueError else concat_shapes (Z.to_nat a) ss
      end
  | Dense units _ x =>
      match shape_of x with
      | inl e => inl e
      | inr s => if (2 <=? List.length s)%nat then inr (removelast s ++ [units])
                 else inl ValueError
      end
  | Dropout _ x => shape_of x
  | Apply model_inputs model_outputs args =>
      let fix shapes (l : list tensor) : Result (list (list Z)) :=
        match l with
        | [] => inr []
        | x :: r =>
            match shape_of x, shapes r with
            | inl e, _ => inl e
            | _, inl e => inl e
            | inr s, inr ss => inr (s :: ss)
            end
        end in
      match shapes model_inputs, shapes args with
      | inl e, _ => inl e
      | _, inl e => inl e
      | inr want, inr got =>
          if shapes_eqb want got then shape_of model_outputs else inl ValueError
      end
  end.

(** *** The builders as Python runs them *)

(** The checks of the layer constructors on the way: [Embedding] wants a
    positive number of classes, [Input] a batch size and dimensions that
    are not negative, and [Dense] a number of units that is not negative. *)
Definition layers_accept (num_classes batch_size : Z) (input_shape units : list Z) : bool :=
  (0 <? num_classes)
  && forallb (fun d => 0 <=? d) (batch_size :: input_shape)
  && forallb (fun u => 0 <=? u) units.

(** A graph is returned when the layers accepted their arguments and the
    shapes fit together; [ValueError] otherwise. *)
Definition assembled (accepted : bool) (m : Model) : Result Model :=
  if accepted then
    match shape_of (outputs m) with
    | inl e => inl e
    | inr _ => inr m
    end
  else inl ValueError.

(** [Generator.build_model], with the exceptions of the layers. *)
Definition run_generator_build_model (self : Generator.t) (input_shape : list Z)
  (dim data_dim : Z) : Result Model :=
  assembled
    (layers_accept (Generator.num_classes self) (Generator.batch_size self) input_shape
       [dim; dim * 2; dim * 4; data_dim])
    (Generator.build_model self input_shape dim data_dim).

(** [Discriminator.build_model], with the exceptions of the layers. *)
Definition run_discriminator_build_model (self : Discriminator.t) (input_shape : list Z)
  (dim : Z) : Result Model :=
  assembled
    (layers_accept (Discriminator.num_classes self) (Discriminator.batch_size self)
       input_shape [dim * 4; dim * 2; dim; 1])
    (Discriminator.build_model self input_shape dim).

(** ** The libraries behind the calls *)

(** NumPy's global random generator. [np.random.seed] replaces its state by
    one computed from the seed alone and accepts seeds in [0 .. 2^32-1];
    [np.random.choice(a, replace=False, size=len(a))] draws an ordering of
    [a] from the state and advances it. *)
Class NumpyRandom : Type := {
  rng_state : Type;
  mt19937_seed : Z -> rng_state;
  choice_all : rng_state -> list Z -> list Z * rng_state
}.

(** The generator is lawful when what it draws is a rearrangement of [a]. *)
Definition choice_permutes (R : NumpyRandom) : Prop :=
  forall g a, Permutation (fst (choice_all g a)) a.

(** TensorFlow and Keras. The numerics stay abstract: a gradient step is a
    function that proposes new parameters for every layer it reaches, and
    [train_on_batch] installs the proposal for the layers that are trainable.
    Whether a layer counts as trainable is [takes_effect c n], from the value
    [c] its [trainable] attribute had when the model that is trained was
    compiled and the value [n] it has at the call. [predict] gives its
    result together with the lines of the progress bar that it prints. *)
Class Keras (V : Type) : Type := {
  weights : Type;
  optimizer : Type;
  tf_rng : Type;
  metrics : Type;
  f_zero : V;
  f_half : V;
  f_one : V;
  Adam : V -> V -> optimizer;
  initial_weights : Model -> M tf_rng weights;
  tf_random_normal : Z -> Z -> M tf_rng (list (list V));
  predict :
    Model -> weights -> list (list V) -> list V -> Result (list (list V)) * list string;
  discriminator_step :
    Model -> weights -> optimizer -> list (list V) -> list V -> list (list V) ->
    M tf_rng (metrics * weights * optimizer);
  combined_step :
    Model -> weights -> weights -> optimizer -> list (list V) -> list V -> list (list V) ->
    M tf_rng (V * weights * weights * optimizer);
  half_add : metrics -> metrics -> metrics;
  takes_effect : bool -> bool -> bool
}.

(** A layer frozen both when the model was compiled and when it is trained
    is not updated. *)
Definition frozen_is_respected {V} (K : Keras V) : Prop :=
  takes_effect false false = false.

Module CGAN.

Section WithLibraries.

Variable V : Type.
Context {R : NumpyRandom} {K : Keras V}.

(** A built Keras model: the graph and the current parameters. *)
Record Network : Type := { graph : Model; params : weights }.

(** What the attribute [self.generator] holds: the model that
    [build_model] returned, or (after the first assignment in [load]) a
    bare [Generator] object. *)
Inductive generator_attr : Type :=
| Built (net : Network)
| Builder (g : Generator.t).

Inductive network_id : Set := the_generator | the_discriminator.

Inductive line : Type :=
| Progress (epoch : Z) (d_loss : metrics) (g_loss : V)
| Text (s : string)
| Bar (s : string). (* a line of the progress bar of [predict] *)

(** The object [self] together with what its methods read and write
    outside of it. [discriminator_trainable] is the attribute
    [self.discriminator.trainable]; the two [compiled_] fields keep the
    value it had at each [compile]. [written] lists the calls of
    [save_weights] in order, whether or not they succeed; [can_create]
    tells of a path whether a file can be written there (its directory
    exists and can be written to) and [disk] what the file at a path
    holds. *)
Record World : Type := {
  batch_size : Z;
  noise_dim : Z;
  data_dim : Z;
  classes : list Z;
  generator : generator_attr;
  discriminator : Network;
  discriminator_trainable : bool;
  discriminator_compiled_trainable : bool;
  combined : Model;
  combined_compiled_trainable : bool;
  adam : optimizer;
  np_random : rng_state;
  tf_random : tf_rng;
  isdir : string -> bool;
  can_create : string -> bool;
  written : list (string * network_id * weights);
  disk : string -> option (network_id * weights);
  stdout : list line
}.

(** What exists before the object is constructed. *)
Record Env : Type := {
  env_np_random : rng_state;
  env_tf_random : tf_rng;
  env_isdir : string -> bool;
  env_can_create : string -> bool;
  env_disk : string -> option (network_id * weights)
}.

Record gan_args : Type := {
  arg_batch_size : Z;
  arg_lr : V;
  arg_noise_dim : Z;
  arg_data_dim : Z;
  arg_num_classes : Z;
  arg_classes : list Z;
  arg_layers_dim : Z
}.

Record train_arguments : Type := {
  cache_prefix : string;
  label_dim : Z;
  epochs : Z;
  sample_interval : Z;
  data_dir : string
}.

(** *** Assignments to the attributes *)

Definition set_discriminator_trainable (b : bool) : M World unit :=
  modify (fun w =>
    {| batch_size := batch_size w; noise_dim := noise_dim w; data_dim := data_dim w;
       classes := classes w; generator := generator w;
       discriminator := discriminator w; discriminator_trainable := b;
       discriminator_compiled_trainable := discriminator_compiled_trainable w;
       combined := combined w;
       combined_compiled_trainable := combined_compiled_trainable w; adam := adam w;
       np_random := np_random w; tf_random := tf_random w; isdir := isdir w;
       can_create := can_create w; written := written w; disk := disk w;
       stdout := stdout w |}).

Definition set_generator (g : generator_attr) : M World unit :=
  modify (fun w =>
    {| batch_size := batch_size w; noise_dim := noise_dim w; data_dim := data_dim w;
       classes := classes w; generator := g; discriminator := discriminator w;
       discriminator_trainable := discriminator_trainable w;
       discriminator_compiled_trainable := discriminator_compiled_trainable w;
       combined := combined w;
       combined_compiled_trainable := combined_compiled_trainable w; adam := adam w;
       np_random := np_random w; tf_random := tf_random w; isdir := isdir w;
       can_create := can_create w; written := written w; disk := disk w;
       stdout := stdout w |}).

Definition set_discriminator_params (p : weights) : M World unit :=
  modify (fun w =>
    {| batch_size := batch_size w; noise_dim := noise_dim w; data_dim := data_dim w;
       classes := classes w; generator := generator w;
       discriminator := {| graph := graph (discriminator w); params := p |};
       discriminator_trainable := discriminator_trainable w;
       discriminator_compiled_trainable := discriminator_compiled_trainable w;
       combined := combined w;
       combined_compiled_trainable := combined_compiled_trainable w; adam := adam w;
       np_random := np_random w; tf_random := tf_random w; isdir := isdir w;
       can_create := can_create w; written := written w; disk := disk w;
       stdout := stdout w |}).

Definition set_adam (o : optimizer) : M World unit :=
  modify (fun w =>
    {| batch_size := batch_size w; noise_dim := noise_dim w; data_dim := data_dim w;
       classes := classes w; generator := generator w;
       discriminator := discriminator w;
       discriminator_trainable := discriminator_trainable w;
       discriminator_compiled_trainable := discriminator_compiled_trainable w;
       combined := combined w;
       combined_compiled_trainable := combined_compiled_trainable w; adam := o;
       np_random := np_random w; tf_random := tf_random w; isdir := isdir w;
       can_create := can_create w; written := written w; disk := disk w;
       stdout := stdout w |}).

Definition set_np_random (g : rng_state) : World -> World :=
  fun w =>
    {| batch_size := batch_size w; noise_dim := noise_dim w; data_dim := data_dim w;
       classes := classes w; generator := generator w;
       discriminator := discriminator w;
       discriminator_trainable := discriminator_trainable w;
       discriminator_compiled_trainable := discriminator_compiled_trainable w;
       combined := combined w;
       combined_compiled_trainable := combined_compiled_trainable w; adam := adam w;
       np_random := g; tf_random := tf_random w; isdir := isdir w;
       can_create := can_create w; written := written w; disk := disk w;
       stdout := stdout w |}.

Definition set_tf_random (g : tf_rng) : World -> World :=
  fun w =>
    {| batch_size := batch_size w; noise_dim := noise_dim w; data_dim := data_dim w;
       classes := classes w; generator := generator w;
       discriminator := discriminator w;
       discriminator_trainable := discriminator_trainable w;
       discriminator_compiled_trainable := discriminator_compiled_trainable w;
       combined := combined w;
       combined_compiled_trainable := combined_compiled_trainable w; adam := adam w;
       np_random := np_random w; tf_random := g; isdir := isdir w;
       can_create := can_create w; written := written w; disk := disk w;
       stdout := stdout w |}.

(** The call [model.save_weights(path)] is made. *)
Definition log_call (path : string) (which : network_id) (p : weights)
  : M World unit :=
  modify (fun w =>
    {| batch_size := batch_size w; noise_dim := noise_dim w; data_dim := data_dim w;
       classes := classes w; generator := generator w;
       discriminator := discriminator w;
       discriminator_trainable := discriminator_trainable w;
       discriminator_compiled_trainable := discriminator_compiled_trainable w;
       combined := combined w;
       combined_compiled_trainable := combined_compiled_trainable w; adam := adam w;
       np_random := np_random w; tf_random := tf_random w; isdir := isdir w;
       can_create := can_create w; written := written w ++ [(path, which, p)];
       disk := disk w; stdout := stdout w |}).

(** The file at [path] is created, or replaced, with the weights. *)
Definition store_file (path : string) (which : network_id) (p : weights)
  : M World unit :=
  modify (fun w =>
    {| batch_size := batch_size w; noise_dim := noise_dim w; data_dim := data_dim w;
       classes := classes w; generator := generator w;
       discriminator := discriminator w;
       discriminator_trainable := discriminator_trainable w;
       discriminator_compiled_trainable := discriminator_compiled_trainable w;
       combined := combined w;
       combined_compiled_trainable := combined_compiled_trainable w; adam := adam w;
       np_random := np_random w; tf_random := tf_random w; isdir := isdir w;
       can_create := can_create w; written := written w;
       disk := fun q => if String.eqb q path then Some (which, p) else disk w q;
       stdout := stdout w |}).

(** [model.save_weights(path)]: the file is written where it can be
    created; otherwise the call raises and the file system stays as it is. *)
Definition write_file (path : string) (which : network_id) (p : weights) : M World unit :=
  log_call path which p ;;;
  w <- gets (fun w => w) ;;
  if can_create w path then store_file path which p else raise OSError.

Definition print (l : line) : M World unit :=
  modify (fun w =>
    {| batch_size := batch_size w; noise_dim := noise_dim w; data_dim := data_dim w;
       classes := classes w; generator := generator w;
       discriminator := discriminator w;
       discriminator_trainable := discriminator_trainable w;
       discriminator_compiled_trainable := discriminator_compiled_trainable w;
       combined := combined w;
       combined_compiled_trainable := combined_compiled_trainable w; adam := adam w;
       np_random := np_random w; tf_random := tf_random w; isdir := isdir w;
       can_create := can_create w; written := written w; disk := disk w;
       stdout := stdout w ++ [l] |}).

(** Several lines in a row. *)
Definition print_all (ls : list line) : M World unit :=
  modify (fun w =>
    {| batch_size := batch_size w; noise_dim := noise_dim w; data_dim := data_dim w;
       classes := classes w; generator := generator w;
       discriminator := discriminator w;
       discriminator_trainable := discriminator_trainable w;
       discriminator_compiled_trainable := discriminator_compiled_trainable w;
       combined := combined w;
       combined_compiled_trainable := combined_compiled_trainable w; adam := adam w;
       np_random := np_random w; tf_random := tf_random w; isdir := isdir w;
       can_create := can_create w; written := written w; disk := disk w;
       stdout := stdout w ++ ls |}).

(** A computation on NumPy's generator, run on the one of the world. *)
Definition with_numpy {A} (c : M rng_state A) : M World A :=
  fun w => let (r, g) := c (np_random w) in (r, set_np_random g w).

(** A computation on TensorFlow's generator, run on the one of the world. *)
Definition with_tf {A} (c : M tf_rng A) : M World A :=
  fun w => let (r, g) := c (tf_random w) in (r, set_tf_random g w).

(** [self.generator] used as a Keras model. *)
Definition generator_model : M World Network :=
  fun w => match generator w with
           | Built net => (inr net, w)
           | Builder _ => (inl AttributeError, w)
           end.

(** *** [CGAN.__init__] *)

Definition init (a : gan_args) : M Env World :=
  fun env =>
    match Generator.new [arg_batch_size a; arg_num_classes a],
          Discriminator.new [arg_batch_size a; arg_num_classes a] with
    | inl e, _ => (inl e, env)
    | _, inl e => (inl e, env)
    | inr g, inr d =>
      match run_generator_build_model g [arg_noise_dim a] (arg_layers_dim a) (arg_data_dim a)
      with
      | inl e => (inl e, env)
      | inr gen =>
      match run_discriminator_build_model d [arg_data_dim a] (arg_layers_dim a) with
      | inl e => (inl e, env)
      | inr dis =>
        match initial_weights gen (env_tf_random env) with
        | (inl e, _) => (inl e, env)
        | (inr gen_params, tf1) =>
            match initial_weights dis tf1 with
            | (inl e, _) => (inl e, env)
            | (inr dis_params, tf2) =>
                let optimizer := Adam (arg_lr a) f_half in
                let trainable := true in
                let discriminator_compiled := trainable in
                let z := Input "z" [arg_noise_dim a] (arg_batch_size a) None in
                let label := Input "label" [1] (arg_batch_size a) None in
                let record := Apply (inputs gen) (outputs gen) [z; label] in
                let trainable := false in
                let validity := Apply (inputs dis) (outputs dis) [record; label] in
                let combined_compiled := trainable in
                (inr {| batch_size := arg_batch_size a;
                        noise_dim := arg_noise_dim a;
                        data_dim := arg_data_dim a;
                        classes := arg_classes a;
                        generator := Built {| graph := gen; params := gen_params |};
                        discriminator := {| graph := dis; params := dis_params |};
                        discriminator_trainable := trainable;
                        discriminator_compiled_trainable := discriminator_compiled;
                        combined := {| inputs := [z; label]; outputs := validity |};
                        combined_compiled_trainable := combined_compiled;
                        adam := optimizer;
                        np_random := env_np_random env;
                        tf_random := tf2;
                        isdir := env_isdir env;
                        can_create := env_can_create env;
                        written := [];
                        disk := env_disk env;
                        stdout := [] |}, env)
            end
        end
      end
      end
    end.

(** *** [CGAN.get_data_batch] *)

(** [np.random.seed(seed)]: a seed outside [0 .. 2^32-1] is refused. *)
Definition np_random_seed (seed : Z) : M rng_state unit :=
  if (0 <=? seed) && (seed <=? 2 ^ 32 - 1)
  then (fun _ => (inr tt, mt19937_seed seed))
  else raise ValueError.

(** [np.random.choice(a, replace=False, size=len(a))] *)
Definition np_random_choice (a : list Z) : M rng_state (list Z) :=
  fun g => let (ix, g') := choice_all g a in (inr ix, g').

(** Lines 52 to 57, up to the slice [train_ix[start_i: stop_i]] of line
    58: the labels of the rows of the batch. *)
Definition batch_labels (train : DataFrame V) (batch_size seed : Z)
  : M rng_state (list Z) :=
  start_i <- lift_result (py_mod (batch_size * seed) (len train)) ;;
  let stop_i := start_i + batch_size in
  shuffle_seed <- lift_result (py_floordiv (batch_size * seed) (len train)) ;;
  np_random_seed shuffle_seed ;;;
  train_ix <- np_random_choice (index train) ;;
  let train_ix := train_ix ++ train_ix in
  ret (py_slice train_ix start_i stop_i).

Definition get_data_batch (train : DataFrame V) (batch_size seed : Z)
  : M rng_state (list (list V)) :=
  labels <- batch_labels train batch_size seed ;;
  x <- lift_result (loc train labels) ;;
  lift_result (np_reshape (values x) batch_size).

(** The default of the parameter [seed]. *)
Definition default_seed : Z := 0.

(** *** [CGAN.train] *)

(** [self.discriminator.train_on_batch([x, label], y)] *)
Definition discriminator_train_on_batch (x : list (list V)) (label : list V)
  (y : list (list V)) : M World metrics :=
  w <- gets (fun w => w) ;;
  r <- with_tf (discriminator_step (graph (discriminator w)) (params (discriminator w))
                  (adam w) x label y) ;;
  let '(m, p, o) := r in
  (if takes_effect (discriminator_compiled_trainable w) (discriminator_trainable w)
   then set_discriminator_params p else ret tt) ;;;
  set_adam o ;;;
  ret m.

(** [self.combined.train_on_batch([noise, label], y)]: the generator's
    layers are always trainable, the discriminator's as their attribute
    says. *)
Definition combined_train_on_batch (noise : list (list V)) (label : list V)
  (y : list (list V)) : M World V :=
  w <- gets (fun w => w) ;;
  net <- generator_model ;;
  r <- with_tf (combined_step (combined w) (params net) (params (discriminator w))
                  (adam w) noise label y) ;;
  let '(loss, pg, pd, o) := r in
  set_generator (Built {| graph := graph net; params := pg |}) ;;;
  (if takes_effect (combined_compiled_trainable w) (discriminator_trainable w)
   then set_discriminator_params pd else ret tt) ;;;
  set_adam o ;;;
  ret loss.

(** Line 73: the batch of an epoch. The call passes no [seed]. *)
Definition epoch_batch (data : DataFrame V) (epoch : Z) : M World (list (list V)) :=
  w <- gets (fun w => w) ;;
  with_numpy (get_data_batch data (batch_size w) default_seed).

(** Lines 69 to 84, "Train Discriminator". *)
Definition train_discriminator (data : DataFrame V) (a : train_arguments)
  (valid fake : list (list V)) (epoch : Z) : M World (list V * metrics) :=
  set_discriminator_trainable true ;;;
  batch_y <- epoch_batch data epoch ;;
  label <- lift_result (np_column batch_y (label_dim a)) ;;
  let batch_x := np_drop_last_column batch_y in
  w <- gets (fun w => w) ;;
  noise <- with_tf (tf_random_normal (batch_size w) (noise_dim w)) ;;
  net <- generator_model ;;
  let (prediction, bars) := predict (graph net) (params net) noise label in
  print_all (map Bar bars) ;;;
  gen_records <- lift_result prediction ;;
  d_loss_real <- discriminator_train_on_batch batch_x label valid ;;
  d_loss_fake <- discriminator_train_on_batch gen_records label fake ;;
  let d_loss := half_add d_loss_real d_loss_fake in
  ret (label, d_loss).

(** Lines 89 to 92, "Train Generator". *)
Definition train_generator (label : list V) (valid : list (list V)) : M World V :=
  set_discriminator_trainable false ;;;
  w <- gets (fun w => w) ;;
  noise <- with_tf (tf_random_normal (batch_size w) (noise_dim w)) ;;
  combined_train_on_batch noise label valid.

Definition checkpoint_template (a : train_arguments) : string :=
  (data_dir a ++ cache_prefix a ++ "_{}_model_weights_step_{}.h5")%string.

(** Lines 98 to 109. *)
Definition checkpoint (a : train_arguments) (epoch : Z) : M World unit :=
  r <- lift_result (py_mod epoch (sample_interval a)) ;;
  if r =? 0 then
    let model_checkpoint_base_name := checkpoint_template a in
    net <- generator_model ;;
    p <- lift_result (str_format model_checkpoint_base_name
                        ["generator"%string; str_of_int epoch]) ;;
    write_file p the_generator (params net) ;;;
    p <- lift_result (str_format model_checkpoint_base_name
                        ["discriminator"%string; str_of_int epoch]) ;;
    w <- gets (fun w => w) ;;
    write_file p the_discriminator (params (discriminator w)) ;;;
    w <- gets (fun w => w) ;;
    z <- with_tf (tf_random_normal 432 (noise_dim w)) ;;
    print (Text "generated_data")
  else ret tt.

(** The body of the loop. *)
Definition train_epoch (data : DataFrame V) (a : train_arguments)
  (valid fake : list (list V)) (epoch : Z) : M World unit :=
  r <- train_discriminator data a valid fake epoch ;;
  let '(label, d_loss) := r in
  g_loss <- train_generator label valid ;;
  print (Progress epoch d_loss g_loss) ;;;
  checkpoint a epoch.

Definition train (data : DataFrame V) (a : train_arguments) : M World unit :=
  w <- gets (fun w => w) ;;
  valid <- lift_result (np_full f_one (batch_size w) 1) ;;
  fake <- lift_result (np_full f_zero (batch_size w) 1) ;;
  for_each (range (epochs a)) (train_epoch data a valid fake).

(** *** [CGAN.save] and [CGAN.load] *)

Definition save (path name : string) : M World unit :=
  w <- gets (fun w => w) ;;
  if isdir w path then
    let model_path := os_path_join path name in
    net <- generator_model ;;
    write_file model_path the_generator (params net)
  else raise AssertionError.

(** The class [Generator] has the methods [__init__] and [build_model]
    only: looking up [load_weights] on its instance raises. *)
Definition load (path : string) : M World generator_attr :=
  w <- gets (fun w => w) ;;
  if isdir w path then
    g <- lift_result (Generator.new [batch_size w]) ;;
    set_generator (Builder g) ;;;
    raise AttributeError
  else raise AssertionError.

End WithLibraries.

Arguments World V {R K}.
Arguments Env V {R K}.
Arguments Network V {K}.
Arguments generator_attr V {K}.
Arguments line V {K}.

End CGAN.

(** ** A small instance of the libraries, to run the model on *)

Module Demo.

(** A generator whose state is the seed; what it draws is the list
    rotated by the state. *)
Definition rotate (k : Z) (a : list Z) : list Z :=
  match a with
  | [] => []
  | _ => let n := Z.to_nat (k mod len a) in skipn n a ++ firstn n a
  end.

#[export] Instance numpy : NumpyRandom := {|
  rng_state := Z;
  mt19937_seed := fun seed => seed;
  choice_all := fun g a => (rotate g a, g + 1)
|}.

(** Parameters are counters of the updates they received; the [trainable]
    attribute is read when [train_on_batch] is called; [predict] prints a
    progress bar of one line. *)
#[export] Instance keras : Keras Z := {|
  weights := Z;
  optimizer := Z;
  tf_rng := Z;
  metrics := Z;
  f_zero := 0;
  f_half := 0;
  f_one := 1;
  Adam := fun _ _ => 0;
  initial_weights := fun _ g => (inr 0, g + 1);
  tf_random_normal := fun rows cols g =>
    (inr (repeat (repeat g (Z.to_nat cols)) (Z.to_nat rows)), g + 1);
  predict := fun _ _ noise _ => (inr noise, ["1/1 [====] - 0s"%string]);
  discriminator_step := fun _ p o _ _ _ g => (inr (0, p + 1, o + 1), g);
  combined_step := fun _ pg pd o _ _ _ g => (inr (0, pg + 1, pd + 1, o + 1), g);
  half_add := fun a b => a + b;
  takes_effect := fun _ now => now
|}.

(** Whether [p] is the name of a file right under [out/]. *)
Fixpoint no_slash (p : string) : bool :=
  match p with
  | EmptyString => true
  | String c rest => negb (Ascii.eqb c "/") && no_slash rest
  end.

Definition under_out (p : string) : bool :=
  match p with
  | String "o" (String "u" (String "t" (String "/" name))) => no_slash name
  | _ => false
  end.

(** A file system with the one directory [out/], empty. *)
Definition env : CGAN.Env Z := {|
  CGAN.env_np_random := 7;
  CGAN.env_tf_random := 0;
  CGAN.env_isdir := fun p => String.eqb p "out/";
  CGAN.env_can_create := under_out;
  CGAN.env_disk := fun _ => None
|}.

Definition args (batch_size : Z) : CGAN.gan_args Z := {|
  CGAN.arg_batch_size := batch_size;
  CGAN.arg_lr := 0;
  CGAN.arg_noise_dim := 2;
  CGAN.arg_data_dim := 1;
  CGAN.arg_num_classes := 2;
  CGAN.arg_classes := [0; 1];
  CGAN.arg_layers_dim := 4
|}.

(** Tables of two, three and four rows; the last column is the label. *)
Definition two_rows : DataFrame Z := [(0, [10; 0]); (1, [20; 1])].

Definition three_rows : DataFrame Z := [(0, [10; 0]); (1, [20; 1]); (2, [30; 0])].

Definition four_rows : DataFrame Z :=
  [(0, [10; 0]); (1, [20; 1]); (2, [30; 0]); (3, [40; 1])].

Definition targs (prefix : string) (epochs interval : Z) : CGAN.train_arguments := {|
  CGAN.cache_prefix := prefix;
  CGAN.label_dim := 1;
  CGAN.epochs := epochs;
  CGAN.sample_interval := interval;
  CGAN.data_dir := "out/"
|}.

(** Arguments that name the first column as the label. *)
Definition label_first : CGAN.train_arguments := {|
  CGAN.cache_prefix := "run";
  CGAN.label_dim := 0;
  CGAN.epochs := 1;
  CGAN.sample_interval := 1;
  CGAN.data_dir := "out/"
|}.

(** The value of a computation that is known not to raise. *)
Definition returned_type {A} (r : Result A) : Type :=
  match r with
  | inl _ => unit
  | inr _ => A
  end.

Definition returned {A} (r : Result A) : returned_type r :=
  match r as r0 return returned_type r0 with
  | inl _ => tt
  | inr a => a
  end.

(** The object that [CGAN(args 2)] constructs in [env]. *)
Definition cgan : CGAN.World Z := returned (fst (CGAN.init (args 2) env)).

(** The same with a batch size of 8. *)
Definition cgan8 : CGAN.World Z := returned (fst (CGAN.init (args 8) env)).

End Demo.

(** ** The vocabulary of the statements *)

(** A table as a [DataFrame] is: every row has the [c] columns and no two
    rows share a label. *)
Definition well_formed {V} (c : nat) (train : DataFrame V) : Prop :=
  NoDup (index train) /\ Forall (fun r => List.length (snd r) = c) train.

(** The ordering that a call of [get_data_batch] draws: the one of the
    generator freshly seeded with [shuffle_seed]. *)
Definition shuffled {V} {R : NumpyRandom} (train : DataFrame V) (shuffle_seed : Z) : list Z :=
  fst (choice_all (mt19937_seed shuffle_seed) (index train)).

(** [keeps f c]: whatever [c] does, and whether or not it raises, the
    component [f] of the state is afterwards what it was. *)
Definition keeps {S A F} (f : S -> F) (c : M S A) : Prop :=
  forall s, f (snd (c s)) = f s.

(** No [{] and no [}] in the string. *)
Fixpoint brace_free (s : string) : bool :=
  match s with
  | EmptyString => true
  | String c rest => negb (is_brace c) && brace_free rest
  end.

(** The name of a checkpoint file as the specification gives it:
    [{output_directory}{checkpoint_prefix}_{role}_model_weights_step_{step}.h5]. *)
Definition spec_checkpoint_path (a : CGAN.train_arguments) (role : string) (step : Z) : string :=
  (CGAN.data_dir a ++ CGAN.cache_prefix a ++ "_" ++ role ++ "_model_weights_step_"
     ++ str_of_int step ++ ".h5")%string.

(** The files of the checkpoint of one step, in the order of writing. *)
Definition spec_checkpoint (a : CGAN.train_arguments) (step : Z)
  : list (string * CGAN.network_id) :=
  [(spec_checkpoint_path a "generator" step, CGAN.the_generator);
   (spec_checkpoint_path a "discriminator" step, CGAN.the_discriminator)].

(** The paths that [save_weights] was called with so far, with the network
    saved in each. *)
Definition files {V} {R : NumpyRandom} {K : Keras V} (w : CGAN.World V)
  : list (string * CGAN.network_id) :=
  map fst (CGAN.written w).

(** What a line printed by [train] itself shows: the epoch of a progress
    line, or the text; [None] for a line of the progress bar of [predict]. *)
Definition line_kind {V} {K : Keras V} (l : CGAN.line V) : option (Z + string) :=
  match l with
  | CGAN.Progress epoch _ _ => Some (inl epoch)
  | CGAN.Text s => Some (inr s)
  | CGAN.Bar _ => None
  end.

(** The output without the progress bars of [predict]. *)
Definition loop_lines {V} {K : Keras V} (ls : list (CGAN.line V)) : list (Z + string) :=
  flat_map (fun l => match line_kind l with Some k => [k] | None => [] end) ls.

(** [only_bars c]: whatever [c] does, and whether or not it raises, all
    that it prints is progress bars of [predict]. *)
Definition only_bars {V} {R : NumpyRandom} {K : Keras V} {A}
  (c : M (CGAN.World V) A) : Prop :=
  forall w, exists bars, CGAN.stdout (snd (c w)) = CGAN.stdout w ++ map (@CGAN.Bar V K) bars.

(** [saves_only c]: whatever [c] does, and whether or not it raises, all
    that it does to the files is through calls of [save_weights]: the
    calls made before are followed by its own, every file that was there
    is still there, and a file at a path that it did not save to holds
    what it held. *)
Definition saves_only {V} {R : NumpyRandom} {K : Keras V} {A}
  (c : M (CGAN.World V) A) : Prop :=
  forall w,
    exists calls,
      CGAN.written (snd (c w)) = CGAN.written w ++ calls /\
      (forall q, CGAN.disk w q <> None -> CGAN.disk (snd (c w)) q <> None) /\
      (forall q, ~ In q (map (fun call => fst (fst call)) calls) ->
                 CGAN.disk (snd (c w)) q = CGAN.disk w q).

(** The lines that one epoch prints when it completes. *)
Definition epoch_lines (a : CGAN.train_arguments) (epoch : Z) : list (Z + string) :=
  inl epoch ::
  (if epoch mod CGAN.sample_interval a =? 0 then [inr "generated_data"%string] else []).


(** The state of NumPy's generator after the draw of the training loop:
    the one that follows a draw from the seed 0. *)
Definition state_after_first_draw {V} {R : NumpyRandom} (data : DataFrame V) : rng_state :=
  snd (choice_all (mt19937_seed 0) (index data)).

(** * Properties *)

Import CGAN.

(** ** The monad *)

Lemma bind_inr {S A B} (c : M S A) (k : A -> M S B) s b s' :
  bind c k s = (inr b, s') ->
  exists a s1, c s = (inr a, s1) /\ k a s1 = (inr b, s').
Proof.
  unfold bind. destruct (c s) as [[e | a] s1]; intro H.
  - discriminate.
  - now exists a, s1.
Qed.

(** ** Slices and tables *)

Lemma len_app {A} (l l' : list A) : len (l ++ l') = len l + len l'.
Proof. unfold len. rewrite length_app. lia. Qed.

Lemma len_nonneg {A} (l : list A) : 0 <= len l.
Proof. unfold len. lia. Qed.

Lemma py_slice_window {A} (l : list A) (i n : Z) :
  0 <= i -> 0 <= n -> i + n <= len l ->
  py_slice l i (i + n) = firstn (Z.to_nat n) (skipn (Z.to_nat i) l).
Proof.
  intros Hi Hn Hl. unfold py_slice, clip_index.
  destruct (i <? 0) eqn:E1; [apply Z.ltb_lt in E1; lia |].
  destruct (i + n <? 0) eqn:E2; [apply Z.ltb_lt in E2; lia |].
  rewrite !Z.min_l by lia. f_equal. f_equal. lia.
Qed.

Lemma py_slice_window_length {A} (l : list A) (i n : Z) :
  0 <= i -> 0 <= n -> i + n <= len l -> len (py_slice l i (i + n)) = n.
Proof.
  intros Hi Hn Hl. rewrite py_slice_window by assumption.
  unfold len in *. rewrite length_firstn, length_skipn. lia.
Qed.

Lemma In_firstn_skipn {A} (l : list A) (n k : nat) x :
  In x (firstn n (skipn k l)) -> In x l.
Proof.
  intro H.
  rewrite <- (firstn_skipn k l). apply in_or_app. right.
  rewrite <- (firstn_skipn n (skipn k l)). apply in_or_app. now left.
Qed.

Lemma py_slice_incl {A} (l : list A) (i j : Z) x : In x (py_slice l i j) -> In x l.
Proof. unfold py_slice. apply In_firstn_skipn. Qed.

Section TableFacts.

Variable V : Type.

Lemma loc_label_unique (train : DataFrame V) l :
  NoDup (index train) -> In l (index train) ->
  exists r, loc_label train l = inr [r] /\ fst r = l /\ In r train.
Proof.
  unfold loc_label, index.
  induction train as [| [k row] train IH]; simpl; intros Hnd Hin; [easy |].
  inversion Hnd as [| ? ? Hk Hnd']; subst.
  destruct (k =? l) eqn:E.
  - apply Z.eqb_eq in E. subst k.
    assert (Hnone : filter (fun r : Z * list V => fst r =? l) train = []).
    { clear -Hk. induction train as [| [k' row'] train IH]; simpl in *; [easy |].
      destruct (k' =? l) eqn:E'.
      - apply Z.eqb_eq in E'. subst. tauto.
      - apply IH. tauto. }
    rewrite Hnone. exists (l, row). auto.
  - destruct Hin as [-> | Hin]; [rewrite Z.eqb_refl in E; discriminate |].
    destruct (IH Hnd' Hin) as (r & Hr & Hf & Hi).
    destruct (filter _ train) as [| r0 rs]; [discriminate |].
    exists r. auto.
Qed.

Lemma loc_unique (train : DataFrame V) labels :
  NoDup (index train) -> (forall l, In l labels -> In l (index train)) ->
  exists x, loc train labels = inr x /\ index x = labels /\ incl x train.
Proof.
  intros Hnd. induction labels as [| l labels IH]; intros Hin; simpl.
  - exists []. repeat split. intros r [].
  - destruct (@loc_label_unique train l Hnd (Hin l (or_introl eq_refl))) as (r & -> & Hf & Hr).
    destruct IH as (x & -> & Hx & Hincl); [intros; apply Hin; now right |].
    exists (r :: x). simpl. repeat split.
    + now rewrite Hf, Hx.
    + intros r' [<- | H']; auto.
Qed.

Lemma chunks_of_concat (c : nat) (x : list (list V)) :
  Forall (fun row => List.length row = c) x ->
  map (chunk c (concat x)) (seq 0 (List.length x)) = x.
Proof.
  induction 1 as [| row x Hrow _ IH]; [reflexivity |].
  simpl List.length. rewrite <- cons_seq, <- seq_shift. cbn [map concat].
  rewrite map_map. f_equal.
  - unfold chunk. simpl. rewrite firstn_app, <- Hrow, Nat.sub_diag, firstn_all.
    simpl. apply app_nil_r.
  - rewrite <- IH at 2. apply map_ext. intro i. unfold chunk.
    replace (S i * c)%nat with (List.length row + i * c)%nat by (simpl; lia).
    now rewrite skipn_app, skipn_all2, Nat.add_comm, Nat.add_sub by lia.
Qed.

Lemma length_concat_rect (c : nat) (x : list (list V)) :
  Forall (fun row => List.length row = c) x ->
  List.length (concat x) = (List.length x * c)%nat.
Proof.
  induction 1 as [| row x Hrow _ IH]; [reflexivity |].
  simpl. rewrite length_app, IH, Hrow. lia.
Qed.

Lemma np_reshape_rect (c : nat) (x : list (list V)) :
  Forall (fun row => List.length row = c) x -> 0 < len x ->
  np_reshape x (len x) = inr x.
Proof.
  intros Hrect Hpos. unfold np_reshape.
  destruct (len x <=? 0) eqn:E; [apply Z.leb_le in E; lia |].
  assert (Hflat : len (concat x) = Z.of_nat c * len x).
  { unfold len. rewrite (length_concat_rect Hrect). lia. }
  rewrite Hflat, Z.mod_mul by lia. simpl.
  rewrite Z.div_mul by lia. unfold len. rewrite !Nat2Z.id.
  now rewrite chunks_of_concat.
Qed.

End TableFacts.

(** ** The batch sampler *)

Section SamplerFacts.

Variable V : Type.
Context {R : NumpyRandom}.

Lemma np_random_seed_accepts seed g :
  0 <= seed <= 2 ^ 32 - 1 -> np_random_seed seed g = (inr tt, mt19937_seed seed).
Proof.
  intros [H0 H1]. unfold np_random_seed.
  apply Z.leb_le in H0, H1. now rewrite H0, H1.
Qed.

(** What [batch_labels] computes when the table is not empty and NumPy
    accepts the seed. *)
Lemma batch_labels_run (train : DataFrame V) (batch_size seed : Z) g :
  len train <> 0 ->
  0 <= batch_size * seed / len train <= 2 ^ 32 - 1 ->
  batch_labels train batch_size seed g =
    (inr (py_slice (shuffled train (batch_size * seed / len train)
                    ++ shuffled train (batch_size * seed / len train))
                   (batch_size * seed mod len train)
                   (batch_size * seed mod len train + batch_size)),
     snd (choice_all (mt19937_seed (batch_size * seed / len train)) (index train))).
Proof.
  intros HN Hseed. unfold batch_labels, py_mod, py_floordiv, lift_result, bind.
  destruct (len train =? 0) eqn:E; [apply Z.eqb_eq in E; contradiction |].
  rewrite (np_random_seed_accepts _ Hseed).
  unfold np_random_choice, shuffled, ret.
  now destruct (choice_all _ _).
Qed.

(** The outcome of a call does not depend on the state in which it finds
    the generator. *)
Lemma batch_labels_any_state (train : DataFrame V) (batch_size seed : Z) g g' :
  fst (batch_labels train batch_size seed g) = fst (batch_labels train batch_size seed g').
Proof.
  unfold batch_labels, py_mod, py_floordiv, lift_result, bind.
  destruct (len train =? 0); [reflexivity |].
  unfold np_random_seed.
  destruct ((0 <=? _) && (_ <=? _)); [| reflexivity].
  unfold np_random_choice, ret. now destruct (choice_all _ _).
Qed.

Lemma get_data_batch_of_labels (train : DataFrame V) (batch_size seed : Z) g :
  fst (get_data_batch train batch_size seed g) =
    match fst (batch_labels train batch_size seed g) with
    | inl e => inl e
    | inr labels =>
        match loc train labels with
        | inl e => inl e
        | inr x => np_reshape (values x) batch_size
        end
    end.
Proof.
  unfold get_data_batch, bind, lift_result.
  destruct (batch_labels train batch_size seed g) as [[e | labels] g1]; [reflexivity |].
  simpl. now destruct (loc train labels).
Qed.

Lemma get_data_batch_any_state (train : DataFrame V) (batch_size seed : Z) g g' :
  fst (get_data_batch train batch_size seed g) = fst (get_data_batch train batch_size seed g').
Proof.
  rewrite !get_data_batch_of_labels.
  now rewrite (batch_labels_any_state train batch_size seed g g').
Qed.

Lemma shuffled_length (train : DataFrame V) s :
  choice_permutes R -> len (shuffled train s) = len train.
Proof.
  intros HR. unfold len, shuffled.
  rewrite (Permutation_length (HR _ _)). unfold index. now rewrite length_map.
Qed.

Lemma shuffled_In (train : DataFrame V) s l :
  choice_permutes R -> In l (shuffled train s) -> In l (index train).
Proof. intros HR. apply Permutation_in, HR. Qed.

End SamplerFacts.

(** C5. [get_data_batch] is deterministic: two calls with the same table,
    batch size and step return the same batch (or raise the same
    exception), whatever the states [g1] and [g2] of NumPy's global
    generator at the two calls. *)
Theorem get_data_batch_deterministic :
  forall (V : Type) (R : NumpyRandom) (train : DataFrame V) (batch_size step : Z)
         (g1 g2 : rng_state),
    fst (get_data_batch train batch_size step g1) =
    fst (get_data_batch train batch_size step g2).
Proof.
  intros V R data size step g1 g2. apply get_data_batch_any_state.
Qed.

(** C6, as amended. For a table of [N > 0] rows, [get_data_batch] selects
    the window [start : start + batch_size] of the shuffled list of labels
    joined to itself, with [start = (batch_size * step) mod N]; the
    shuffle is the one of the generator seeded with
    [(batch_size * step) // N], the number of passes over the table that
    the earlier steps completed (NumPy has to accept it as a seed). From one
    step to the next this seed grows by [(start + batch_size) // N]: it
    stays the same as long as the next window starts within the same pass. *)
Theorem batch_window_and_shuffle_seed :
  forall (V : Type) (R : NumpyRandom) (data : DataFrame V) (size step : Z) (g : rng_state),
    0 < len data ->
    0 <= size * step / len data <= 2 ^ 32 - 1 ->
    let N := len data in
    let start := (size * step) mod N in
    let order := shuffled data (size * step / N) in
    let window := py_slice (order ++ order) start (start + size) in
    fst (batch_labels data size step g) = inr window /\
    fst (get_data_batch data size step g) =
      match loc data window with
      | inl e => inl e
      | inr x => np_reshape (values x) size
      end /\
    size * (step + 1) / N = size * step / N + (start + size) / N.
Proof.
  intros V R data size step g HN Hseed N start order window.
  assert (Hrun := batch_labels_run data size step g (Z.neq_sym _ _ (Z.lt_neq _ _ HN)) Hseed).
  split; [| split].
  - now rewrite Hrun.
  - rewrite get_data_batch_of_labels, Hrun. reflexivity.
  - subst start N.
    replace (size * (step + 1)) with (size * step + size) by ring.
    rewrite (Z.div_mod (size * step) (len data)) at 1 by lia.
    rewrite <- Z.add_assoc, Z.mul_comm, Z.div_add_l by lia. reflexivity.
Qed.

Lemma batch_window_and_shuffle_seed_witness :
  0 < len Demo.four_rows /\
  0 <= 2 * 2 / len Demo.four_rows <= 2 ^ 32 - 1 /\
  fst (batch_labels (R := Demo.numpy) Demo.four_rows 2 2 7) =
    inr (py_slice (shuffled (R := Demo.numpy) Demo.four_rows (2 * 2 / 4)
                   ++ shuffled (R := Demo.numpy) Demo.four_rows (2 * 2 / 4))
                  (2 * 2 mod 4) (2 * 2 mod 4 + 2)).
Proof.
  assert (H1 : 0 < len Demo.four_rows) by (vm_compute; reflexivity).
  assert (H2 : 0 <= 2 * 2 / len Demo.four_rows <= 2 ^ 32 - 1)
    by (vm_compute; split; discriminate).
  split; [exact H1 | split; [exact H2 |]].
  exact (proj1 (@batch_window_and_shuffle_seed Z Demo.numpy Demo.four_rows 2 2 7 H1 H2)).
Defined.

(** C6, as stated, fails: on a table of 4 rows with batch size 2, step 2
    starts the second pass and draws with seed [(2 * 2) // 4 = 1], not
    with [step // 4 = 0]; the window is [[1; 2]] where the ordering of
    seed 0 would give [[0; 1]]. And no window is selected at a step whose
    seed [np.random.seed] refuses, as at step [2^32] on one row. *)
Lemma shuffle_seed_is_not_step_div_rows :
  (fst (batch_labels (R := Demo.numpy) Demo.four_rows 2 2 7) = inr [1; 2] /\
   (let order := shuffled (R := Demo.numpy) Demo.four_rows (2 / len Demo.four_rows) in
    py_slice (order ++ order) (2 * 2 mod 4) (2 * 2 mod 4 + 2)) = [0; 1] /\
   fst (batch_labels (R := Demo.numpy) Demo.four_rows 2 2 7) <>
     inr (let order := shuffled (R := Demo.numpy) Demo.four_rows (2 / len Demo.four_rows) in
          py_slice (order ++ order) (2 * 2 mod 4) (2 * 2 mod 4 + 2))) /\
  fst (batch_labels (R := Demo.numpy) [(0, [10; 0])] 1 (2 ^ 32) 7) = inl ValueError.
Proof.
  split; [split; [reflexivity | split; [reflexivity |]] | reflexivity].
  vm_compute. discriminate.
Qed.

Lemma demo_numpy_lawful : choice_permutes Demo.numpy.
Proof.
  intros g a. simpl. unfold Demo.rotate. destruct a as [| x a]; [constructor |].
  set (n := Z.to_nat _).
  rewrite Permutation_app_comm. now rewrite firstn_skipn.
Qed.

(** C3, as amended. For a well-formed table of [N >= 1] rows, a batch size
    [B >= 1] and a step [>= 0] whose shuffle seed [(B * step) // N] NumPy
    accepts (it is below [2^32]): whenever the window fits the doubled list
    of labels, [(B * step) mod N + B <= 2 N], [get_data_batch] returns a
    batch of exactly [B] rows: the slice of the doubled list of labels has
    length [B], and the batch is made of the rows of the table that carry
    these labels, in this order. The window fits at every step when
    [B <= N] and when [B = 2 N]. *)
Theorem get_data_batch_size :
  forall (V : Type) (R : NumpyRandom) (data : DataFrame V) (c : nat)
         (size step : Z) (g : rng_state),
    choice_permutes R ->
    well_formed c data ->
    1 <= size ->
    0 < len data ->
    0 <= step ->
    size * step / len data <= 2 ^ 32 - 1 ->
    (size <= len data \/ size = 2 * len data ->
     size * step mod len data + size <= 2 * len data) /\
    (size * step mod len data + size <= 2 * len data ->
     exists labels x,
       fst (batch_labels data size step g) = inr labels /\
       len labels = size /\
       loc data labels = inr x /\
       index x = labels /\
       incl x data /\
       fst (get_data_batch data size step g) = inr (values x) /\
       len (values x) = size).
Proof.
  intros V R data c size step g HR [Hnd Hrect] Hsize HN Hstep Hseed.
  assert (Hbound : 0 <= size * step mod len data < len data)
    by (apply Z.mod_pos_bound; lia).
  split.
  - intros [Hle | Htwice]; [lia |].
    replace (size * step) with (2 * step * len data) by lia.
    rewrite Z.mod_mul by lia. lia.
  - intros Hfits.
    assert (Hdiv : 0 <= size * step / len data) by (apply Z.div_pos; nia).
    assert (Hrun := batch_labels_run data size step g
                      (Z.neq_sym _ _ (Z.lt_neq _ _ HN)) (conj Hdiv Hseed)).
    set (order := shuffled data (size * step / len data)) in *.
    set (start := size * step mod len data) in *.
    assert (Hlen : len (order ++ order) = 2 * len data).
    { rewrite len_app. unfold order. rewrite shuffled_length by assumption. lia. }
    set (labels := py_slice (order ++ order) start (start + size)) in *.
    assert (Hlabels : len labels = size).
    { apply py_slice_window_length; lia. }
    destruct (@loc_unique V data labels Hnd) as (x & Hloc & Hix & Hincl).
    { intros l Hl. apply py_slice_incl in Hl.
      apply in_app_or in Hl. apply (shuffled_In _ (size * step / len data) _ HR). tauto. }
    assert (Hx : len (values x) = size).
    { unfold len, values. rewrite length_map, <- (length_map fst).
      fold (index x). rewrite Hix. exact Hlabels. }
    exists labels, x. repeat split; try assumption.
    + now rewrite Hrun.
    + rewrite get_data_batch_of_labels, Hrun. simpl. rewrite Hloc, <- Hx.
      apply (@np_reshape_rect V c); [| lia].
      unfold values. apply Forall_map. rewrite Forall_forall in *.
      intros r Hr. apply Hrect, Hincl, Hr.
Qed.

Lemma get_data_batch_size_witness :
  choice_permutes Demo.numpy /\
  well_formed 2 Demo.two_rows /\
  1 <= 3 /\
  0 < len Demo.two_rows /\
  0 <= 1 /\
  3 * 1 / len Demo.two_rows <= 2 ^ 32 - 1 /\
  len Demo.two_rows < 3 /\
  3 * 1 mod len Demo.two_rows + 3 <= 2 * len Demo.two_rows /\
  exists labels x,
    fst (batch_labels (R := Demo.numpy) Demo.two_rows 3 1 7) = inr labels /\
    len labels = 3 /\
    loc Demo.two_rows labels = inr x /\
    index x = labels /\
    incl x Demo.two_rows /\
    fst (get_data_batch (R := Demo.numpy) Demo.two_rows 3 1 7) = inr (values x) /\
    len (values x) = 3.
Proof.
  assert (H1 : well_formed 2 Demo.two_rows).
  { split.
    - repeat constructor; simpl; intuition discriminate.
    - repeat constructor. }
  assert (H2 : 1 <= 3) by lia.
  assert (H3 : 0 < len Demo.two_rows) by reflexivity.
  assert (H4 : 0 <= 1) by lia.
  assert (H5 : 3 * 1 / len Demo.two_rows <= 2 ^ 32 - 1) by (vm_compute; discriminate).
  assert (H6 : len Demo.two_rows < 3) by reflexivity.
  assert (H7 : 3 * 1 mod len Demo.two_rows + 3 <= 2 * len Demo.two_rows)
    by (vm_compute; discriminate).
  do 8 (split; [assumption || exact demo_numpy_lawful |]).
  exact (proj2 (@get_data_batch_size Z Demo.numpy Demo.two_rows 2 3 1 7
                  demo_numpy_lawful H1 H2 H3 H4 H5) H7).
Defined.

(** C3, as stated, fails. With 3 rows and batch size 5 (at most twice the
    number of rows), step 1 starts at [5 mod 3 = 2], so that the slice
    [[2 : 7]] of the 6 doubled labels has 4 of them and the reshape to 5
    rows raises; and with [batch_size <= 2 N] alone the seed can leave the
    range that [np.random.seed] accepts, as at step [2^32] on one row. *)
Lemma batch_size_up_to_twice_rows_fails :
  (5 <= 2 * len Demo.three_rows /\ 0 <= 1 /\
   fst (batch_labels (R := Demo.numpy) Demo.three_rows 5 1 7) = inr [0; 1; 2; 0] /\
   fst (get_data_batch (R := Demo.numpy) Demo.three_rows 5 1 7) = inl ValueError) /\
  (1 <= 2 * len [(0, [10; 0])] /\ 0 <= 2 ^ 32 /\
   fst (get_data_batch (R := Demo.numpy) [(0, [10; 0])] 1 (2 ^ 32) 7) = inl ValueError).
Proof.
  repeat split; try reflexivity; vm_compute; discriminate.
Qed.

(** ** The batches of the training loop *)

Lemma epoch_batch_is_first_window :
  forall (V : Type) (R : NumpyRandom) (K : Keras V) (data : DataFrame V) (epoch : Z)
         (w : World V),
    fst (epoch_batch data epoch w) =
    fst (get_data_batch data (batch_size w) default_seed (np_random w)).
Proof.
  intros. unfold epoch_batch, bind, gets, with_numpy.
  now destruct (get_data_batch _ _ _ _).
Qed.

(** Every epoch of every run gets the batch of step 0. *)
Lemma epoch_batch_ignores_epoch :
  forall (V : Type) (R : NumpyRandom) (K : Keras V) (data : DataFrame V) (e e' : Z)
         (w w' : World V),
    batch_size w = batch_size w' ->
    fst (epoch_batch data e w) = fst (epoch_batch data e' w').
Proof.
  intros V R K data e e' w w' H. rewrite !epoch_batch_is_first_window, H.
  apply get_data_batch_any_state.
Qed.

(** C1, at the failing input: a table of [N = 2] rows and [batch_size = 1]
    (so that [batch_size <= 2 N]). Whatever the random generator and the
    networks, there is a row of the table that is in the batch of no epoch
    of the training loop, however long it runs: line 73 calls
    [get_data_batch] without the step, so that every epoch gets the same
    window, the first label of the shuffle of seed 0. *)
Theorem training_loop_misses_rows :
  forall (R : NumpyRandom) (K : Keras Z),
  exists r,
    In r Demo.two_rows /\
    forall (w : World Z) (epoch : Z),
      batch_size w = 1 ->
      (forall labels,
          fst (batch_labels Demo.two_rows (batch_size w) default_seed (np_random w))
            = inr labels ->
          ~ In (fst r) labels) /\
      (forall batch,
          fst (epoch_batch Demo.two_rows epoch w) = inr batch -> ~ In (snd r) batch).
Proof.
  intros R K.
  assert (Hrun : forall g,
             batch_labels Demo.two_rows 1 default_seed g =
               (inr (py_slice (shuffled Demo.two_rows 0 ++ shuffled Demo.two_rows 0) 0 1),
                snd (choice_all (mt19937_seed 0) (index Demo.two_rows)))).
  { intro g. apply (batch_labels_run Demo.two_rows 1 default_seed g).
    - discriminate.
    - vm_compute. split; discriminate. }
  destruct (shuffled Demo.two_rows 0) as [| x rest] eqn:Ep.
  - (* nothing is drawn: the batch is one empty row *)
    exists (0, [10; 0]). split; [now left |].
    intros w epoch Hw. rewrite epoch_batch_is_first_window, get_data_batch_of_labels, Hw, Hrun.
    split.
    + intros labels [= <-]. intros [].
    + intros batch [= <-]. simpl. intros [H | []]. discriminate.
  - assert (Hw1 : py_slice ((x :: rest) ++ x :: rest) 0 1 = [x]).
    { apply (@py_slice_window Z ((x :: rest) ++ x :: rest) 0 1); try lia.
      unfold len. simpl. lia. }
    rewrite Hw1 in Hrun.
    destruct (Z.eq_dec x 0) as [-> | Hx0].
    + exists (1, [20; 1]). split; [right; now left |].
      intros w epoch Hw.
      rewrite epoch_batch_is_first_window, get_data_batch_of_labels, Hw, Hrun.
      split.
      * intros labels [= <-]. simpl. intros [H | []]. discriminate.
      * intros batch [= <-]. simpl. intros [H | []]. discriminate.
    + exists (0, [10; 0]). split; [now left |].
      intros w epoch Hw.
      rewrite epoch_batch_is_first_window, get_data_batch_of_labels, Hw, Hrun.
      split.
      * intros labels [= <-]. simpl. intros [H | []]. congruence.
      * destruct (Z.eq_dec x 1) as [-> | Hx1].
        -- intros batch [= <-]. simpl. intros [H | []]. discriminate.
        -- unfold loc, loc_label, Demo.two_rows. cbn [filter fst].
           rewrite (proj2 (Z.eqb_neq 0 x)), (proj2 (Z.eqb_neq 1 x)) by congruence.
           intros batch [=].
Qed.

(** ** The generator network *)

(** C2, on the code: for every configuration, [Generator.build_model] joins
    the noise to the raw label input. The embedding of the label is built
    and dropped: no [Embedding] layer lies on the way to the output, unlike
    in the architecture that the specification describes. The dense layers
    are as specified: widths [dim], [2 dim], [4 dim] with ReLU, then
    [data_dim] outputs without activation. *)
Theorem generator_joins_raw_label :
  forall (self : Generator.t) (input_shape : list Z) (dim data_dim : Z),
    let m := Generator.build_model self input_shape dim data_dim in
    concat_operands (outputs m) =
      [Input "noise" input_shape (Generator.batch_size self) None;
       Input "label" [1] (Generator.batch_size self) (Some "float32"%string)] /\
    concat_operands (outputs m) = inputs m /\
    through_embedding (outputs m) = false /\
    through_embedding (outputs (Generator.spec_model self input_shape dim data_dim)) = true /\
    outputs m <> outputs (Generator.spec_model self input_shape dim data_dim) /\
    dense_layers (outputs m) =
      [(data_dim, None); (dim * 4, Some relu); (dim * 2, Some relu); (dim, Some relu)].
Proof.
  intros self input_shape dim data_dim m.
  repeat split; try reflexivity.
  intro H. apply (f_equal through_embedding) in H. discriminate H.
Qed.

(** ** Persistence *)

(** C4, on the code: [load] never returns a generator. Where the path is a
    directory, [Generator(self.batch_size)] lacks the argument
    [num_classes] and raises [TypeError]; elsewhere the assertion fails. In
    both cases the object is left as it was. *)
Theorem load_always_raises :
  forall (V : Type) (R : NumpyRandom) (K : Keras V) (w : World V) (path : string),
    load path w = (inl (if isdir w path then TypeError else AssertionError), w).
Proof.
  intros V R K w path. unfold load, bind, gets.
  now destruct (isdir w path).
Qed.

(** C9. [save] raises [AssertionError] where [path] is not a directory,
    with nothing written and the object unchanged. Where it is one, the
    one thing [save] does is to call [save_weights] on the generator with
    [os.path.join(path, name)]: where that file can be created it then
    holds the generator's weights, no other file changes and [save]
    returns; where it cannot, [save] raises and the file system is as
    before. Neither the discriminator nor the combined model is written,
    and the object is not changed. *)
Theorem save_checks_directory_and_writes_generator :
  forall (V : Type) (R : NumpyRandom) (K : Keras V) (w : World V) (path name : string),
    (isdir w path = false -> save path name w = (inl AssertionError, w)) /\
    (isdir w path = true ->
     forall net, generator w = Built net ->
       let target := os_path_join path name in
       let w' := snd (save path name w) in
       written w' = written w ++ [(target, the_generator, params net)] /\
       (can_create w target = true ->
        fst (save path name w) = inr tt /\
        disk w' target = Some (the_generator, params net) /\
        forall p, p <> target -> disk w' p = disk w p) /\
       (can_create w target = false ->
        fst (save path name w) = inl OSError /\ disk w' = disk w) /\
       generator w' = generator w /\
       discriminator w' = discriminator w /\
       combined w' = combined w /\
       discriminator_trainable w' = discriminator_trainable w /\
       adam w' = adam w /\
       np_random w' = np_random w /\
       tf_random w' = tf_random w /\
       stdout w' = stdout w /\
       isdir w' = isdir w /\
       can_create w' = can_create w).
Proof.
  intros V R K w path name. split; intros Hdir.
  - unfold save, bind, gets. now rewrite Hdir.
  - intros net Hnet target w'. subst w'.
    unfold save, generator_model, write_file, log_call, store_file, bind, gets,
      modify, raise.
    rewrite Hdir, Hnet. fold target. clearbody target. simpl.
    destruct (can_create w target) eqn:Hcan; simpl;
      repeat match goal with
             | |- _ /\ _ => split
             | |- _ -> _ => intro
             end;
      try discriminate; try reflexivity; try assumption.
    + now rewrite String.eqb_refl.
    + match goal with H : _ <> _ |- _ => apply String.eqb_neq in H; now rewrite H end.
Qed.

Lemma save_checks_directory_and_writes_generator_witness :
  save "nowhere" "generator.h5" Demo.cgan = (inl AssertionError, Demo.cgan) /\
  (fst (save "out/" "generator.h5" Demo.cgan) = inr tt /\
   disk (snd (save "out/" "generator.h5" Demo.cgan)) "out/generator.h5" =
     Some (the_generator, 0)) /\
  (fst (save "out/" "sub/generator.h5" Demo.cgan) = inl OSError /\
   disk (snd (save "out/" "sub/generator.h5" Demo.cgan)) = disk Demo.cgan).
Proof.
  split; [| split].
  - exact (proj1 (@save_checks_directory_and_writes_generator Z Demo.numpy Demo.keras
                    Demo.cgan "nowhere" "generator.h5") eq_refl).
  - destruct (proj2 (@save_checks_directory_and_writes_generator Z Demo.numpy Demo.keras
                       Demo.cgan "out/" "generator.h5") eq_refl _ eq_refl)
      as (_ & Hcan & _).
    destruct (Hcan eq_refl) as (Hret & Hdisk & _). split; assumption.
  - destruct (proj2 (@save_checks_directory_and_writes_generator Z Demo.numpy Demo.keras
                       Demo.cgan "out/" "sub/generator.h5") eq_refl _ eq_refl)
      as (_ & _ & Hcannot & _).
    exact (Hcannot eq_refl).
Defined.

(** ** The split of a batch into label and features *)

Lemma py_slice_drop_last {A} (row : list A) : py_slice row 0 (-1) = removelast row.
Proof.
  unfold py_slice, clip_index.
  change (0 <? 0) with false. change (-1 <? 0) with true. cbv iota.
  rewrite (Z.min_l 0 (len row)) by apply len_nonneg.
  rewrite removelast_firstn_len. simpl skipn. f_equal.
  unfold len. lia.
Qed.

Lemma py_index_in_range {A} (row : list A) (i : Z) :
  - len row <= i < len row ->
  exists v, py_index row i = inr v /\
            nth_error row (Z.to_nat (if i <? 0 then i + len row else i)) = Some v.
Proof.
  intros Hi. unfold py_index.
  set (j := if i <? 0 then i + len row else i).
  assert (Hj : 0 <= j < len row).
  { subst j. destruct (i <? 0) eqn:E; [apply Z.ltb_lt in E | apply Z.ltb_ge in E]; lia. }
  destruct ((0 <=? j) && (j <? len row)) eqn:E.
  - destruct (nth_error row (Z.to_nat j)) as [v |] eqn:En.
    + now exists v.
    + apply nth_error_None in En. unfold len in Hj. lia.
  - apply andb_false_iff in E. destruct E as [E | E];
      [apply Z.leb_gt in E | apply Z.ltb_ge in E]; lia.
Qed.

(** The split of a batch [batch_y] of [c] columns: [label] is its column
    [label_dim] (counted from the end when negative) and [batch_x] is every
    row without its last cell. *)
Lemma batch_split :
  forall (V : Type) (batch_y : list (list V)) (c label_dim : Z),
    Forall (fun row => len row = c) batch_y ->
    - c <= label_dim < c ->
    let j := if label_dim <? 0 then label_dim + c else label_dim in
    let batch_x := np_drop_last_column batch_y in
    exists label,
      np_column batch_y label_dim = inr label /\
      Forall2 (fun row v => nth_error row (Z.to_nat j) = Some v) batch_y label /\
      batch_x = map (@removelast V) batch_y /\
      Forall (fun row => len row = c - 1) batch_x /\
      (j <> c - 1 -> np_column batch_x j = inr label).
Proof.
  intros V batch_y c label_dim Hrect Hdim j batch_x. subst batch_x.
  induction Hrect as [| row rest Hrow Hrest IH].
  - exists []. simpl. repeat split; constructor.
  - destruct IH as (label & Hcol & Hnth & Hx & Hw & Hkeep).
    destruct (@py_index_in_range V row label_dim) as (v & Hv & Hn); [lia |].
    rewrite Hrow in Hn. fold j in Hn.
    assert (Hj : 0 <= j < c).
    { subst j. destruct (label_dim <? 0) eqn:E;
        [apply Z.ltb_lt in E | apply Z.ltb_ge in E]; lia. }
    exists (v :: label). simpl. rewrite Hv, Hcol.
    unfold np_drop_last_column in *. rewrite py_slice_drop_last.
    assert (Hlast : len (removelast row) = c - 1).
    { rewrite removelast_firstn_len. unfold len in *. rewrite length_firstn. lia. }
    repeat split.
    + now constructor.
    + now rewrite Hx.
    + constructor; assumption.
    + intros Hne. rewrite (Hkeep Hne).
      destruct (@py_index_in_range V (removelast row) j) as (v' & Hv' & Hn'); [lia |].
      rewrite Hv'. destruct (j <? 0) eqn:E; [apply Z.ltb_lt in E; lia |].
      rewrite removelast_firstn_len, nth_error_firstn in Hn'.
      destruct (Nat.ltb_spec (Z.to_nat j) (Nat.pred (List.length row))) as [_ | Hge].
      * congruence.
      * unfold len in Hrow. lia.
Qed.

Lemma py_index_returns {A} (row : list A) (i : Z) (v : A) :
  py_index row i = inr v -> - len row <= i < len row.
Proof.
  unfold py_index.
  destruct (i <? 0) eqn:E; [apply Z.ltb_lt in E | apply Z.ltb_ge in E];
    destruct (_ && _) eqn:B; try discriminate;
    apply andb_true_iff in B; destruct B as [B1 B2];
    apply Z.leb_le in B1; apply Z.ltb_lt in B2; intros _; lia.
Qed.

(** The rows that [np.reshape] returns all have the width that it
    computed. *)
Lemma np_reshape_rows {V} (x : list (list V)) (rows : Z) (batch : list (list V)) :
  np_reshape x rows = inr batch ->
  0 < rows /\
  len batch = rows /\
  Forall (fun row => len row = len (concat x) / rows) batch.
Proof.
  unfold np_reshape.
  destruct (rows <=? 0) eqn:E0; [discriminate |]. apply Z.leb_gt in E0.
  destruct (len (concat x) mod rows =? 0) eqn:E1; [| discriminate].
  apply Z.eqb_eq in E1. simpl. intros [= <-].
  split; [assumption | split].
  - unfold len. rewrite length_map, length_seq. lia.
  - apply Forall_map, Forall_forall. intros i Hi. apply in_seq in Hi.
    unfold chunk, len in *.
    set (L := List.length (concat x)) in *.
    assert (Hq : 0 <= Z.of_nat L / rows) by (apply Z.div_pos; lia).
    assert (HL : Z.of_nat L = rows * (Z.of_nat L / rows)).
    { rewrite (Z.div_mod (Z.of_nat L) rows) at 1 by lia. lia. }
    rewrite length_firstn, length_skipn. fold L.
    assert (Hfit : (i * Z.to_nat (Z.of_nat L / rows) + Z.to_nat (Z.of_nat L / rows) <= L)%nat).
    { apply Nat2Z.inj_le. rewrite Nat2Z.inj_add, Nat2Z.inj_mul, Z2Nat.id by lia.
      rewrite HL at 3. nia. }
    lia.
Qed.

Section TrainingStep.

Variable V : Type.
Context {R : NumpyRandom} {K : Keras V}.

Lemma epoch_batch_rows (data : DataFrame V) (epoch : Z) (w : World V) batch_y :
  fst (epoch_batch data epoch w) = inr batch_y ->
  exists c, 0 < len batch_y /\ len batch_y = batch_size w /\
            Forall (fun row => len row = c) batch_y.
Proof.
  unfold epoch_batch, bind, gets, with_numpy.
  assert (E := get_data_batch_of_labels data (batch_size w) default_seed (np_random w)).
  destruct (get_data_batch data (batch_size w) default_seed (np_random w)) as [r g].
  simpl in *. intros ->.
  destruct (fst (batch_labels data (batch_size w) default_seed (np_random w)))
    as [e | labels]; [discriminate |].
  destruct (loc data labels) as [e | x]; [discriminate |]. symmetry in E.
  destruct (np_reshape_rows _ _ E) as (Hpos & Hlen & Hrows).
  exists (len (concat (values x)) / batch_size w). repeat split; try assumption. lia.
Qed.

End TrainingStep.

(** C8. In every step of the training loop that reaches the end of its
    discriminator phase, the batch [batch_y] that was sampled, of
    [batch_size] rows and some number [c] of columns, is split row by row:
    [label] is its column [label_dim] (counted from the end when negative)
    and [batch_x] is every row without its last cell, so that [batch_x] has
    [c - 1] columns; [batch_x] and [label] are what the discriminator is
    trained on as real records, before the records that the generator
    predicted from the same [label]; and when the label column is not the
    last one, it is still there in [batch_x], at the same place. *)
Theorem training_step_splits_batch :
  forall (V : Type) (R : NumpyRandom) (K : Keras V) (data : DataFrame V)
         (a : train_arguments) (valid fake : list (list V)) (epoch : Z)
         (w w' : World V) (label : list V) (d_loss : metrics),
    train_discriminator data a valid fake epoch w = (inr (label, d_loss), w') ->
    exists (batch_y : list (list V)) (c : Z),
      fst (epoch_batch data epoch w) = inr batch_y /\
      len batch_y = batch_size w /\
      Forall (fun row => len row = c) batch_y /\
      - c <= label_dim a < c /\
      let j := if label_dim a <? 0 then label_dim a + c else label_dim a in
      let batch_x := np_drop_last_column batch_y in
      np_column batch_y (label_dim a) = inr label /\
      Forall2 (fun row v => nth_error row (Z.to_nat j) = Some v) batch_y label /\
      batch_x = map (@removelast V) batch_y /\
      Forall (fun row => len row = c - 1) batch_x /\
      (j <> c - 1 -> np_column batch_x j = inr label) /\
      exists (net : Network V) (noise gen_records : list (list V)) (w1 w2 : World V)
             (d_loss_real d_loss_fake : metrics),
        generator w = Built net /\
        fst (predict (graph net) (params net) noise label) = inr gen_records /\
        discriminator w1 = discriminator w /\
        adam w1 = adam w /\
        discriminator_trainable w1 = true /\
        discriminator_compiled_trainable w1 = discriminator_compiled_trainable w /\
        discriminator_train_on_batch batch_x label valid w1 = (inr d_loss_real, w2) /\
        discriminator_train_on_batch gen_records label fake w2 = (inr d_loss_fake, w') /\
        d_loss = half_add d_loss_real d_loss_fake.
Proof.
  intros V R K data a valid fake epoch w w' label d_loss Hrun.
  unfold train_discriminator in Hrun.
  apply bind_inr in Hrun. destruct Hrun as ([] & w0 & H0 & Hrun).
  apply bind_inr in Hrun. destruct Hrun as (batch_y & w1 & H1 & Hrun).
  apply bind_inr in Hrun. destruct Hrun as (label0 & w2 & H2 & Hrun).
  apply bind_inr in Hrun. destruct Hrun as (w3 & w4 & H3 & Hrun).
  apply bind_inr in Hrun. destruct Hrun as (noise & w5 & H5 & Hrun).
  apply bind_inr in Hrun. destruct Hrun as (net & w6 & H6 & Hrun).
  destruct (predict (graph net) (params net) noise label0) as [prediction bars] eqn:Hp.
  apply bind_inr in Hrun. destruct Hrun as ([] & w7 & H7 & Hrun).
  apply bind_inr in Hrun. destruct Hrun as (gen_records & w8 & H8 & Hrun).
  apply bind_inr in Hrun. destruct Hrun as (d_real & w9 & H9 & Hrun).
  apply bind_inr in Hrun. destruct Hrun as (d_fake & w10 & H10 & Hrun).
  unfold ret in Hrun. injection Hrun as <- <- <-.
  unfold set_discriminator_trainable, modify in H0. injection H0 as <-.
  assert (Hbatch : fst (epoch_batch data epoch w) = inr batch_y).
  { rewrite epoch_batch_is_first_window.
    rewrite epoch_batch_is_first_window in H1 || (apply (f_equal fst) in H1;
      rewrite epoch_batch_is_first_window in H1); exact H1. }
  unfold epoch_batch, bind, gets, with_numpy in H1.
  destruct (get_data_batch _ _ _ _) as [rb gb]. injection H1 as -> <-.
  unfold lift_result in H2, H8. injection H2 as Hcol <-. injection H8 as -> <-.
  unfold gets in H3. injection H3 as <- <-.
  unfold with_tf in H5. destruct (tf_random_normal _ _ _) as [rn gn].
  injection H5 as -> <-.
  unfold generator_model in H6. simpl in H6.
  destruct (generator w) as [net' | g] eqn:Hnet; [| discriminate]. injection H6 as <- <-.
  unfold print_all, modify in H7. injection H7 as <-.
  destruct (@epoch_batch_rows V R K data epoch w batch_y Hbatch) as (c & Hpos & Hlen & Hrect).
  assert (Hdim : - c <= label_dim a < c).
  { destruct batch_y as [| row rest]; [unfold len in Hpos; simpl in Hpos; lia |].
    inversion Hrect as [| r l Hrow _]; subst. simpl in Hcol.
    destruct (py_index row (label_dim a)) as [e | v] eqn:Hv; [discriminate |].
    exact (py_index_returns _ _ Hv). }
  destruct (@batch_split V batch_y c (label_dim a) Hrect Hdim)
    as (label' & Hcol' & Hnth & Hx & Hw & Hkeep).
  rewrite Hcol in Hcol'. injection Hcol' as <-.
  exists batch_y, c.
  split; [exact Hbatch |]. split; [exact Hlen |]. split; [exact Hrect |].
  split; [exact Hdim |]. cbv zeta.
  split; [exact Hcol |]. split; [exact Hnth |]. split; [exact Hx |].
  split; [exact Hw |]. split; [exact Hkeep |].
  match type of H9 with
  | discriminator_train_on_batch _ _ _ ?w1 = _ =>
      exists net', noise, gen_records, w1, w9, d_real, d_fake
  end.
  rewrite Hp. repeat split; try eassumption; try reflexivity.
Qed.

Lemma training_step_splits_batch_witness :
  train_discriminator Demo.four_rows Demo.label_first [[1]; [1]] [[0]; [0]] 0 Demo.cgan =
    (inr ([10; 20], 0),
     (snd (train_discriminator Demo.four_rows Demo.label_first [[1]; [1]] [[0]; [0]] 0
            Demo.cgan))) /\
  exists (batch_y : list (list Z)) (c : Z),
    fst (epoch_batch Demo.four_rows 0 Demo.cgan) = inr batch_y /\
    len batch_y = batch_size Demo.cgan /\
    Forall (fun row => len row = c) batch_y /\
    - c <= label_dim Demo.label_first < c /\
    np_column batch_y (label_dim Demo.label_first) = inr [10; 20] /\
    Forall2 (fun row v =>
               nth_error row
                 (Z.to_nat (if label_dim Demo.label_first <? 0
                            then label_dim Demo.label_first + c
                            else label_dim Demo.label_first)) = Some v)
            batch_y [10; 20] /\
    np_drop_last_column batch_y = map (@removelast Z) batch_y /\
    Forall (fun row => len row = c - 1) (np_drop_last_column batch_y) /\
    ((if label_dim Demo.label_first <? 0 then label_dim Demo.label_first + c
      else label_dim Demo.label_first) <> c - 1 ->
     np_column (np_drop_last_column batch_y)
       (if label_dim Demo.label_first <? 0 then label_dim Demo.label_first + c
        else label_dim Demo.label_first) = inr [10; 20]) /\
    exists (net : Network Z) (noise gen_records : list (list Z))
           (w1 w2 : @World Z Demo.numpy Demo.keras)
           (d_loss_real d_loss_fake : @metrics Z Demo.keras),
      generator Demo.cgan = Built net /\
      fst (@predict Z Demo.keras (graph net) (params net) noise [10; 20]) =
        inr gen_records /\
      discriminator w1 = discriminator Demo.cgan /\
      adam w1 = adam Demo.cgan /\
      discriminator_trainable w1 = true /\
      discriminator_compiled_trainable w1 = discriminator_compiled_trainable Demo.cgan /\
      discriminator_train_on_batch (np_drop_last_column batch_y) [10; 20] [[1]; [1]] w1 =
        (inr d_loss_real, w2) /\
      discriminator_train_on_batch gen_records [10; 20] [[0]; [0]] w2 =
        (inr d_loss_fake,
         (snd (train_discriminator Demo.four_rows Demo.label_first [[1]; [1]] [[0]; [0]] 0
            Demo.cgan))) /\
      0 = @half_add Z Demo.keras d_loss_real d_loss_fake.
Proof.
  assert (Hrun : train_discriminator Demo.four_rows Demo.label_first [[1]; [1]] [[0]; [0]] 0
                   Demo.cgan =
                 (inr ([10; 20], 0),
                  (snd (train_discriminator Demo.four_rows Demo.label_first [[1]; [1]] [[0]; [0]] 0
            Demo.cgan))))
    by (vm_compute; reflexivity).
  split; [exact Hrun |].
  exact (@training_step_splits_batch Z Demo.numpy Demo.keras Demo.four_rows
           Demo.label_first [[1]; [1]] [[0]; [0]] 0 Demo.cgan _ [10; 20] 0 Hrun).
Defined.

(** ** Frames: what a computation leaves alone *)

Lemma keeps_ret {S A F} (f : S -> F) (a : A) : keeps f (ret a).
Proof. now intros s. Qed.

Lemma keeps_raise {S A F} (f : S -> F) e : keeps f (@raise S A e).
Proof. now intros s. Qed.

Lemma keeps_lift_result {S A F} (f : S -> F) (r : Result A) : keeps f (lift_result r).
Proof. now intros s. Qed.

Lemma keeps_gets {S A F} (f : S -> F) (g : S -> A) : keeps f (gets g).
Proof. now intros s. Qed.

Lemma keeps_modify {S F} (f : S -> F) (g : S -> S) :
  (forall s, f (g s) = f s) -> keeps f (modify g).
Proof. intros H s. apply H. Qed.

Lemma keeps_bind {S A B F} (f : S -> F) (c : M S A) (k : A -> M S B) :
  keeps f c -> (forall a, keeps f (k a)) -> keeps f (bind c k).
Proof.
  intros Hc Hk s. unfold bind. specialize (Hc s).
  destruct (c s) as [[e | a] s1]; simpl in *; [assumption |].
  now rewrite (Hk a s1).
Qed.

Lemma keeps_for_each {S A F} (f : S -> F) (xs : list A) (body : A -> M S unit) :
  (forall x, keeps f (body x)) -> keeps f (for_each xs body).
Proof.
  intros Hbody. induction xs as [| x xs IH]; simpl.
  - apply keeps_ret.
  - apply keeps_bind; [apply Hbody | intros _; exact IH].
Qed.

Section WorldFrames.

Variable V : Type.
Context {R : NumpyRandom} {K : Keras V}.
Variable F : Type.
Variable f : World V -> F.

Lemma keeps_with_tf {A} (c : M tf_rng A) :
  (forall g w, f (set_tf_random g w) = f w) -> keeps f (with_tf c).
Proof. intros H w. unfold with_tf. destruct (c (tf_random w)). apply H. Qed.

Lemma keeps_with_numpy {A} (c : M rng_state A) :
  (forall g w, f (set_np_random g w) = f w) -> keeps f (with_numpy c).
Proof. intros H w. unfold with_numpy. destruct (c (np_random w)). apply H. Qed.

Lemma keeps_generator_model : keeps f (@generator_model V R K).
Proof. intros w. unfold generator_model. now destruct (generator w). Qed.

End WorldFrames.

(** Splits a computation of [CGAN] into its calls and leaves the
    assignments to be checked. *)
Ltac frame_step :=
  first
    [ match goal with
      | |- keeps _ (match ?r with _ => _ end) => destruct r
      end
    | apply keeps_ret
    | apply keeps_raise
    | apply keeps_lift_result
    | apply keeps_gets
    | apply keeps_generator_model
    | apply keeps_bind; [| intros ?]
    | apply keeps_with_tf; intros ? ?
    | apply keeps_with_numpy; intros ? ?
    | apply keeps_modify; intros ? ].

Ltac frame :=
  unfold discriminator_train_on_batch, combined_train_on_batch, epoch_batch,
    set_discriminator_trainable, set_generator, set_discriminator_params, set_adam,
    write_file, print;
  repeat frame_step; try reflexivity.

(** ** The frozen discriminator *)

Section Frozen.

Variable V : Type.
Context {R : NumpyRandom} {K : Keras V}.

Lemma init_compiles_combined_frozen (a : gan_args V) (env env' : Env V) (w : World V) :
  init a env = (inr w, env') ->
  combined_compiled_trainable w = false /\ discriminator_compiled_trainable w = true.
Proof.
  unfold init. simpl.
  destruct (run_generator_build_model _ _ _ _) as [e | gen]; [discriminate |].
  destruct (run_discriminator_build_model _ _ _) as [e | dis]; [discriminate |].
  destruct (initial_weights gen (env_tf_random env)) as [[e | pg] tf1]; [discriminate |].
  destruct (initial_weights dis tf1) as [[e | pd] tf2]; [discriminate |].
  intros [= <- _]. now split.
Qed.

Lemma train_discriminator_keeps_compiled data (a : train_arguments) valid fake epoch :
  keeps (@combined_compiled_trainable V R K) (train_discriminator data a valid fake epoch).
Proof. unfold train_discriminator. frame. Qed.

Lemma train_generator_keeps_compiled label valid :
  keeps (@combined_compiled_trainable V R K) (train_generator label valid).
Proof. unfold train_generator. frame. Qed.

Lemma checkpoint_keeps_compiled (a : train_arguments) epoch :
  keeps (@combined_compiled_trainable V R K) (checkpoint a epoch).
Proof. unfold checkpoint. frame. Qed.

Lemma train_epoch_keeps_compiled data (a : train_arguments) valid fake epoch :
  keeps (@combined_compiled_trainable V R K) (train_epoch data a valid fake epoch).
Proof.
  unfold train_epoch. apply keeps_bind; [apply train_discriminator_keeps_compiled |].
  intros [label d_loss]. apply keeps_bind; [apply train_generator_keeps_compiled |].
  intros g_loss. apply keeps_bind; [frame |].
  intros _. apply checkpoint_keeps_compiled.
Qed.

(** Lines 89 to 92 on an object whose combined model was compiled with
    the discriminator frozen. *)
Lemma train_generator_frame label valid (w : World V) :
  frozen_is_respected K ->
  combined_compiled_trainable w = false ->
  discriminator_trainable (snd (train_generator label valid w)) = false /\
  discriminator (snd (train_generator label valid w)) = discriminator w.
Proof.
  intros Hfrozen Hcompiled.
  unfold train_generator, combined_train_on_batch, set_discriminator_trainable,
    set_generator, set_discriminator_params, set_adam, generator_model,
    with_tf, bind, gets, modify, ret. simpl.
  destruct (tf_random_normal (batch_size w) (noise_dim w) (tf_random w))
    as [[e | noise] g1]; simpl; [now split |].
  destruct (generator w) as [net | g]; simpl; [| now split].
  destruct (combined_step _ _ _ _ _ _ _ g1) as [[e | [[[loss pg] pd] o]] g2];
    simpl; [now split |].
  rewrite Hcompiled, Hfrozen. simpl. now split.
Qed.

End Frozen.

(** C7. In every epoch of the training loop of an object built by
    [__init__], the update of the combined model (lines 89 to 92) leaves
    the discriminator as it finds it: its weights after the update are its
    weights before it, and its [trainable] attribute is then false. Here
    [w_n] is the state after [n] turns of the loop, [w_mid] the state after
    the discriminator phase of the next turn, and the framework is assumed
    not to update a layer that was frozen when the model was compiled and
    is frozen at the call. *)
Theorem discriminator_unchanged_by_generator_update :
  forall (V : Type) (R : NumpyRandom) (K : Keras V),
    frozen_is_respected K ->
    forall (a : gan_args V) (env env' : Env V) (w0 : World V),
      init a env = (inr w0, env') ->
      forall (data : DataFrame V) (ta : train_arguments) (valid fake : list (list V))
             (n : nat) (epoch : Z) (label : list V),
        let w_n := snd (for_each (firstn n (range (epochs ta)))
                          (train_epoch data ta valid fake) w0) in
        let w_mid := snd (train_discriminator data ta valid fake epoch w_n) in
        let w_after := snd (train_generator label valid w_mid) in
        discriminator_trainable w_after = false /\
        params (discriminator w_after) = params (discriminator w_mid) /\
        discriminator w_after = discriminator w_mid.
Proof.
  intros V R K Hfrozen a env env' w0 Hinit data ta valid fake n epoch label w_n w_mid w_after.
  assert (Hmid : combined_compiled_trainable w_mid = false).
  { subst w_mid w_n.
    rewrite train_discriminator_keeps_compiled.
    rewrite (@keeps_for_each _ _ _ (@combined_compiled_trainable V R K) _
               (train_epoch data ta valid fake)
               (train_epoch_keeps_compiled data ta valid fake)).
    apply (init_compiles_combined_frozen _ _ Hinit). }
  destruct (train_generator_frame label valid w_mid Hfrozen Hmid) as [Hflag Hdisc].
  subst w_after. repeat split; try assumption. now rewrite Hdisc.
Qed.

Lemma discriminator_unchanged_by_generator_update_witness :
  frozen_is_respected Demo.keras /\
  init (Demo.args 2) Demo.env = (inr Demo.cgan, Demo.env) /\
  let w_n := snd (for_each (firstn 1 (range 3))
                    (train_epoch Demo.four_rows (Demo.targs "run" 3 2) [[1]; [1]] [[0]; [0]])
                    Demo.cgan) in
  let w_mid := snd (train_discriminator Demo.four_rows (Demo.targs "run" 3 2)
                      [[1]; [1]] [[0]; [0]] 1 w_n) in
  let w_after := snd (train_generator [0; 1] [[1]; [1]] w_mid) in
  discriminator_trainable w_after = false /\
  params (discriminator w_after) = params (discriminator w_mid) /\
  discriminator w_after = discriminator w_mid.
Proof.
  assert (Hfrozen : frozen_is_respected Demo.keras) by reflexivity.
  assert (Hinit : init (Demo.args 2) Demo.env = (inr Demo.cgan, Demo.env)) by reflexivity.
  split; [exact Hfrozen | split; [exact Hinit |]].
  exact (@discriminator_unchanged_by_generator_update Z Demo.numpy Demo.keras Hfrozen
           (Demo.args 2) Demo.env Demo.env Demo.cgan Hinit
           Demo.four_rows (Demo.targs "run" 3 2) [[1]; [1]] [[0]; [0]] 1%nat 1 [0; 1]).
Defined.

(** ** Checkpoints *)

Lemma string_app_assoc (a b c : string) : ((a ++ b) ++ c = a ++ b ++ c)%string.
Proof. induction a as [| x a IH]; simpl; [reflexivity | now rewrite IH]. Qed.

(** On a template whose prefix has no brace, [format] fills the two fields
    of the suffix and copies the rest. *)
Lemma str_format_checkpoint (prefix role step : string) :
  brace_free prefix = true ->
  str_format (prefix ++ "_{}_model_weights_step_{}.h5") [role; step] =
    inr (prefix ++ "_" ++ role ++ "_model_weights_step_" ++ step ++ ".h5")%string.
Proof.
  induction prefix as [| c prefix IH]; intros Hfree.
  - reflexivity.
  - simpl in Hfree. apply andb_true_iff in Hfree. destruct Hfree as [Hc Hfree].
    unfold is_brace in Hc. apply negb_true_iff, orb_false_iff in Hc.
    destruct Hc as [Hopen Hclose].
    cbn [append str_format]. rewrite Hopen, Hclose.
    now rewrite (IH Hfree).
Qed.

Section Checkpoints.

Variable V : Type.
Context {R : NumpyRandom} {K : Keras V}.

Lemma checkpoint_name (a : train_arguments) (role : string) (step : Z) :
  brace_free (data_dir a ++ cache_prefix a) = true ->
  str_format (checkpoint_template a) [role; str_of_int step] =
    inr (spec_checkpoint_path a role step).
Proof.
  intros Hfree. unfold checkpoint_template, spec_checkpoint_path.
  rewrite <- string_app_assoc, (str_format_checkpoint _ role (str_of_int step) Hfree).
  now rewrite string_app_assoc.
Qed.

Lemma train_discriminator_keeps_written data (a : train_arguments) valid fake epoch :
  keeps (@written V R K) (train_discriminator data a valid fake epoch).
Proof. unfold train_discriminator. frame. Qed.

Lemma train_generator_keeps_written label valid :
  keeps (@written V R K) (train_generator label valid).
Proof. unfold train_generator. frame. Qed.


Lemma write_file_files path which p (w : World V) :
  files (snd (write_file path which p w)) = files w ++ [(path, which)].
Proof.
  unfold write_file, log_call, store_file, bind, gets, modify, raise, files. simpl.
  destruct (can_create w path); simpl; now rewrite map_app.
Qed.

Lemma write_file_returns path which p (w w' : World V) :
  write_file path which p w = (inr tt, w') ->
  can_create w path = true /\ files w' = files w ++ [(path, which)] /\
  generator w' = generator w /\ discriminator w' = discriminator w /\
  stdout w' = stdout w /\ tf_random w' = tf_random w /\ noise_dim w' = noise_dim w /\
  disk w' path = Some (which, p) /\
  (forall q, q <> path -> disk w' q = disk w q).
Proof.
  unfold write_file, log_call, store_file, bind, gets, modify, raise, files. simpl.
  destruct (can_create w path); [| discriminate].
  intros [= <-]. simpl. rewrite map_app, String.eqb_refl. repeat split.
  intros q Hq. apply String.eqb_neq in Hq. now rewrite Hq.
Qed.

Lemma write_file_keeps_files_there path which p (w w' : World V) :
  write_file path which p w = (inr tt, w') ->
  forall q, disk w q <> None -> disk w' q <> None.
Proof.
  intros Hrun q Hq. apply write_file_returns in Hrun.
  destruct Hrun as (_ & _ & _ & _ & _ & _ & _ & Hthere & Hother).
  destruct (string_dec q path) as [-> | Hne].
  - rewrite Hthere. discriminate.
  - now rewrite (Hother q Hne).
Qed.

(** Lines 98 to 103 of a step that completes. *)
Lemma checkpoint_files (a : train_arguments) (epoch : Z) (w w' : World V) :
  brace_free (data_dir a ++ cache_prefix a) = true ->
  checkpoint a epoch w = (inr tt, w') ->
  sample_interval a <> 0 /\
  files w' = files w ++
    (if epoch mod sample_interval a =? 0 then spec_checkpoint a epoch else []).
Proof.
  intros Hfree Hrun. unfold checkpoint in Hrun.
  apply bind_inr in Hrun. destruct Hrun as (r & w0 & H0 & Hrun).
  unfold lift_result, py_mod in H0.
  destruct (sample_interval a =? 0) eqn:E0; [discriminate |].
  apply Z.eqb_neq in E0. injection H0 as <- <-. split; [assumption |].
  destruct (epoch mod sample_interval a =? 0).
  - apply bind_inr in Hrun. destruct Hrun as (net & w1 & H1 & Hrun).
    unfold generator_model in H1.
    destruct (generator w) as [net' | g]; [| discriminate]. injection H1 as <- <-.
    rewrite !(checkpoint_name _ _ _ Hfree) in Hrun.
    apply bind_inr in Hrun. destruct Hrun as (p1 & w2 & H2 & Hrun).
    unfold lift_result in H2. injection H2 as <- <-.
    apply bind_inr in Hrun. destruct Hrun as ([] & w3 & H3 & Hrun).
    apply write_file_returns in H3. destruct H3 as (_ & F3 & _).
    apply bind_inr in Hrun. destruct Hrun as (p2 & w4 & H4 & Hrun).
    unfold lift_result in H4. injection H4 as <- <-.
    apply bind_inr in Hrun. destruct Hrun as (w5 & w6 & H5 & Hrun).
    unfold gets in H5. injection H5 as <- <-.
    apply bind_inr in Hrun. destruct Hrun as ([] & w7 & H7 & Hrun).
    apply write_file_returns in H7. destruct H7 as (_ & F7 & _).
    apply bind_inr in Hrun. destruct Hrun as (w8 & w9 & H8 & Hrun).
    unfold gets in H8. injection H8 as <- <-.
    apply bind_inr in Hrun. destruct Hrun as (z & w10 & H10 & Hrun).
    unfold with_tf in H10.
    destruct (tf_random_normal 432 (noise_dim w7) (tf_random w7)) as [r g1].
    injection H10 as _ <-.
    unfold print, modify in Hrun. injection Hrun as <-.
    unfold files in *. simpl. rewrite F7, F3, <- app_assoc. reflexivity.
  - unfold ret in Hrun. injection Hrun as <-. now rewrite app_nil_r.
Qed.

(** The files of a step that completes are there afterwards, and so is
    every file that was there before. *)
Lemma checkpoint_disk (a : train_arguments) (epoch : Z) (w w' : World V) :
  brace_free (data_dir a ++ cache_prefix a) = true ->
  checkpoint a epoch w = (inr tt, w') ->
  (forall q, disk w q <> None -> disk w' q <> None) /\
  (forall f, In f (if epoch mod sample_interval a =? 0 then spec_checkpoint a epoch else []) ->
             disk w' (fst f) <> None).
Proof.
  intros Hfree Hrun. unfold checkpoint in Hrun.
  apply bind_inr in Hrun. destruct Hrun as (r & w0 & H0 & Hrun).
  unfold lift_result, py_mod in H0.
  destruct (sample_interval a =? 0) eqn:E0; [discriminate |].
  injection H0 as <- <-.
  destruct (epoch mod sample_interval a =? 0).
  - apply bind_inr in Hrun. destruct Hrun as (net & w1 & H1 & Hrun).
    unfold generator_model in H1.
    destruct (generator w) as [net' | g]; [| discriminate]. injection H1 as <- <-.
    rewrite !(checkpoint_name _ _ _ Hfree) in Hrun.
    apply bind_inr in Hrun. destruct Hrun as (p1 & w2 & H2 & Hrun).
    unfold lift_result in H2. injection H2 as <- <-.
    apply bind_inr in Hrun. destruct Hrun as ([] & w3 & H3 & Hrun).
    assert (K3 := write_file_keeps_files_there _ _ _ _ H3).
    apply write_file_returns in H3.
    destruct H3 as (_ & _ & _ & _ & _ & _ & _ & T3 & _).
    apply bind_inr in Hrun. destruct Hrun as (p2 & w4 & H4 & Hrun).
    unfold lift_result in H4. injection H4 as <- <-.
    apply bind_inr in Hrun. destruct Hrun as (w5 & w6 & H5 & Hrun).
    unfold gets in H5. injection H5 as <- <-.
    apply bind_inr in Hrun. destruct Hrun as ([] & w7 & H7 & Hrun).
    assert (K7 := write_file_keeps_files_there _ _ _ _ H7).
    apply write_file_returns in H7.
    destruct H7 as (_ & _ & _ & _ & _ & _ & _ & T7 & _).
    apply bind_inr in Hrun. destruct Hrun as (w8 & w9 & H8 & Hrun).
    unfold gets in H8. injection H8 as <- <-.
    apply bind_inr in Hrun. destruct Hrun as (z & w10 & H10 & Hrun).
    unfold with_tf in H10.
    destruct (tf_random_normal 432 (noise_dim w7) (tf_random w7)) as [rz g1].
    injection H10 as _ <-.
    unfold print, modify in Hrun. injection Hrun as <-. simpl. split.
    + intros q Hq. apply K7, K3, Hq.
    + intros f [<- | [<- | []]]; simpl.
      * apply K7. rewrite T3. discriminate.
      * rewrite T7. discriminate.
  - unfold ret in Hrun. injection Hrun as <-. split; [trivial | intros f []].
Qed.

Lemma train_epoch_disk data (a : train_arguments) valid fake epoch (w w' : World V) :
  brace_free (data_dir a ++ cache_prefix a) = true ->
  train_epoch data a valid fake epoch w = (inr tt, w') ->
  (forall q, disk w q <> None -> disk w' q <> None) /\
  (forall f, In f (if epoch mod sample_interval a =? 0 then spec_checkpoint a epoch else []) ->
             disk w' (fst f) <> None).
Proof.
  intros Hfree Hrun. unfold train_epoch in Hrun.
  apply bind_inr in Hrun. destruct Hrun as ([label d_loss] & w1 & H1 & Hrun).
  apply bind_inr in Hrun. destruct Hrun as (g_loss & w2 & H2 & Hrun).
  apply bind_inr in Hrun. destruct Hrun as ([] & w3 & H3 & Hrun).
  assert (E1 : keeps (@disk V R K) (train_discriminator data a valid fake epoch))
    by (unfold train_discriminator; frame).
  assert (E2 : keeps (@disk V R K) (train_generator label valid))
    by (unfold train_generator; frame).
  specialize (E1 w). specialize (E2 w1).
  rewrite H1 in E1. rewrite H2 in E2. simpl in E1, E2.
  unfold print, modify in H3. injection H3 as <-.
  destruct (checkpoint_disk _ _ _ Hfree Hrun) as [Hkeep Hnew]. simpl in Hkeep.
  rewrite E2, E1 in Hkeep. split; assumption.
Qed.

Lemma for_each_disk data (a : train_arguments) valid fake (steps : list Z) :
  brace_free (data_dir a ++ cache_prefix a) = true ->
  forall (w w' : World V),
    for_each steps (train_epoch data a valid fake) w = (inr tt, w') ->
    (forall q, disk w q <> None -> disk w' q <> None) /\
    (forall f, In f (flat_map (spec_checkpoint a)
                       (filter (fun s => s mod sample_interval a =? 0) steps)) ->
               disk w' (fst f) <> None).
Proof.
  intros Hfree. induction steps as [| s steps IH]; intros w w' Hrun; simpl in *.
  - injection Hrun as <-. split; [trivial | intros f []].
  - apply bind_inr in Hrun. destruct Hrun as ([] & w1 & H1 & Hrun).
    destruct (@train_epoch_disk data a valid fake s w w1 Hfree H1) as [Hkeep Hnew].
    destruct (IH _ _ Hrun) as [Hkeep' Hnew'].
    split; [intros q Hq; apply Hkeep', Hkeep, Hq |].
    intros f Hf. destruct (s mod sample_interval a =? 0); [| now apply Hnew'].
    simpl in Hf. destruct Hf as [Hf | [Hf | Hf]].
    + apply Hkeep', Hnew. now left.
    + apply Hkeep', Hnew. right. now left.
    + apply Hnew', Hf.
Qed.

Lemma train_epoch_files data (a : train_arguments) valid fake epoch (w w' : World V) :
  brace_free (data_dir a ++ cache_prefix a) = true ->
  train_epoch data a valid fake epoch w = (inr tt, w') ->
  sample_interval a <> 0 /\
  files w' = files w ++
    (if epoch mod sample_interval a =? 0 then spec_checkpoint a epoch else []).
Proof.
  intros Hfree Hrun. unfold train_epoch in Hrun.
  apply bind_inr in Hrun. destruct Hrun as ([label d_loss] & w1 & H1 & Hrun).
  apply bind_inr in Hrun. destruct Hrun as (g_loss & w2 & H2 & Hrun).
  apply bind_inr in Hrun. destruct Hrun as ([] & w3 & H3 & Hrun).
  destruct (checkpoint_files _ _ _ Hfree Hrun) as [Hk Hfiles].
  split; [assumption |]. rewrite Hfiles. f_equal. unfold files. f_equal.
  assert (E1 := train_discriminator_keeps_written data a valid fake epoch w).
  assert (E2 := train_generator_keeps_written label valid w1).
  rewrite H1 in E1. rewrite H2 in E2. simpl in E1, E2.
  unfold print, modify in H3. injection H3 as <-. simpl. congruence.
Qed.

Lemma for_each_files data (a : train_arguments) valid fake (steps : list Z) :
  brace_free (data_dir a ++ cache_prefix a) = true ->
  forall (w w' : World V),
    for_each steps (train_epoch data a valid fake) w = (inr tt, w') ->
    files w' = files w ++
      flat_map (spec_checkpoint a)
        (filter (fun s => s mod sample_interval a =? 0) steps).
Proof.
  intros Hfree. induction steps as [| s steps IH]; intros w w' Hrun; simpl in *.
  - injection Hrun as <-. now rewrite app_nil_r.
  - apply bind_inr in Hrun. destruct Hrun as ([] & w1 & H1 & Hrun).
    destruct (@train_epoch_files data a valid fake s w w1 Hfree H1) as [_ Hs].
    rewrite (IH _ _ Hrun), Hs, <- app_assoc. f_equal.
    now destruct (s mod sample_interval a =? 0).
Qed.

End Checkpoints.

Lemma string_app_inv_head (p a b : string) : (p ++ a = p ++ b)%string -> a = b.
Proof. induction p as [| c p IH]; simpl; [easy | intros [= H]; auto]. Qed.

Lemma checkpoint_paths_differ (a : train_arguments) (step : Z) :
  String.eqb (spec_checkpoint_path a "generator" step)
             (spec_checkpoint_path a "discriminator" step) = false.
Proof.
  apply String.eqb_neq. unfold spec_checkpoint_path. intros H.
  apply string_app_inv_head, string_app_inv_head in H. discriminate H.
Qed.

(** Lines 98 to 103 of a step at which the two files can be created,
    whether or not the rest of the step completes. *)
Lemma checkpoint_run_any_outcome :
  forall (V : Type) (R : NumpyRandom) (K : Keras V) (a : train_arguments) (epoch : Z)
         (w : World V) (net : Network V),
    brace_free (data_dir a ++ cache_prefix a) = true ->
    sample_interval a <> 0 ->
    generator w = Built net ->
    epoch mod sample_interval a = 0 ->
    can_create w (spec_checkpoint_path a "generator" epoch) = true ->
    can_create w (spec_checkpoint_path a "discriminator" epoch) = true ->
    let w' := snd (checkpoint a epoch w) in
    written w' = written w ++
      [(spec_checkpoint_path a "generator" epoch, the_generator, params net);
       (spec_checkpoint_path a "discriminator" epoch, the_discriminator,
        params (discriminator w))] /\
    disk w' (spec_checkpoint_path a "generator" epoch) = Some (the_generator, params net) /\
    disk w' (spec_checkpoint_path a "discriminator" epoch) =
      Some (the_discriminator, params (discriminator w)) /\
    generator w' = generator w /\
    discriminator w' = discriminator w.
Proof.
  intros V R K a epoch w net Hfree Hk Hnet Hmod Hgen Hdis.
  assert (Hne := checkpoint_paths_differ a epoch).
  unfold checkpoint, py_mod, lift_result.
  apply Z.eqb_neq in Hk.
  unfold bind at 1. rewrite Hk, Hmod. cbn [Z.eqb].
  unfold generator_model, write_file, log_call, store_file, print, with_tf, bind, gets,
    modify, raise.
  rewrite Hnet, !(checkpoint_name _ _ _ Hfree).
  set (pg := spec_checkpoint_path a "generator" epoch) in *.
  set (pd := spec_checkpoint_path a "discriminator" epoch) in *.
  clearbody pg pd. cbv zeta.
  repeat (progress (simpl; rewrite ?Hnet, ?Hgen, ?Hdis)).
  destruct (tf_random_normal 432 (noise_dim w) (tf_random w)) as [[e | z] g1];
    simpl; rewrite <- app_assoc, !String.eqb_refl, Hne; repeat split; assumption.
Qed.

(** The same step where the generator's file cannot be created. *)
Lemma checkpoint_without_directory :
  forall (V : Type) (R : NumpyRandom) (K : Keras V) (a : train_arguments) (epoch : Z)
         (w : World V) (net : Network V),
    brace_free (data_dir a ++ cache_prefix a) = true ->
    sample_interval a <> 0 ->
    generator w = Built net ->
    epoch mod sample_interval a = 0 ->
    can_create w (spec_checkpoint_path a "generator" epoch) = false ->
    fst (checkpoint a epoch w) = inl OSError /\
    written (snd (checkpoint a epoch w)) = written w ++
      [(spec_checkpoint_path a "generator" epoch, the_generator, params net)] /\
    disk (snd (checkpoint a epoch w)) = disk w.
Proof.
  intros V R K a epoch w net Hfree Hk Hnet Hmod Hgen.
  unfold checkpoint, py_mod, lift_result.
  apply Z.eqb_neq in Hk.
  unfold bind at 1. rewrite Hk, Hmod. cbn [Z.eqb].
  unfold generator_model, write_file, log_call, store_file, print, with_tf, bind, gets,
    modify, raise.
  rewrite Hnet, !(checkpoint_name _ _ _ Hfree).
  set (pg := spec_checkpoint_path a "generator" epoch) in *. clearbody pg.
  repeat (progress (simpl; rewrite ?Hnet, ?Hgen)). repeat split.
Qed.

Lemma checkpoint_off_interval :
  forall (V : Type) (R : NumpyRandom) (K : Keras V) (a : train_arguments) (epoch : Z)
         (w : World V),
    sample_interval a <> 0 ->
    epoch mod sample_interval a <> 0 ->
    checkpoint a epoch w = (inr tt, w).
Proof.
  intros V R K a epoch w Hk Hmod. unfold checkpoint, py_mod, lift_result, bind.
  apply Z.eqb_neq in Hk, Hmod. now rewrite Hk, Hmod.
Qed.

(** C10, as amended. When the output directory and the checkpoint prefix
    have no brace in them (the whole name goes through [str.format]) and
    the interval is not 0: a step [s] with [s mod checkpoint_interval <> 0]
    writes nothing; a step with [s mod checkpoint_interval = 0] at which
    the two files can be created (the output directory exists) writes the
    generator's weights to
    [{output_directory}{checkpoint_prefix}_generator_model_weights_step_{s}.h5]
    and then the discriminator's to the same name with [discriminator],
    both files being there afterwards; where the first of them cannot be
    created the step raises with no file written; and a run of [train] that
    completes has saved to these files for exactly the steps [s] of
    [range(epochs)] with [s mod checkpoint_interval = 0], in order, and to
    no other, and all of them are there at the end. *)
Theorem checkpoints_written_at_interval :
  forall (V : Type) (R : NumpyRandom) (K : Keras V) (data : DataFrame V)
         (ta : train_arguments),
    brace_free (data_dir ta ++ cache_prefix ta) = true ->
    (forall (s : Z) (w : World V),
        sample_interval ta <> 0 ->
        s mod sample_interval ta <> 0 ->
        checkpoint ta s w = (inr tt, w)) /\
    (forall (s : Z) (w : World V) (net : Network V),
        sample_interval ta <> 0 ->
        s mod sample_interval ta = 0 ->
        generator w = Built net ->
        can_create w (spec_checkpoint_path ta "generator" s) = true ->
        can_create w (spec_checkpoint_path ta "discriminator" s) = true ->
        files (snd (checkpoint ta s w)) = files w ++ spec_checkpoint ta s /\
        disk (snd (checkpoint ta s w)) (spec_checkpoint_path ta "generator" s) <> None /\
        disk (snd (checkpoint ta s w)) (spec_checkpoint_path ta "discriminator" s)
          <> None) /\
    (forall (s : Z) (w : World V) (net : Network V),
        sample_interval ta <> 0 ->
        s mod sample_interval ta = 0 ->
        generator w = Built net ->
        can_create w (spec_checkpoint_path ta "generator" s) = false ->
        fst (checkpoint ta s w) = inl OSError /\
        files (snd (checkpoint ta s w)) =
          files w ++ [(spec_checkpoint_path ta "generator" s, the_generator)] /\
        disk (snd (checkpoint ta s w)) = disk w) /\
    (forall (w w' : World V),
        train data ta w = (inr tt, w') ->
        files w' = files w ++
          flat_map (spec_checkpoint ta)
            (filter (fun s => s mod sample_interval ta =? 0) (range (epochs ta))) /\
        (forall f,
            In f (flat_map (spec_checkpoint ta)
                    (filter (fun s => s mod sample_interval ta =? 0) (range (epochs ta)))) ->
            disk w' (fst f) <> None)).
Proof.
  intros V R K data ta Hfree. split; [| split; [| split]].
  - intros s w Hk Hmod. now apply checkpoint_off_interval.
  - intros s w net Hk Hmod Hnet Hgen Hdis.
    destruct (@checkpoint_run_any_outcome V R K ta s w net Hfree Hk Hnet Hmod Hgen Hdis)
      as (Hw & Hg & Hd & _).
    unfold files, spec_checkpoint. rewrite Hw, Hg, Hd, map_app.
    repeat split; discriminate.
  - intros s w net Hk Hmod Hnet Hgen.
    destruct (@checkpoint_without_directory V R K ta s w net Hfree Hk Hnet Hmod Hgen)
      as (He & Hw & Hd).
    unfold files. rewrite Hw, map_app. repeat split; assumption.
  - intros w w' Hrun. unfold train in Hrun.
    apply bind_inr in Hrun. destruct Hrun as (w0 & w1 & H0 & Hrun).
    unfold gets in H0. injection H0 as <- <-.
    apply bind_inr in Hrun. destruct Hrun as (valid & w2 & H1 & Hrun).
    apply bind_inr in Hrun. destruct Hrun as (fake & w3 & H2 & Hrun).
    unfold lift_result in H1, H2. injection H1 as _ <-. injection H2 as _ <-.
    split.
    + exact (@for_each_files V R K data ta valid fake (range (epochs ta)) Hfree w w' Hrun).
    + exact (proj2 (@for_each_disk V R K data ta valid fake (range (epochs ta)) Hfree
                      w w' Hrun)).
Qed.

Lemma checkpoints_written_at_interval_witness :
  brace_free ("out/" ++ "run") = true /\
  train Demo.four_rows (Demo.targs "run" 3 2) Demo.cgan =
    (inr tt, snd (train Demo.four_rows (Demo.targs "run" 3 2) Demo.cgan)) /\
  files (snd (train Demo.four_rows (Demo.targs "run" 3 2) Demo.cgan)) =
    files Demo.cgan ++
      flat_map (spec_checkpoint (Demo.targs "run" 3 2))
        (filter (fun s => s mod 2 =? 0) (range 3)) /\
  can_create Demo.cgan (spec_checkpoint_path (Demo.targs "run" 3 2) "generator" 2) = true /\
  can_create Demo.cgan (spec_checkpoint_path (Demo.targs "run" 3 2) "discriminator" 2)
    = true /\
  files (snd (checkpoint (Demo.targs "run" 3 2) 2 Demo.cgan)) =
    files Demo.cgan ++ spec_checkpoint (Demo.targs "run" 3 2) 2 /\
  brace_free ("out/" ++ "sub/run") = true /\
  can_create Demo.cgan (spec_checkpoint_path (Demo.targs "sub/run" 3 2) "generator" 2)
    = false /\
  fst (checkpoint (Demo.targs "sub/run" 3 2) 2 Demo.cgan) = inl OSError /\
  disk (snd (checkpoint (Demo.targs "sub/run" 3 2) 2 Demo.cgan)) = disk Demo.cgan.
Proof.
  assert (Hfree : brace_free ("out/" ++ "run") = true) by reflexivity.
  assert (Hrun : train Demo.four_rows (Demo.targs "run" 3 2) Demo.cgan =
                   (inr tt, snd (train Demo.four_rows (Demo.targs "run" 3 2) Demo.cgan)))
    by (vm_compute; reflexivity).
  assert (Hk : sample_interval (Demo.targs "run" 3 2) <> 0) by (vm_compute; congruence).
  assert (Hmod : 2 mod sample_interval (Demo.targs "run" 3 2) = 0) by reflexivity.
  assert (Hgen : can_create Demo.cgan
                   (spec_checkpoint_path (Demo.targs "run" 3 2) "generator" 2) = true)
    by reflexivity.
  assert (Hdis : can_create Demo.cgan
                   (spec_checkpoint_path (Demo.targs "run" 3 2) "discriminator" 2) = true)
    by reflexivity.
  assert (Hfree' : brace_free ("out/" ++ "sub/run") = true) by reflexivity.
  assert (Hk' : sample_interval (Demo.targs "sub/run" 3 2) <> 0) by (vm_compute; congruence).
  assert (Hmod' : 2 mod sample_interval (Demo.targs "sub/run" 3 2) = 0) by reflexivity.
  assert (Hno : can_create Demo.cgan
                  (spec_checkpoint_path (Demo.targs "sub/run" 3 2) "generator" 2) = false)
    by reflexivity.
  split; [exact Hfree | split; [exact Hrun |]].
  split.
  { exact (proj1 (proj2 (proj2 (proj2 (@checkpoints_written_at_interval Z Demo.numpy
                                         Demo.keras Demo.four_rows (Demo.targs "run" 3 2)
                                         Hfree))) _ _ Hrun)). }
  split; [exact Hgen | split; [exact Hdis |]].
  split.
  { exact (proj1 (proj1 (proj2 (@checkpoints_written_at_interval Z Demo.numpy Demo.keras
                                  Demo.four_rows (Demo.targs "run" 3 2) Hfree))
                          2 Demo.cgan _ Hk Hmod eq_refl Hgen Hdis)). }
  split; [exact Hfree' | split; [exact Hno |]].
  destruct (proj1 (proj2 (proj2 (@checkpoints_written_at_interval Z Demo.numpy Demo.keras
                                   Demo.four_rows (Demo.targs "sub/run" 3 2) Hfree')))
              2 Demo.cgan _ Hk' Hmod' eq_refl Hno) as (He & _ & Hd).
  split; [exact He | exact Hd].
Defined.

(** C10, as stated, fails where a name has braces: with the prefix
    [run{{1}}] the run completes and the files of step 0 are written under
    [out/run{1}_...], not under the directory, the prefix and the suffix put
    together. *)
Lemma checkpoint_name_goes_through_format :
  fst (train Demo.four_rows (Demo.targs "run{{1}}" 1 1) Demo.cgan) = inr tt /\
  files (snd (train Demo.four_rows (Demo.targs "run{{1}}" 1 1) Demo.cgan)) =
    [("out/run{1}_generator_model_weights_step_0.h5"%string, the_generator);
     ("out/run{1}_discriminator_model_weights_step_0.h5"%string, the_discriminator)] /\
  spec_checkpoint (Demo.targs "run{{1}}" 1 1) 0 =
    [("out/run{{1}}_generator_model_weights_step_0.h5"%string, the_generator);
     ("out/run{{1}}_discriminator_model_weights_step_0.h5"%string, the_discriminator)] /\
  files (snd (train Demo.four_rows (Demo.targs "run{{1}}" 1 1) Demo.cgan)) <>
    files Demo.cgan ++
      flat_map (spec_checkpoint (Demo.targs "run{{1}}" 1 1))
        (filter (fun s => s mod 1 =? 0) (range 1)).
Proof.
  split; [vm_compute; reflexivity |].
  split; [vm_compute; reflexivity |].
  split; [vm_compute; reflexivity |].
  vm_compute. intros H. discriminate H.
Qed.

(** * Further properties of the code *)

(** ** The sampler: errors, the state of the generator, the window *)

Lemma seed_range_as_product (n q : Z) :
  0 < n -> (0 <= q / n <= 2 ^ 32 - 1 <-> 0 <= q < 2 ^ 32 * n).
Proof.
  intros Hn. split.
  - intros [H0 H1]. split.
    + destruct (Z.lt_ge_cases q 0) as [Hneg | Hpos]; [| assumption].
      assert (q / n < 0) by (apply Z.div_lt_upper_bound; lia). lia.
    + assert (q / n < 2 ^ 32) by lia.
      assert (Hq := Z.mul_div_le q n Hn).
      assert (Hm := Z.mod_pos_bound q n Hn).
      rewrite (Z.div_mod q n) by lia. nia.
  - intros [H0 H1]. split.
    + apply Z.div_pos; lia.
    + assert (q / n < 2 ^ 32) by (apply Z.div_lt_upper_bound; lia). lia.
Qed.

(** X1. The outcome of the sampler's index computation: on an empty table
    it raises [ZeroDivisionError]; on a table of [N > 0] rows it raises
    [ValueError] (from [np.random.seed]) unless
    [0 <= batch_size * seed < 2^32 * N]; otherwise it returns a list of
    labels. Where it raises, NumPy's generator is left as it was. *)
Theorem sampler_raises_exactly :
  forall (V : Type) (R : NumpyRandom) (data : DataFrame V) (size seed : Z) (g : rng_state),
    (len data = 0 -> batch_labels data size seed g = (inl ZeroDivisionError, g)) /\
    (0 < len data -> ~ 0 <= size * seed < 2 ^ 32 * len data ->
     batch_labels data size seed g = (inl ValueError, g)) /\
    (0 < len data -> 0 <= size * seed < 2 ^ 32 * len data ->
     exists labels, fst (batch_labels data size seed g) = inr labels).
Proof.
  intros V R data size seed g. split; [| split].
  - intros H0. unfold batch_labels, py_mod, lift_result, bind. now rewrite H0.
  - intros HN Hout.
    unfold batch_labels, py_mod, py_floordiv, lift_result, bind, np_random_seed.
    destruct (len data =? 0) eqn:E; [apply Z.eqb_eq in E; lia |].
    destruct ((0 <=? size * seed / len data) && (size * seed / len data <=? 2 ^ 32 - 1))
      eqn:Es; [| reflexivity].
    apply andb_true_iff in Es. destruct Es as [E0 E1].
    apply Z.leb_le in E0, E1. exfalso. apply Hout.
    now apply seed_range_as_product.
  - intros HN Hin. apply seed_range_as_product in Hin; [| assumption].
    rewrite (batch_labels_run data size seed g) by (assumption || lia).
    eexists. reflexivity.
Qed.

(** X2. A call of [get_data_batch] that gets past the seeding leaves
    NumPy's global generator in the state that follows the draw from the
    fresh seed [(batch_size * seed) // N]: the state before the call is
    lost, whether or not the call then returns a batch. *)
Theorem get_data_batch_overwrites_generator :
  forall (V : Type) (R : NumpyRandom) (data : DataFrame V) (size seed : Z) (g : rng_state),
    0 < len data ->
    0 <= size * seed < 2 ^ 32 * len data ->
    snd (get_data_batch data size seed g) =
      snd (choice_all (mt19937_seed (size * seed / len data)) (index data)).
Proof.
  intros V R data size seed g HN Hin.
  apply seed_range_as_product in Hin; [| assumption].
  unfold get_data_batch, bind, lift_result.
  rewrite (batch_labels_run data size seed g) by (assumption || lia).
  destruct (loc data _); reflexivity.
Qed.

Lemma get_data_batch_overwrites_generator_witness :
  0 < len Demo.four_rows /\
  0 <= 2 * 3 < 2 ^ 32 * len Demo.four_rows /\
  snd (get_data_batch (R := Demo.numpy) Demo.four_rows 2 3 7) =
    snd (choice_all (NumpyRandom := Demo.numpy) (mt19937_seed (2 * 3 / 4)) (index Demo.four_rows)).
Proof.
  assert (H1 : 0 < len Demo.four_rows) by (vm_compute; reflexivity).
  assert (H2 : 0 <= 2 * 3 < 2 ^ 32 * len Demo.four_rows) by (vm_compute; split; congruence).
  split; [exact H1 | split; [exact H2 |]].
  exact (@get_data_batch_overwrites_generator Z Demo.numpy Demo.four_rows 2 3 7 H1 H2).
Defined.

Lemma to_nat_mod (a n : Z) :
  0 <= a -> 0 < n -> Z.to_nat (a mod n) = (Z.to_nat a mod Z.to_nat n)%nat.
Proof.
  intros Ha Hn. apply Nat2Z.inj.
  rewrite Nat2Z.inj_mod, !Z2Nat.id; try lia.
  apply Z.mod_pos_bound. assumption.
Qed.

Lemma nth_error_doubled {A} (p : list A) (j : nat) :
  (j < 2 * List.length p)%nat ->
  nth_error (p ++ p) j = nth_error p (j mod List.length p).
Proof.
  intros Hj. destruct (Nat.lt_ge_cases j (List.length p)) as [Hlt | Hge].
  - now rewrite nth_error_app1, Nat.mod_small.
  - rewrite nth_error_app2 by assumption. f_equal.
    apply (Nat.mod_unique j (List.length p) 1); lia.
Qed.

Lemma nth_error_window {A} (l : list A) (i n k : nat) :
  (k < n)%nat -> nth_error (firstn n (skipn i l)) k = nth_error l (i + k).
Proof.
  intros Hk. rewrite nth_error_firstn.
  destruct (Nat.ltb_spec k n) as [_ | Hge]; [| lia].
  apply nth_error_skipn.
Qed.

Section Windows.

Variable V : Type.
Context {R : NumpyRandom}.

(** The labels of a call whose window fits in the doubled list. *)
Lemma batch_labels_window (data : DataFrame V) (size step : Z) g :
  choice_permutes R ->
  0 < len data ->
  0 <= size ->
  0 <= size * step / len data <= 2 ^ 32 - 1 ->
  size * step mod len data + size <= 2 * len data ->
  let order := shuffled data (size * step / len data) in
  fst (batch_labels data size step g) =
    inr (firstn (Z.to_nat size)
           (skipn (Z.to_nat (size * step mod len data)) (order ++ order))).
Proof.
  intros HR HN Hsize Hseed Hfit order.
  rewrite (batch_labels_run data size step g) by (assumption || lia).
  simpl. f_equal. fold order.
  assert (Hstart := Z.mod_pos_bound (size * step) (len data) HN).
  apply py_slice_window; try lia.
  rewrite len_app. unfold order. rewrite shuffled_length by assumption. lia.
Qed.

Lemma batch_labels_in_index (data : DataFrame V) (size seed : Z) g labels :
  choice_permutes R ->
  fst (batch_labels data size seed g) = inr labels ->
  forall l, In l labels -> In l (index data).
Proof.
  intros HR. unfold batch_labels, py_mod, py_floordiv, lift_result, bind.
  destruct (len data =? 0); [discriminate |].
  unfold np_random_seed. destruct ((0 <=? _) && (_ <=? _)); [| discriminate].
  unfold np_random_choice, ret.
  assert (Hperm := HR (mt19937_seed (size * seed / len data)) (index data)).
  destruct (choice_all _ _) as [ix g']. simpl in *.
  intros [= <-] l Hl. apply py_slice_incl in Hl.
  apply (Permutation_in _ Hperm). apply in_app_or in Hl. tauto.
Qed.

Lemma shuffled_NoDup (data : DataFrame V) s :
  choice_permutes R -> NoDup (index data) -> NoDup (shuffled data s).
Proof.
  intros HR Hnd. apply (Permutation_NoDup (l := index data)); [| assumption].
  symmetry. apply HR.
Qed.

End Windows.

Lemma batch_labels_cyclic :
  forall (V : Type) (R : NumpyRandom) (data : DataFrame V) (size step : Z) (g : rng_state),
    choice_permutes R ->
    0 <= size <= len data ->
    0 < len data ->
    0 <= step ->
    size * step / len data <= 2 ^ 32 - 1 ->
    exists labels,
      fst (batch_labels data size step g) = inr labels /\
      len labels = size /\
      forall k, 0 <= k < size ->
        nth_error labels (Z.to_nat k) =
        nth_error (shuffled data (size * step / len data))
                  (Z.to_nat ((size * step + k) mod len data)).
Proof.
  intros V R data size step g HR Hsize HN Hstep Hseed.
  assert (Hdiv : 0 <= size * step / len data) by (apply Z.div_pos; nia).
  assert (Hstart := Z.mod_pos_bound (size * step) (len data) HN).
  set (order := shuffled data (size * step / len data)).
  assert (Hord : len order = len data) by (apply shuffled_length; assumption).
  eexists. split; [| split].
  - apply batch_labels_window; try assumption; lia.
  - fold order. unfold len in *. rewrite length_firstn, length_skipn, length_app. lia.
  - intros k Hk. fold order.
    rewrite nth_error_window by lia.
    rewrite nth_error_doubled by (unfold len in *; lia).
    f_equal.
    rewrite <- Z.add_mod_idemp_l by lia.
    set (start := size * step mod len data) in *.
    rewrite (@to_nat_mod (start + k) (len data)) by lia.
    rewrite Z2Nat.inj_add by lia.
    f_equal. rewrite <- Hord. unfold len. now rewrite Nat2Z.id.
Qed.

Lemma firstn_skipn_NoDup {A} (p : list A) (i n : nat) :
  NoDup p -> (n <= List.length p)%nat -> (i < List.length p)%nat ->
  NoDup (firstn n (skipn i (p ++ p))).
Proof.
  intros Hnd Hn Hi. apply NoDup_nth_error. intros a b Ha Hab.
  rewrite length_firstn, length_skipn, length_app in Ha.
  assert (Hb : (b < n)%nat).
  { destruct (Nat.lt_ge_cases b n) as [Hlt | Hge]; [assumption |].
    rewrite nth_error_window in Hab by lia.
    assert (Hnone : nth_error (firstn n (skipn i (p ++ p))) b = None).
    { apply nth_error_None. rewrite length_firstn. lia. }
    rewrite Hnone in Hab. apply nth_error_None in Hab. rewrite length_app in Hab. lia. }
  rewrite !nth_error_window in Hab by lia.
  rewrite !nth_error_doubled in Hab by lia.
  apply (proj1 (NoDup_nth_error p) Hnd) in Hab.
  2: { apply Nat.mod_upper_bound. lia. }
  (* two places less than a full turn apart that agree modulo the length *)
  destruct (Nat.lt_ge_cases (i + a) (List.length p)) as [Ha1 | Ha1];
    destruct (Nat.lt_ge_cases (i + b) (List.length p)) as [Hb1 | Hb1].
  - rewrite !Nat.mod_small in Hab by assumption. lia.
  - rewrite (Nat.mod_small (i + a)) in Hab by assumption.
    rewrite <- (Nat.mod_unique (i + b) (List.length p) 1 (i + b - List.length p)) in Hab;
      lia.
  - rewrite (Nat.mod_small (i + b)) in Hab by assumption.
    rewrite <- (Nat.mod_unique (i + a) (List.length p) 1 (i + a - List.length p)) in Hab;
      lia.
  - rewrite <- (Nat.mod_unique (i + a) (List.length p) 1 (i + a - List.length p)) in Hab
      by lia.
    rewrite <- (Nat.mod_unique (i + b) (List.length p) 1 (i + b - List.length p)) in Hab
      by lia.
    lia.
Qed.

(** X4. No row twice in a batch: on a table whose labels are distinct, for
    [0 <= batch_size <= N], the labels of the batch of any step are
    distinct, also when the window wraps around. *)
Theorem batch_has_no_repeated_row :
  forall (V : Type) (R : NumpyRandom) (data : DataFrame V) (size step : Z) (g : rng_state),
    choice_permutes R ->
    NoDup (index data) ->
    0 <= size <= len data ->
    0 < len data ->
    0 <= step ->
    size * step / len data <= 2 ^ 32 - 1 ->
    exists labels,
      fst (batch_labels data size step g) = inr labels /\ NoDup labels.
Proof.
  intros V R data size step g HR Hnd Hsize HN Hstep Hseed.
  assert (Hdiv : 0 <= size * step / len data) by (apply Z.div_pos; nia).
  assert (Hstart := Z.mod_pos_bound (size * step) (len data) HN).
  set (order := shuffled data (size * step / len data)).
  assert (Hord : len order = len data) by (apply shuffled_length; assumption).
  eexists. split.
  - apply batch_labels_window; try assumption; lia.
  - fold order. unfold len in *. apply firstn_skipn_NoDup.
    + apply shuffled_NoDup; assumption.
    + lia.
    + lia.
Qed.

Lemma batch_has_no_repeated_row_witness :
  choice_permutes Demo.numpy /\
  NoDup (index Demo.four_rows) /\
  0 <= 3 <= len Demo.four_rows /\
  0 < len Demo.four_rows /\
  0 <= 1 /\
  3 * 1 / len Demo.four_rows <= 2 ^ 32 - 1 /\
  exists labels,
    fst (batch_labels (R := Demo.numpy) Demo.four_rows 3 1 7) = inr labels /\ NoDup labels.
Proof.
  assert (H0 : NoDup (index Demo.four_rows))
    by (repeat constructor; simpl; intuition discriminate).
  assert (H1 : 0 <= 3 <= len Demo.four_rows) by (vm_compute; split; congruence).
  assert (H2 : 0 < len Demo.four_rows) by (vm_compute; reflexivity).
  assert (H3 : 0 <= 1) by lia.
  assert (H4 : 3 * 1 / len Demo.four_rows <= 2 ^ 32 - 1) by (vm_compute; congruence).
  repeat (split; [assumption || exact demo_numpy_lawful |]).
  exact (@batch_has_no_repeated_row Z Demo.numpy Demo.four_rows 3 1 7
           demo_numpy_lawful H0 H1 H2 H3 H4).
Defined.

(** X5. Called with the steps, the sampler covers the table within the
    first pass: for [1 <= batch_size <= N], every label of the table is in
    the batch of some step [s >= 0] with [batch_size * s < N]. *)
Theorem sampler_covers_table_in_first_pass :
  forall (V : Type) (R : NumpyRandom) (data : DataFrame V) (size : Z) (g : rng_state),
    choice_permutes R ->
    1 <= size <= len data ->
    forall l, In l (index data) ->
      exists step labels,
        0 <= step /\ size * step < len data /\
        fst (batch_labels data size step g) = inr labels /\
        In l labels.
Proof.
  intros V R data size g HR Hsize l Hl.
  assert (Hin : In l (shuffled data 0)).
  { apply (Permutation_in (l := index data)); [symmetry; apply HR | assumption]. }
  apply In_nth_error in Hin. destruct Hin as [i Hi].
  assert (Hilt : (i < List.length (shuffled data 0))%nat).
  { apply nth_error_Some. congruence. }
  assert (Hord : len (shuffled data 0) = len data) by (apply shuffled_length; assumption).
  unfold len in Hord.
  set (step := Z.of_nat i / size).
  assert (Hstep : 0 <= step) by (apply Z.div_pos; lia).
  assert (Hle : size * step <= Z.of_nat i) by (apply Z.mul_div_le; lia).
  assert (Hpass : size * step / len data = 0) by (apply Z.div_small; unfold len; nia).
  assert (Hseed : size * step / len data <= 2 ^ 32 - 1) by (rewrite Hpass; lia).
  assert (HN : 0 < len data) by lia.
  assert (Hsize' : 0 <= size <= len data) by lia.
  destruct (@batch_labels_cyclic V R data size step g HR Hsize' HN Hstep Hseed)
    as (labels & Hrun & Hlen & Hnth).
  exists step, labels. repeat split; try assumption.
  { unfold len. lia. }
  assert (Hk := Z.mod_pos_bound (Z.of_nat i) size ltac:(lia)).
  specialize (Hnth (Z.of_nat i mod size) Hk).
  rewrite Hpass in Hnth.
  replace (size * step + Z.of_nat i mod size) with (Z.of_nat i) in Hnth
    by (subst step; apply Z.div_mod; lia).
  rewrite (Z.mod_small (Z.of_nat i) (len data)), Nat2Z.id, Hi in Hnth by (unfold len; lia).
  now apply nth_error_In in Hnth.
Qed.

Lemma sampler_covers_table_in_first_pass_witness :
  choice_permutes Demo.numpy /\
  1 <= 3 <= len Demo.four_rows /\
  In 3 (index Demo.four_rows) /\
  exists step labels,
    0 <= step /\ 3 * step < len Demo.four_rows /\
    fst (batch_labels (R := Demo.numpy) Demo.four_rows 3 step 7) = inr labels /\
    In 3 labels.
Proof.
  assert (H1 : 1 <= 3 <= len Demo.four_rows) by (vm_compute; split; congruence).
  assert (H2 : In 3 (index Demo.four_rows)) by (simpl; tauto).
  repeat (split; [assumption || exact demo_numpy_lawful |]).
  exact (@sampler_covers_table_in_first_pass Z Demo.numpy Demo.four_rows 3 7
           demo_numpy_lawful H1 3 H2).
Defined.

Section Rows.

Variable V : Type.

(** The rows of a list of labels of the table, as [get_data_batch] gets them
    on lines 58 and 59. *)
Lemma rows_of_labels (c : nat) (data : DataFrame V) (labels : list Z) :
  well_formed c data ->
  (forall l, In l labels -> In l (index data)) ->
  0 < len labels ->
  exists x,
    loc data labels = inr x /\ index x = labels /\ incl x data /\
    np_reshape (values x) (len labels) = inr (values x) /\
    len (values x) = len labels.
Proof.
  intros [Hnd Hrect] Hin Hpos.
  destruct (@loc_unique V data labels Hnd Hin) as (x & Hloc & Hix & Hincl).
  assert (Hx : len (values x) = len labels).
  { unfold len, values. rewrite length_map, <- (length_map fst).
    fold (index x). now rewrite Hix. }
  exists x. repeat split; try assumption.
  rewrite <- Hx. apply (@np_reshape_rect V c); [| lia].
  unfold values. apply Forall_map. rewrite Forall_forall in *.
  intros r Hr. apply Hrect, Hincl, Hr.
Qed.

Lemma row_of_unique_values (data : DataFrame V) (r r' : Z * list V) :
  NoDup (values data) -> In r data -> In r' data -> snd r = snd r' -> r = r'.
Proof.
  unfold values. induction data as [| d data IH]; simpl; [tauto |].
  intros Hnd Hr Hr' Heq. inversion Hnd as [| ? ? Hd Hnd']; subst.
  destruct Hr as [-> | Hr], Hr' as [-> | Hr'].
  - reflexivity.
  - exfalso. apply Hd. rewrite Heq. now apply in_map.
  - exfalso. apply Hd. rewrite <- Heq. now apply in_map.
  - now apply IH.
Qed.

End Rows.

(** X3. The table as a cycle: on a well-formed table, for
    [1 <= batch_size <= N], row [k] of the batch of a step is the row of
    the table whose label is at place [(batch_size * step + k) mod N] of
    the shuffle of the current pass: a window that runs past the end of the
    pass goes on at the start of the same shuffle, not of the next one. *)
Theorem batch_is_cyclic_window :
  forall (V : Type) (R : NumpyRandom) (data : DataFrame V) (c : nat) (size step : Z)
         (g : rng_state),
    choice_permutes R ->
    well_formed c data ->
    1 <= size <= len data ->
    0 <= step ->
    size * step / len data <= 2 ^ 32 - 1 ->
    exists x,
      fst (get_data_batch data size step g) = inr (values x) /\
      incl x data /\
      len x = size /\
      forall k, 0 <= k < size ->
        nth_error (index x) (Z.to_nat k) =
        nth_error (shuffled data (size * step / len data))
                  (Z.to_nat ((size * step + k) mod len data)).
Proof.
  intros V R data c size step g HR Hwf Hsize Hstep Hseed.
  assert (H0 : 0 <= size <= len data) by lia.
  assert (HN : 0 < len data) by lia.
  destruct (@batch_labels_cyclic V R data size step g HR H0 HN Hstep Hseed)
    as (labels & Hrun & Hlen & Hnth).
  destruct (@rows_of_labels V c data labels Hwf) as (x & Hloc & Hix & Hincl & Hre & Hx).
  { exact (batch_labels_in_index data size step g HR Hrun). }
  { lia. }
  exists x. repeat split.
  - rewrite get_data_batch_of_labels, Hrun, Hloc, <- Hlen. exact Hre.
  - exact Hincl.
  - unfold values in Hx. unfold len in *. rewrite length_map in Hx. lia.
  - intros k Hk. rewrite Hix. now apply Hnth.
Qed.

Lemma batch_is_cyclic_window_witness :
  choice_permutes Demo.numpy /\
  well_formed 2 Demo.four_rows /\
  1 <= 3 <= len Demo.four_rows /\
  0 <= 1 /\
  3 * 1 / len Demo.four_rows <= 2 ^ 32 - 1 /\
  exists x,
    fst (get_data_batch (R := Demo.numpy) Demo.four_rows 3 1 7) = inr (values x) /\
    incl x Demo.four_rows /\
    len x = 3 /\
    forall k, 0 <= k < 3 ->
      nth_error (index x) (Z.to_nat k) =
      nth_error (shuffled (R := Demo.numpy) Demo.four_rows (3 * 1 / len Demo.four_rows))
                (Z.to_nat ((3 * 1 + k) mod len Demo.four_rows)).
Proof.
  assert (H0 : well_formed 2 Demo.four_rows).
  { split; [repeat constructor; simpl; intuition discriminate | repeat constructor]. }
  assert (H1 : 1 <= 3 <= len Demo.four_rows) by (vm_compute; split; congruence).
  assert (H3 : 0 <= 1) by lia.
  assert (H4 : 3 * 1 / len Demo.four_rows <= 2 ^ 32 - 1) by (vm_compute; congruence).
  do 5 (split; [assumption || exact demo_numpy_lawful |]).
  exact (@batch_is_cyclic_window Z Demo.numpy Demo.four_rows 2 3 1 7
           demo_numpy_lawful H0 H1 H3 H4).
Defined.

(** X6. The training loop on any larger table: where the table has
    distinct labels, rows of one width and distinct contents, and
    [1 <= batch_size < N], there is a row that is in the batch of no epoch,
    whatever the state of the object and however long the loop runs. Its
    label is in none of the index windows either. *)
Theorem training_loop_misses_rows_of_larger_tables :
  forall (V : Type) (R : NumpyRandom) (K : Keras V) (data : DataFrame V) (c : nat) (size : Z),
    choice_permutes R ->
    well_formed c data ->
    NoDup (values data) ->
    1 <= size < len data ->
    exists r,
      In r data /\
      forall (w : World V) (epoch : Z),
        batch_size w = size ->
        (forall labels,
            fst (batch_labels data (batch_size w) default_seed (np_random w)) = inr labels ->
            ~ In (fst r) labels) /\
        (forall batch,
            fst (epoch_batch data epoch w) = inr batch -> ~ In (snd r) batch).
Proof.
  intros V R K data c size HR Hwf Hvals Hsize.
  destruct Hwf as [Hnd Hrect].
  set (order := shuffled data 0).
  assert (Hord : len order = len data) by (apply shuffled_length; assumption).
  assert (Hnd_order : NoDup order) by (apply shuffled_NoDup; assumption).
  (* the label at place [size] of the shuffle of seed 0 *)
  destruct (nth_error order (Z.to_nat size)) as [l |] eqn:El.
  2: { apply nth_error_None in El. unfold len in *. lia. }
  assert (Hl : In l (index data)).
  { apply (shuffled_In data 0 l HR). now apply nth_error_In in El. }
  apply in_map_iff in Hl. destruct Hl as (r & Hfst & Hr).
  (* what every call of the loop draws *)
  assert (Hdraw : forall g, exists labels,
             fst (batch_labels data size default_seed g) = inr labels /\
             len labels = size /\ ~ In l labels).
  { intro g. unfold default_seed.
    assert (H0 : 0 <= size <= len data) by lia.
    assert (H1 : 0 < len data) by lia.
    assert (H2 : size * 0 / len data <= 2 ^ 32 - 1)
      by (rewrite Z.mul_0_r, Z.div_0_l by lia; lia).
    destruct (@batch_labels_cyclic V R data size 0 g HR H0 H1 (Z.le_refl 0) H2)
      as (labels & Hrun & Hlen & Hnth).
    exists labels. repeat split; try assumption.
    intros Hin. apply In_nth_error in Hin. destruct Hin as [k Hk].
    assert (Hklt : (k < List.length labels)%nat) by (apply nth_error_Some; congruence).
    unfold len in Hlen.
    specialize (Hnth (Z.of_nat k) ltac:(lia)).
    rewrite Z.mul_0_r, Z.div_0_l, Z.add_0_l, Z.mod_small, Nat2Z.id, Hk in Hnth
      by (unfold len in *; lia).
    fold order in Hnth. rewrite <- El in Hnth.
    apply (proj1 (NoDup_nth_error order) Hnd_order) in Hnth.
    - lia.
    - unfold len in *. lia. }
  exists r. split; [assumption |].
  intros w epoch Hw. rewrite Hw. split.
  - intros labels Hrun.
    destruct (Hdraw (np_random w)) as (labels' & Hrun' & _ & Hnot).
    rewrite Hfst. congruence.
  - intros batch Hbatch.
    rewrite epoch_batch_is_first_window, get_data_batch_of_labels, Hw in Hbatch.
    destruct (Hdraw (np_random w)) as (labels & Hrun & Hlen & Hnot).
    rewrite Hrun in Hbatch.
    destruct (@rows_of_labels V c data labels (conj Hnd Hrect))
      as (x & Hloc & Hix & Hincl & Hre & _).
    { exact (batch_labels_in_index data size default_seed (np_random w) HR Hrun). }
    { lia. }
    rewrite Hloc, <- Hlen, Hre in Hbatch. injection Hbatch as <-.
    intros Hin. unfold values in Hin. apply in_map_iff in Hin.
    destruct Hin as (r' & Heq & Hr').
    assert (r' = r).
    { apply (@row_of_unique_values V data); auto. }
    subst r'. apply Hnot. rewrite <- Hix, <- Hfst. unfold index. now apply in_map.
Qed.

Lemma training_loop_misses_rows_of_larger_tables_witness :
  choice_permutes Demo.numpy /\
  well_formed 2 Demo.three_rows /\
  NoDup (values Demo.three_rows) /\
  1 <= 2 < len Demo.three_rows /\
  exists r,
    In r Demo.three_rows /\
    forall (w : @World Z Demo.numpy Demo.keras) (epoch : Z),
      batch_size w = 2 ->
      (forall labels,
          fst (batch_labels Demo.three_rows (batch_size w) default_seed (np_random w))
            = inr labels ->
          ~ In (fst r) labels) /\
      (forall batch,
          fst (epoch_batch Demo.three_rows epoch w) = inr batch -> ~ In (snd r) batch).
Proof.
  assert (H1 : well_formed 2 Demo.three_rows).
  { split; [repeat constructor; simpl; intuition discriminate | repeat constructor]. }
  assert (H2 : NoDup (values Demo.three_rows))
    by (repeat constructor; simpl; intuition discriminate).
  assert (H3 : 1 <= 2 < len Demo.three_rows) by (vm_compute; split; congruence).
  repeat (split; [assumption || exact demo_numpy_lawful |]).
  exact (@training_loop_misses_rows_of_larger_tables Z Demo.numpy Demo.keras
           Demo.three_rows 2 2 demo_numpy_lawful H1 H2 H3).
Defined.

(** X7. What the training loop gets for [1 <= batch_size <= 2 N]: on a
    well-formed table every epoch, in every state of the object, gets one
    and the same batch of exactly [batch_size] rows, each of them a row of
    the table (with repeats once [batch_size > N]). *)
Theorem training_batch_up_to_twice_rows :
  forall (V : Type) (R : NumpyRandom) (K : Keras V) (data : DataFrame V) (c : nat) (size : Z),
    choice_permutes R ->
    well_formed c data ->
    1 <= size <= 2 * len data ->
    exists x,
      incl x data /\
      len (values x) = size /\
      forall (w : World V) (epoch : Z),
        batch_size w = size -> fst (epoch_batch data epoch w) = inr (values x).
Proof.
  intros V R K data c size HR Hwf Hsize.
  assert (HN : 0 < len data) by lia.
  assert (Hseed : 0 <= size * default_seed / len data <= 2 ^ 32 - 1).
  { unfold default_seed. rewrite Z.mul_0_r, Z.div_0_l by lia. lia. }
  assert (Hfit : size * default_seed mod len data + size <= 2 * len data).
  { unfold default_seed. rewrite Z.mul_0_r, Z.mod_0_l by lia. lia. }
  assert (Hwin := fun g => @batch_labels_window V R data size default_seed g HR HN
                             ltac:(lia) Hseed Hfit).
  cbv zeta in Hwin.
  set (labels := firstn (Z.to_nat size) _) in Hwin.
  assert (Hlen : len labels = size).
  { subst labels.
    assert (Ho := @shuffled_length V R data (size * default_seed / len data) HR).
    unfold default_seed in *. rewrite Z.mul_0_r, Z.mod_0_l in * by lia.
    unfold len in *. rewrite length_firstn, length_skipn, length_app.
    simpl. lia. }
  destruct (@rows_of_labels V c data labels Hwf) as (x & Hloc & Hix & Hincl & Hre & Hx).
  { intros l Hl. apply In_firstn_skipn, in_app_or in Hl.
    apply (shuffled_In data (size * default_seed / len data) l HR). tauto. }
  { lia. }
  exists x. split; [assumption | split; [lia |]].
  intros w epoch Hw.
  rewrite epoch_batch_is_first_window, get_data_batch_of_labels, Hw, Hwin, Hloc.
  now rewrite <- Hlen.
Qed.

Lemma training_batch_up_to_twice_rows_witness :
  choice_permutes Demo.numpy /\
  well_formed 2 Demo.three_rows /\
  1 <= 5 <= 2 * len Demo.three_rows /\
  exists x,
    incl x Demo.three_rows /\
    len (values x) = 5 /\
    forall (w : @World Z Demo.numpy Demo.keras) (epoch : Z),
      batch_size w = 5 -> fst (epoch_batch Demo.three_rows epoch w) = inr (values x).
Proof.
  assert (H1 : well_formed 2 Demo.three_rows).
  { split; [repeat constructor; simpl; intuition discriminate | repeat constructor]. }
  assert (H2 : 1 <= 5 <= 2 * len Demo.three_rows) by (vm_compute; split; congruence).
  repeat (split; [assumption || exact demo_numpy_lawful |]).
  exact (@training_batch_up_to_twice_rows Z Demo.numpy Demo.keras
           Demo.three_rows 2 5 demo_numpy_lawful H1 H2).
Defined.

Lemma np_reshape_row_width {V} (x : list (list V)) (rows : Z) (batch : list (list V)) :
  np_reshape x rows = inr batch ->
  0 < rows /\
  len batch = rows /\
  Forall (fun row => len row <= len (concat x) / rows) batch.
Proof.
  unfold np_reshape.
  destruct (rows <=? 0) eqn:E0; [discriminate |]. apply Z.leb_gt in E0.
  destruct (negb _); [discriminate |]. intros [= <-].
  split; [assumption | split].
  - unfold len. rewrite length_map, length_seq. lia.
  - apply Forall_map, Forall_forall. intros i _. unfold chunk, len.
    assert (H := firstn_le_length (Z.to_nat (Z.of_nat (List.length (concat x)) / rows))
                   (skipn (i * Z.to_nat (Z.of_nat (List.length (concat x)) / rows))
                      (concat x))).
    assert (0 <= Z.of_nat (List.length (concat x)) / rows) by (apply Z.div_pos; lia).
    lia.
Qed.

(** X8. A batch size above twice the number of rows: on a well-formed
    table of [N > 0] rows and [c > 0] columns with [batch_size > 2 N], an
    epoch of the training loop never gets a batch of rows of the table:
    the call raises, or the [2 N] rows that were drawn are reshaped into
    [batch_size] rows that are all narrower than [c]. *)
Theorem training_batch_above_twice_rows :
  forall (V : Type) (R : NumpyRandom) (K : Keras V) (data : DataFrame V) (c : nat) (size : Z),
    choice_permutes R ->
    well_formed c data ->
    (0 < c)%nat ->
    0 < len data ->
    2 * len data < size ->
    forall (w : World V) (epoch : Z) (batch : list (list V)),
      batch_size w = size ->
      fst (epoch_batch data epoch w) = inr batch ->
      len batch = size /\ Forall (fun row => len row < Z.of_nat c) batch.
Proof.
  intros V R K data c size HR [Hnd Hrect] Hc HN Hbig w epoch batch Hw Hbatch.
  rewrite epoch_batch_is_first_window, get_data_batch_of_labels, Hw in Hbatch.
  destruct (fst (batch_labels data size default_seed (np_random w))) as [e | labels] eqn:El;
    [discriminate |].
  assert (Hin := batch_labels_in_index data size default_seed (np_random w) HR El).
  assert (Hshort : len labels <= 2 * len data).
  { unfold default_seed in El.
    rewrite (batch_labels_run data size 0 (np_random w)) in El.
    - simpl in El. injection El as <-. unfold py_slice, len.
      rewrite length_firstn, length_skipn, length_app.
      assert (Ho := @shuffled_length V R data (size * 0 / len data) HR).
      unfold len in Ho. lia.
    - lia.
    - rewrite Z.mul_0_r, Z.div_0_l by lia. lia. }
  destruct (@loc_unique V data labels Hnd Hin) as (x & Hloc & Hix & Hincl).
  rewrite Hloc in Hbatch.
  destruct (np_reshape_row_width _ _ Hbatch) as (Hpos & Hrows & Hwidth).
  split; [assumption |].
  assert (Hcells : len (concat (values x)) = len labels * Z.of_nat c).
  { unfold len. rewrite (@length_concat_rect V c).
    - unfold values. rewrite length_map, <- (length_map fst). fold (index x).
      rewrite Hix. lia.
    - unfold values. apply Forall_map. rewrite Forall_forall in *.
      intros r Hr. apply Hrect, Hincl, Hr. }
  revert Hwidth. apply Forall_impl. intros row Hrow.
  apply (Z.le_lt_trans _ _ _ Hrow).
  apply Z.div_lt_upper_bound; [lia |]. rewrite Hcells. nia.
Qed.

Lemma training_batch_above_twice_rows_witness :
  choice_permutes Demo.numpy /\
  well_formed 2 Demo.two_rows /\
  (0 < 2)%nat /\
  0 < len Demo.two_rows /\
  2 * len Demo.two_rows < 8 /\
  batch_size Demo.cgan8 = 8 /\
  fst (epoch_batch Demo.two_rows 0 Demo.cgan8) =
    inr [[10]; [0]; [20]; [1]; [10]; [0]; [20]; [1]] /\
  len [[10]; [0]; [20]; [1]; [10]; [0]; [20]; [1]] = 8 /\
  Forall (fun row => len row < Z.of_nat 2) [[10]; [0]; [20]; [1]; [10]; [0]; [20]; [1]].
Proof.
  assert (H1 : well_formed 2 Demo.two_rows).
  { split; [repeat constructor; simpl; intuition discriminate | repeat constructor]. }
  assert (H2 : (0 < 2)%nat) by lia.
  assert (H3 : 0 < len Demo.two_rows) by (vm_compute; reflexivity).
  assert (H4 : 2 * len Demo.two_rows < 8) by (vm_compute; reflexivity).
  assert (H5 : batch_size Demo.cgan8 = 8) by reflexivity.
  assert (H6 : fst (epoch_batch Demo.two_rows 0 Demo.cgan8) =
                 inr [[10]; [0]; [20]; [1]; [10]; [0]; [20]; [1]])
    by (vm_compute; reflexivity).
  do 7 (split; [assumption || exact demo_numpy_lawful |]).
  exact (@training_batch_above_twice_rows Z Demo.numpy Demo.keras Demo.two_rows 2 8
           demo_numpy_lawful H1 H2 H3 H4 Demo.cgan8 0 _ H5 H6).
Defined.

(** ** The training loop: what it leaves alone, how it fails, what it prints *)

Ltac frame_all :=
  unfold train, train_epoch, train_discriminator, train_generator, checkpoint,
    discriminator_train_on_batch, combined_train_on_batch, epoch_batch,
    set_discriminator_trainable, set_generator, set_discriminator_params, set_adam,
    write_file, print;
  repeat first [ apply keeps_for_each; intros ? | frame_step ];
  try reflexivity.

(** X9. Whatever happens in [train], return or exception, it leaves the
    configuration of the object alone: batch size, noise and data
    dimensions, classes, the graphs of the discriminator and of the
    combined model, the [trainable] values fixed at compile time, and the
    directories that exist. *)
Theorem train_keeps_configuration :
  forall (V : Type) (R : NumpyRandom) (K : Keras V) (data : DataFrame V)
         (a : train_arguments) (w : World V),
    let w' := snd (train data a w) in
    batch_size w' = batch_size w /\
    noise_dim w' = noise_dim w /\
    data_dim w' = data_dim w /\
    classes w' = classes w /\
    graph (discriminator w') = graph (discriminator w) /\
    combined w' = combined w /\
    discriminator_compiled_trainable w' = discriminator_compiled_trainable w /\
    combined_compiled_trainable w' = combined_compiled_trainable w /\
    isdir w' = isdir w.
Proof.
  intros V R K data a w w'. subst w'.
  assert (H1 : keeps (@batch_size V R K) (train data a)) by frame_all.
  assert (H2 : keeps (@noise_dim V R K) (train data a)) by frame_all.
  assert (H3 : keeps (@data_dim V R K) (train data a)) by frame_all.
  assert (H4 : keeps (@classes V R K) (train data a)) by frame_all.
  assert (H5 : keeps (fun w => graph (discriminator w)) (train data a)) by frame_all.
  assert (H6 : keeps (@combined V R K) (train data a)) by frame_all.
  assert (H7 : keeps (@discriminator_compiled_trainable V R K) (train data a))
    by frame_all.
  assert (H8 : keeps (@combined_compiled_trainable V R K) (train data a)) by frame_all.
  assert (H9 : keeps (@isdir V R K) (train data a)) by frame_all.
  repeat split; [apply H1 | apply H2 | apply H3 | apply H4 | apply (H5 w) | apply H6
                 | apply H7 | apply H8 | apply H9].
Qed.

Lemma range_pos (n : Z) : 1 <= n -> exists rest, range n = 0 :: rest.
Proof.
  intros Hn. unfold range.
  destruct (Z.to_nat n) as [| k] eqn:E; [lia |].
  simpl. eexists. reflexivity.
Qed.

(** X10. [train] on an empty table: with at least one epoch (and a batch
    size that is not negative) the first call of the sampler divides by the
    number of rows and [train] raises [ZeroDivisionError]. Nothing was
    trained, written or printed and NumPy's generator is untouched, but
    the discriminator is left with [trainable = True]. *)
Theorem train_on_empty_table :
  forall (V : Type) (R : NumpyRandom) (K : Keras V) (a : train_arguments) (w : World V),
    0 <= batch_size w ->
    1 <= epochs a ->
    let w' := snd (train [] a w) in
    fst (train [] a w) = inl ZeroDivisionError /\
    generator w' = generator w /\
    discriminator w' = discriminator w /\
    adam w' = adam w /\
    written w' = written w /\
    stdout w' = stdout w /\
    np_random w' = np_random w /\
    tf_random w' = tf_random w /\
    discriminator_trainable w' = true.
Proof.
  intros V R K a w Hsize Hepochs.
  destruct (range_pos Hepochs) as [rest Hrange].
  unfold train, bind, gets, lift_result, np_full. rewrite Hrange.
  destruct (batch_size w <? 0) eqn:E; [apply Z.ltb_lt in E; lia |].
  simpl. repeat split.
Qed.

Lemma train_on_empty_table_witness :
  0 <= batch_size Demo.cgan /\
  1 <= epochs (Demo.targs "run" 3 2) /\
  fst (train [] (Demo.targs "run" 3 2) Demo.cgan) = inl ZeroDivisionError /\
  discriminator_trainable (snd (train [] (Demo.targs "run" 3 2) Demo.cgan)) = true /\
  discriminator_trainable Demo.cgan = false.
Proof.
  assert (H1 : 0 <= batch_size Demo.cgan) by (vm_compute; congruence).
  assert (H2 : 1 <= epochs (Demo.targs "run" 3 2)) by (vm_compute; congruence).
  split; [exact H1 | split; [exact H2 |]].
  destruct (@train_on_empty_table Z Demo.numpy Demo.keras (Demo.targs "run" 3 2)
              Demo.cgan H1 H2) as (Hraise & _ & _ & _ & _ & _ & _ & _ & Hflag).
  split; [exact Hraise | split; [exact Hflag | reflexivity]].
Defined.

Section TrainFacts.

Variable V : Type.
Context {R : NumpyRandom} {K : Keras V}.

Lemma loop_lines_app (k l : list (line V)) : loop_lines (k ++ l) = loop_lines k ++ loop_lines l.
Proof. unfold loop_lines. apply flat_map_app. Qed.

Lemma loop_lines_bars (bars : list string) : loop_lines (map (@Bar V K) bars) = [].
Proof. induction bars as [| b bars IH]; [reflexivity | exact IH]. Qed.

Lemma only_bars_keeps {A} (c : M (World V) A) : keeps (@stdout V R K) c -> only_bars c.
Proof. intros H w. exists []. rewrite H. simpl. now rewrite app_nil_r. Qed.

Lemma only_bars_bind {A B} (c : M (World V) A) (k : A -> M (World V) B) :
  only_bars c -> (forall a, only_bars (k a)) -> only_bars (bind c k).
Proof.
  intros Hc Hk w. unfold bind. destruct (Hc w) as [b1 E1].
  destruct (c w) as [[e | a] w1]; simpl in *.
  - now exists b1.
  - destruct (Hk a w1) as [b2 E2]. exists (b1 ++ b2).
    now rewrite E2, E1, map_app, app_assoc.
Qed.

Lemma only_bars_print_all (bars : list string) :
  only_bars (print_all (map (@Bar V K) bars)).
Proof. intros w. now exists bars. Qed.

Lemma saves_only_keeps {A} (c : M (World V) A) :
  keeps (@written V R K) c -> keeps (@disk V R K) c -> saves_only c.
Proof.
  intros Hw Hd w. exists []. rewrite Hw, Hd, app_nil_r. repeat split; trivial.
Qed.

Lemma saves_only_bind {A B} (c : M (World V) A) (k : A -> M (World V) B) :
  saves_only c -> (forall a, saves_only (k a)) -> saves_only (bind c k).
Proof.
  intros Hc Hk w. unfold bind. destruct (Hc w) as (c1 & W1 & T1 & O1).
  destruct (c w) as [[e | a] w1]; simpl in *.
  - exists c1. repeat split; assumption.
  - destruct (Hk a w1) as (c2 & W2 & T2 & O2). exists (c1 ++ c2).
    split; [now rewrite W2, W1, app_assoc | split].
    + intros q Hq. apply T2, T1, Hq.
    + intros q Hq. rewrite map_app, in_app_iff in Hq.
      rewrite O2, O1; tauto.
Qed.

Lemma saves_only_for_each {A} (xs : list A) (body : A -> M (World V) unit) :
  (forall x, saves_only (body x)) -> saves_only (for_each xs body).
Proof.
  intros Hbody. induction xs as [| x xs IH]; simpl.
  - apply saves_only_keeps; apply keeps_ret.
  - apply saves_only_bind; [apply Hbody | intros _; exact IH].
Qed.

Lemma saves_only_write_file path which p : saves_only (write_file path which p).
Proof.
  intros w. exists [(path, which, p)].
  unfold write_file, log_call, store_file, bind, gets, modify, raise. simpl.
  destruct (can_create w path); simpl; repeat split; trivial.
  - intros q Hq. destruct (String.eqb q path); [discriminate | assumption].
  - intros q Hq. destruct (String.eqb_spec q path) as [-> | Hne]; [| reflexivity].
    contradiction Hq. now left.
Qed.

Lemma train_saves_only data (a : train_arguments) : saves_only (train data a).
Proof.
  unfold train, train_epoch, checkpoint.
  repeat first
    [ match goal with
      | |- saves_only (match ?r with _ => _ end) => destruct r
      end
    | apply saves_only_write_file
    | solve [apply saves_only_keeps; unfold train_discriminator, train_generator; frame]
    | apply saves_only_for_each; intros ?
    | apply saves_only_bind; [| intros ?] ].
Qed.

(** Lines 69 to 84 print what [predict] prints. *)
Lemma train_discriminator_only_bars data (a : train_arguments) valid fake epoch :
  only_bars (train_discriminator data a valid fake epoch).
Proof.
  unfold train_discriminator.
  repeat first
    [ match goal with
      | |- only_bars (match ?r with _ => _ end) => destruct r
      end
    | apply only_bars_print_all
    | solve [apply only_bars_keeps; frame]
    | apply only_bars_bind; [| intros ?] ].
Qed.

Lemma train_generator_keeps_stdout label valid :
  keeps (@stdout V R K) (train_generator label valid).
Proof. unfold train_generator. frame. Qed.

(** With an interval of 0 the test on line 98 raises before anything is
    written. *)
Lemma checkpoint_interval_zero (a : train_arguments) (epoch : Z) (w : World V) :
  sample_interval a = 0 -> checkpoint a epoch w = (inl ZeroDivisionError, w).
Proof.
  intros H0. unfold checkpoint, py_mod, lift_result, bind. now rewrite H0.
Qed.

Lemma train_epoch_interval_zero data (a : train_arguments) valid fake epoch (w : World V) :
  sample_interval a = 0 ->
  fst (train_epoch data a valid fake epoch w) <> inr tt /\
  written (snd (train_epoch data a valid fake epoch w)) = written w.
Proof.
  intros H0. unfold train_epoch, bind.
  assert (E1 := train_discriminator_keeps_written data a valid fake epoch w).
  destruct (train_discriminator data a valid fake epoch w) as [[e | [label d_loss]] w1];
    simpl in *; [split; [discriminate | assumption] |].
  assert (E2 := train_generator_keeps_written label valid w1).
  destruct (train_generator label valid w1) as [[e | g_loss] w2];
    simpl in *; [split; [discriminate | congruence] |].
  unfold print, modify. rewrite checkpoint_interval_zero by assumption.
  simpl. split; [discriminate | congruence].
Qed.

(** The lines of an epoch that completes. *)
Lemma train_epoch_lines data (a : train_arguments) valid fake epoch (w w' : World V) :
  train_epoch data a valid fake epoch w = (inr tt, w') ->
  loop_lines (stdout w') = loop_lines (stdout w) ++ epoch_lines a epoch.
Proof.
  intros Hrun. unfold train_epoch in Hrun.
  apply bind_inr in Hrun. destruct Hrun as ([label d_loss] & w1 & H1 & Hrun).
  apply bind_inr in Hrun. destruct Hrun as (g_loss & w2 & H2 & Hrun).
  apply bind_inr in Hrun. destruct Hrun as ([] & w3 & H3 & Hrun).
  destruct (train_discriminator_only_bars data a valid fake epoch w) as [bars E1].
  assert (E2 := train_generator_keeps_stdout label valid w1).
  rewrite H1 in E1. rewrite H2 in E2. simpl in E1, E2.
  unfold print, modify in H3. injection H3 as <-.
  unfold checkpoint in Hrun.
  apply bind_inr in Hrun. destruct Hrun as (r & w4 & H4 & Hrun).
  unfold lift_result, py_mod in H4.
  destruct (sample_interval a =? 0); [discriminate |]. injection H4 as <- <-.
  unfold epoch_lines.
  destruct (epoch mod sample_interval a =? 0).
  - apply bind_inr in Hrun. destruct Hrun as (net & w5 & H5 & Hrun).
    unfold generator_model in H5. simpl in H5.
    destruct (generator w2) as [net' | g]; [| discriminate]. injection H5 as <- <-.
    apply bind_inr in Hrun. destruct Hrun as (p1 & w6 & H6 & Hrun).
    unfold lift_result in H6. injection H6 as _ <-.
    apply bind_inr in Hrun. destruct Hrun as ([] & w7 & H7 & Hrun).
    apply write_file_returns in H7. destruct H7 as (_ & _ & _ & _ & S7 & _).
    apply bind_inr in Hrun. destruct Hrun as (p2 & w8 & H8 & Hrun).
    unfold lift_result in H8. injection H8 as _ <-.
    apply bind_inr in Hrun. destruct Hrun as (w9 & w10 & H9 & Hrun).
    unfold gets in H9. injection H9 as <- <-.
    apply bind_inr in Hrun. destruct Hrun as ([] & w11 & H11 & Hrun).
    apply write_file_returns in H11. destruct H11 as (_ & _ & _ & _ & S11 & _).
    apply bind_inr in Hrun. destruct Hrun as (w12 & w13 & H12 & Hrun).
    unfold gets in H12. injection H12 as <- <-.
    apply bind_inr in Hrun. destruct Hrun as (z & w14 & H14 & Hrun).
    unfold with_tf in H14.
    destruct (tf_random_normal 432 (noise_dim w11) (tf_random w11)) as [rz g1].
    injection H14 as _ <-.
    unfold print, modify in Hrun. injection Hrun as <-. simpl.
    rewrite S11, S7. simpl. rewrite E2, E1.
    rewrite !loop_lines_app, loop_lines_bars, app_nil_r, <- app_assoc. reflexivity.
  - unfold ret in Hrun. injection Hrun as <-. simpl.
    rewrite E2, E1, !loop_lines_app, loop_lines_bars, app_nil_r. reflexivity.
Qed.

Lemma for_each_lines data (a : train_arguments) valid fake (steps : list Z) :
  forall (w w' : World V),
    for_each steps (train_epoch data a valid fake) w = (inr tt, w') ->
    loop_lines (stdout w') = loop_lines (stdout w) ++ flat_map (epoch_lines a) steps.
Proof.
  induction steps as [| s steps IH]; intros w w' Hrun; simpl in *.
  - injection Hrun as <-. now rewrite app_nil_r.
  - apply bind_inr in Hrun. destruct Hrun as ([] & w1 & H1 & Hrun).
    rewrite (IH _ _ Hrun), (@train_epoch_lines data a valid fake s w w1 H1), <- app_assoc.
    reflexivity.
Qed.

End TrainFacts.

(** X11. A checkpoint interval of 0: with at least one epoch, [train]
    never completes and never writes a file, whatever the networks do (the
    first epoch trains both networks, prints its line and then fails on
    [epoch % 0]). *)
Theorem train_with_interval_zero :
  forall (V : Type) (R : NumpyRandom) (K : Keras V) (data : DataFrame V)
         (a : train_arguments) (w : World V),
    sample_interval a = 0 ->
    1 <= epochs a ->
    fst (train data a w) <> inr tt /\
    written (snd (train data a w)) = written w.
Proof.
  intros V R K data a w H0 Hepochs.
  destruct (range_pos Hepochs) as [rest Hrange].
  unfold train, bind, gets, lift_result. rewrite Hrange.
  destruct (np_full f_one (batch_size w) 1) as [e | valid]; [split; [discriminate | reflexivity] |].
  destruct (np_full f_zero (batch_size w) 1) as [e | fake]; [split; [discriminate | reflexivity] |].
  simpl. unfold bind.
  destruct (train_epoch_interval_zero data a valid fake 0 w H0) as [Hfail Hkeep].
  destruct (train_epoch data a valid fake 0 w) as [[e | []] w1]; simpl in *.
  - split; [discriminate | assumption].
  - now contradiction Hfail.
Qed.

Lemma train_with_interval_zero_witness :
  sample_interval (Demo.targs "run" 3 0) = 0 /\
  1 <= epochs (Demo.targs "run" 3 0) /\
  fst (train Demo.four_rows (Demo.targs "run" 3 0) Demo.cgan) = inl ZeroDivisionError /\
  written (snd (train Demo.four_rows (Demo.targs "run" 3 0) Demo.cgan)) = written Demo.cgan.
Proof.
  assert (H1 : sample_interval (Demo.targs "run" 3 0) = 0) by reflexivity.
  assert (H2 : 1 <= epochs (Demo.targs "run" 3 0)) by (vm_compute; congruence).
  split; [exact H1 | split; [exact H2 |]].
  split; [vm_compute; reflexivity |].
  exact (proj2 (@train_with_interval_zero Z Demo.numpy Demo.keras Demo.four_rows
                  (Demo.targs "run" 3 0) Demo.cgan H1 H2)).
Defined.

(** X12. The output of a run that completes, the progress bars of
    [predict] apart: one progress line per epoch of [range(epochs)], in
    order, each followed by the line [generated_data] exactly when the
    epoch is a multiple of the interval; [train] itself prints nothing
    else. *)
Theorem train_prints_one_line_per_epoch :
  forall (V : Type) (R : NumpyRandom) (K : Keras V) (data : DataFrame V)
         (a : train_arguments) (w w' : World V),
    train data a w = (inr tt, w') ->
    loop_lines (stdout w') =
      loop_lines (stdout w) ++ flat_map (epoch_lines a) (range (epochs a)).
Proof.
  intros V R K data a w w' Hrun. unfold train in Hrun.
  apply bind_inr in Hrun. destruct Hrun as (w0 & w1 & H0 & Hrun).
  unfold gets in H0. injection H0 as <- <-.
  apply bind_inr in Hrun. destruct Hrun as (valid & w2 & H1 & Hrun).
  apply bind_inr in Hrun. destruct Hrun as (fake & w3 & H2 & Hrun).
  unfold lift_result in H1, H2. injection H1 as _ <-. injection H2 as _ <-.
  exact (@for_each_lines V R K data a valid fake (range (epochs a)) w w' Hrun).
Qed.

Lemma train_prints_one_line_per_epoch_witness :
  train Demo.four_rows (Demo.targs "run" 3 2) Demo.cgan =
    (inr tt, snd (train Demo.four_rows (Demo.targs "run" 3 2) Demo.cgan)) /\
  loop_lines (stdout (snd (train Demo.four_rows (Demo.targs "run" 3 2) Demo.cgan))) =
    loop_lines (stdout Demo.cgan) ++
      [inl 0; inr "generated_data"%string; inl 1; inl 2; inr "generated_data"%string].
Proof.
  assert (Hrun : train Demo.four_rows (Demo.targs "run" 3 2) Demo.cgan =
                   (inr tt, snd (train Demo.four_rows (Demo.targs "run" 3 2) Demo.cgan)))
    by (vm_compute; reflexivity).
  split; [exact Hrun |].
  exact (@train_prints_one_line_per_epoch Z Demo.numpy Demo.keras Demo.four_rows
           (Demo.targs "run" 3 2) _ _ Hrun).
Defined.

Lemma for_each_last {S A} (P : S -> Prop) (body : A -> M S unit) (xs : list A) :
  (forall x s s', body x s = (inr tt, s') -> P s') ->
  xs <> [] ->
  forall s s', for_each xs body s = (inr tt, s') -> P s'.
Proof.
  intros Hbody. induction xs as [| x xs IH]; intros Hne s s' Hrun; [contradiction |].
  simpl in Hrun. apply bind_inr in Hrun. destruct Hrun as ([] & s1 & H1 & Hrun).
  destruct xs as [| y ys].
  - simpl in Hrun. injection Hrun as <-. exact (Hbody _ _ _ H1).
  - apply (IH ltac:(discriminate) _ _ Hrun).
Qed.

Lemma train_runs_for_each {V} {R : NumpyRandom} {K : Keras V} (data : DataFrame V)
  (a : train_arguments) (w w' : World V) :
  train data a w = (inr tt, w') ->
  exists valid fake,
    for_each (range (epochs a)) (train_epoch data a valid fake) w = (inr tt, w').
Proof.
  intros Hrun. unfold train in Hrun.
  apply bind_inr in Hrun. destruct Hrun as (w0 & w1 & H0 & Hrun).
  unfold gets in H0. injection H0 as <- <-.
  apply bind_inr in Hrun. destruct Hrun as (valid & w2 & H1 & Hrun).
  apply bind_inr in Hrun. destruct Hrun as (fake & w3 & H2 & Hrun).
  unfold lift_result in H1, H2. injection H1 as _ <-. injection H2 as _ <-.
  now exists valid, fake.
Qed.

Lemma range_not_nil (n : Z) : 1 <= n -> range n <> [].
Proof. intros Hn. destruct (range_pos Hn) as [rest ->]. discriminate. Qed.

Section Flag.

Variable V : Type.
Context {R : NumpyRandom} {K : Keras V}.

Lemma flag_after_assignment {A} (b : bool) (k : unit -> M (World V) A) (w : World V) :
  (forall u, keeps (@discriminator_trainable V R K) (k u)) ->
  discriminator_trainable (snd (bind (set_discriminator_trainable b) k w)) = b.
Proof.
  intros Hk. unfold bind, set_discriminator_trainable, modify.
  now rewrite (Hk tt).
Qed.

Lemma train_discriminator_sets_flag data (a : train_arguments) valid fake epoch (w : World V) :
  discriminator_trainable (snd (train_discriminator data a valid fake epoch w)) = true.
Proof.
  unfold train_discriminator. apply flag_after_assignment. intros _. frame.
Qed.

Lemma train_generator_clears_flag label valid (w : World V) :
  discriminator_trainable (snd (train_generator label valid w)) = false.
Proof.
  unfold train_generator. apply flag_after_assignment. intros _. frame.
Qed.

Lemma checkpoint_keeps_flag (a : train_arguments) epoch :
  keeps (@discriminator_trainable V R K) (checkpoint a epoch).
Proof. unfold checkpoint. frame. Qed.

Lemma train_epoch_clears_flag data (a : train_arguments) valid fake epoch (w w' : World V) :
  train_epoch data a valid fake epoch w = (inr tt, w') ->
  discriminator_trainable w' = false.
Proof.
  intros Hrun. unfold train_epoch in Hrun.
  apply bind_inr in Hrun. destruct Hrun as ([label d_loss] & w1 & H1 & Hrun).
  apply bind_inr in Hrun. destruct Hrun as (g_loss & w2 & H2 & Hrun).
  apply bind_inr in Hrun. destruct Hrun as ([] & w3 & H3 & Hrun).
  assert (E2 := train_generator_clears_flag label valid w1).
  assert (E4 := checkpoint_keeps_flag a epoch w3).
  rewrite H2 in E2. rewrite Hrun in E4. simpl in E2, E4.
  unfold print, modify in H3. injection H3 as <-. simpl in E4. congruence.
Qed.

End Flag.

(** X13. The [trainable] attribute of the discriminator through the loop:
    the discriminator phase of an epoch always ends with it set, also when
    the phase raises; the generator phase always ends with it cleared; so
    an epoch that completes, and a run of at least one epoch that
    completes, leave the discriminator frozen. *)
Theorem trainable_flag_through_the_loop :
  forall (V : Type) (R : NumpyRandom) (K : Keras V) (data : DataFrame V)
         (a : train_arguments) (valid fake : list (list V)) (epoch : Z) (label : list V)
         (w : World V),
    discriminator_trainable (snd (train_discriminator data a valid fake epoch w)) = true /\
    discriminator_trainable (snd (train_generator label valid w)) = false /\
    (forall w', train_epoch data a valid fake epoch w = (inr tt, w') ->
                discriminator_trainable w' = false) /\
    (forall w', 1 <= epochs a -> train data a w = (inr tt, w') ->
                discriminator_trainable w' = false).
Proof.
  intros V R K data a valid fake epoch label w. repeat split.
  - apply train_discriminator_sets_flag.
  - apply train_generator_clears_flag.
  - intros w'. apply train_epoch_clears_flag.
  - intros w' Hepochs Hrun.
    destruct (train_runs_for_each _ _ _ Hrun) as (valid' & fake' & Hloop).
    exact (@for_each_last _ _ (fun s : World V => discriminator_trainable s = false) _ _
             (fun x s s' => @train_epoch_clears_flag V R K data a valid' fake' x s s')
             (range_not_nil Hepochs) w w' Hloop).
Qed.

Section GlobalGenerator.

Variable V : Type.
Context {R : NumpyRandom} {K : Keras V}.

Lemma epoch_batch_reseeds data epoch (w w1 : World V) batch :
  epoch_batch data epoch w = (inr batch, w1) ->
  np_random w1 = state_after_first_draw data.
Proof.
  unfold epoch_batch, bind, gets, with_numpy. simpl.
  destruct (get_data_batch data (batch_size w) default_seed (np_random w))
    as [r g] eqn:Eg.
  intros [= -> <-]. simpl.
  assert (Hfst : fst (get_data_batch data (batch_size w) default_seed (np_random w))
                 = inr batch) by now rewrite Eg.
  assert (Hsnd : snd (get_data_batch data (batch_size w) default_seed (np_random w)) = g)
    by now rewrite Eg.
  rewrite <- Hsnd. clear Eg Hsnd.
  destruct (Z.eq_dec (len data) 0) as [H0 | HN].
  - rewrite get_data_batch_of_labels in Hfst.
    unfold batch_labels, py_mod, lift_result, bind in Hfst.
    rewrite H0 in Hfst. discriminate.
  - unfold get_data_batch, bind, lift_result.
    rewrite (batch_labels_run data (batch_size w) default_seed (np_random w) HN).
    + unfold default_seed. rewrite Z.mul_0_r, Z.div_0_l by assumption.
      destruct (loc data _); reflexivity.
    + unfold default_seed. rewrite Z.mul_0_r, Z.div_0_l by assumption. lia.
Qed.

Lemma train_epoch_reseeds data (a : train_arguments) valid fake epoch (w w' : World V) :
  train_epoch data a valid fake epoch w = (inr tt, w') ->
  np_random w' = state_after_first_draw data.
Proof.
  intros Hrun. unfold train_epoch in Hrun.
  apply bind_inr in Hrun. destruct Hrun as ([label d_loss] & w1 & H1 & Hrun).
  assert (Hrest : keeps (@np_random V R K)
                    (g_loss <- train_generator label valid ;;
                     print (Progress epoch d_loss g_loss) ;;; checkpoint a epoch))
    by frame_all.
  specialize (Hrest w1). rewrite Hrun in Hrest. simpl in Hrest. rewrite Hrest.
  clear Hrun Hrest.
  unfold train_discriminator in H1.
  apply bind_inr in H1. destruct H1 as ([] & w2 & H2 & H1).
  apply bind_inr in H1. destruct H1 as (batch_y & w3 & H3 & H1).
  apply epoch_batch_reseeds in H3.
  match type of H1 with
  | ?c w3 = _ => assert (Hrest : keeps (@np_random V R K) c) by frame_all
  end.
  specialize (Hrest w3). rewrite H1 in Hrest. simpl in Hrest. congruence.
Qed.

End GlobalGenerator.

(** X14. Training takes over NumPy's global generator: after a run of at
    least one epoch that completes, the generator is in the state that
    follows one draw from the seed 0 on the labels of the table, whatever
    state it was in before. *)
Theorem train_reseeds_global_generator :
  forall (V : Type) (R : NumpyRandom) (K : Keras V) (data : DataFrame V)
         (a : train_arguments) (w w' : World V),
    1 <= epochs a ->
    train data a w = (inr tt, w') ->
    np_random w' = state_after_first_draw data.
Proof.
  intros V R K data a w w' Hepochs Hrun.
  destruct (train_runs_for_each _ _ _ Hrun) as (valid & fake & Hloop).
  exact (@for_each_last _ _ (fun s : World V => np_random s = state_after_first_draw data)
           _ _
           (fun x s s' => @train_epoch_reseeds V R K data a valid fake x s s')
           (range_not_nil Hepochs) w w' Hloop).
Qed.

Lemma train_reseeds_global_generator_witness :
  1 <= epochs (Demo.targs "run" 3 2) /\
  train Demo.four_rows (Demo.targs "run" 3 2) Demo.cgan =
    (inr tt, snd (train Demo.four_rows (Demo.targs "run" 3 2) Demo.cgan)) /\
  np_random Demo.cgan = 7 /\
  np_random (snd (train Demo.four_rows (Demo.targs "run" 3 2) Demo.cgan)) =
    state_after_first_draw (R := Demo.numpy) Demo.four_rows.
Proof.
  assert (H1 : 1 <= epochs (Demo.targs "run" 3 2)) by (vm_compute; congruence).
  assert (Hrun : train Demo.four_rows (Demo.targs "run" 3 2) Demo.cgan =
                   (inr tt, snd (train Demo.four_rows (Demo.targs "run" 3 2) Demo.cgan)))
    by (vm_compute; reflexivity).
  split; [exact H1 | split; [exact Hrun | split; [reflexivity |]]].
  exact (@train_reseeds_global_generator Z Demo.numpy Demo.keras Demo.four_rows
           (Demo.targs "run" 3 2) _ _ H1 Hrun).
Defined.

(** ** [save]: where the file goes *)

(** X15. What [train] does to the files, whether it returns or raises:
    the calls of [save_weights] made before the run are followed by those
    of the run; every file that was there before the run is still there
    after it (a file at a path that the run saves to is replaced); and a
    file at any other path holds what it held. *)
Theorem train_only_adds_files :
  forall (V : Type) (R : NumpyRandom) (K : Keras V) (data : DataFrame V)
         (a : train_arguments) (w : World V),
    exists calls,
      written (snd (train data a w)) = written w ++ calls /\
      (forall q, disk w q <> None -> disk (snd (train data a w)) q <> None) /\
      (forall q, ~ In q (map (fun call => fst (fst call)) calls) ->
                 disk (snd (train data a w)) q = disk w q).
Proof.
  intros V R K data a w. apply (@train_saves_only V R K data a w).
Qed.






(** ** The shapes of the networks *)

Ltac shape_tac :=
  repeat (cbv - [Z.eqb Z.add Z.mul]; rewrite ?Z.eqb_refl); reflexivity.

Lemma generator_graph_shape (self : Generator.t) (n dim data_dim : Z) :
  shape_of (outputs (Generator.build_model self [n] dim data_dim)) =
    inr [Generator.batch_size self; data_dim].
Proof. shape_tac. Qed.

Lemma generator_graph_rank (self : Generator.t) (input_shape : list Z) (dim data_dim : Z) :
  List.length input_shape <> 1%nat ->
  shape_of (outputs (Generator.build_model self input_shape dim data_dim)) = inl ValueError.
Proof.
  intros Hrank. destruct input_shape as [| a [| b rest]].
  - reflexivity.
  - now contradiction Hrank.
  - shape_tac.
Qed.

Lemma discriminator_graph_shape (self : Discriminator.t) (n dim : Z) :
  shape_of (outputs (Discriminator.build_model self [n] dim)) =
    inr [Discriminator.batch_size self; 1].
Proof. shape_tac. Qed.

Lemma discriminator_graph_rank (self : Discriminator.t) (input_shape : list Z) (dim : Z) :
  List.length input_shape <> 1%nat ->
  shape_of (outputs (Discriminator.build_model self input_shape dim)) = inl ValueError.
Proof.
  intros Hrank. destruct input_shape as [| a [| b rest]].
  - reflexivity.
  - now contradiction Hrank.
  - shape_tac.
Qed.

Lemma layers_accept_spec (c b : Z) (shape units : list Z) :
  layers_accept c b shape units = true <->
  0 < c /\ 0 <= b /\ Forall (fun d => 0 <= d) shape /\ Forall (fun u => 0 <= u) units.
Proof.
  unfold layers_accept. simpl.
  rewrite !andb_true_iff, !forallb_forall, !Forall_forall, Z.ltb_lt, Z.leb_le.
  split.
  - intros [[Hc [Hb Hs]] Hu]. repeat split; [assumption .. | |];
      intros x Hx; apply Z.leb_le; auto.
  - intros (Hc & Hb & Hs & Hu). repeat split; [assumption .. | |];
      intros x Hx; apply Z.leb_le; auto.
Qed.

(** What the two builders return, and when. *)
Lemma run_generator_build_model_cases (self : Generator.t) (input_shape : list Z)
  (dim data_dim : Z) :
  run_generator_build_model self input_shape dim data_dim =
    if layers_accept (Generator.num_classes self) (Generator.batch_size self) input_shape
         [dim; dim * 2; dim * 4; data_dim]
       && (List.length input_shape =? 1)%nat
    then inr (Generator.build_model self input_shape dim data_dim)
    else inl ValueError.
Proof.
  unfold run_generator_build_model, assembled.
  destruct (layers_accept _ _ _ _); [| reflexivity]. rewrite andb_true_l.
  destruct (List.length input_shape =? 1)%nat eqn:E.
  - apply Nat.eqb_eq in E. destruct input_shape as [| n [| b rest]]; try discriminate.
    now rewrite generator_graph_shape.
  - apply Nat.eqb_neq in E. now rewrite generator_graph_rank.
Qed.

Lemma run_discriminator_build_model_cases (self : Discriminator.t) (input_shape : list Z)
  (dim : Z) :
  run_discriminator_build_model self input_shape dim =
    if layers_accept (Discriminator.num_classes self) (Discriminator.batch_size self)
         input_shape [dim * 4; dim * 2; dim; 1]
       && (List.length input_shape =? 1)%nat
    then inr (Discriminator.build_model self input_shape dim)
    else inl ValueError.
Proof.
  unfold run_discriminator_build_model, assembled.
  destruct (layers_accept _ _ _ _); [| reflexivity]. rewrite andb_true_l.
  destruct (List.length input_shape =? 1)%nat eqn:E.
  - apply Nat.eqb_eq in E. destruct input_shape as [| n [| b rest]]; try discriminate.
    now rewrite discriminator_graph_shape.
  - apply Nat.eqb_neq in E. now rewrite discriminator_graph_rank.
Qed.

(** X17. [Generator.build_model] as Python runs it. When it returns, the
    noise shape is one-dimensional, [(n,)], the number of classes is
    positive, no size is negative, and the model maps a batch to an array of
    shape [(batch_size, data_dim)]. It raises [ValueError], and nothing
    else, in every other case: with a number of classes that is not
    positive (the [Embedding] layer refuses it, although its output is not
    used), with a negative batch size, layer width or data width, and
    with a noise shape of any other rank (the concatenation with the label
    of shape [(batch_size, 1)] cannot be built). With a positive number of
    classes, positive sizes and a one-dimensional shape it does return. *)
Theorem generator_output_shape :
  forall (self : Generator.t) (input_shape : list Z) (dim data_dim : Z),
    let run := run_generator_build_model self input_shape dim data_dim in
    (forall m, run = inr m ->
       m = Generator.build_model self input_shape dim data_dim /\
       List.length input_shape = 1%nat /\
       0 < Generator.num_classes self /\
       0 <= Generator.batch_size self /\ 0 <= dim /\ 0 <= data_dim /\
       shape_of (outputs m) = inr [Generator.batch_size self; data_dim]) /\
    (forall e, run = inl e -> e = ValueError) /\
    (Generator.num_classes self <= 0 -> run = inl ValueError) /\
    (Generator.batch_size self < 0 \/ dim < 0 \/ data_dim < 0 -> run = inl ValueError) /\
    (List.length input_shape <> 1%nat -> run = inl ValueError) /\
    (forall n, input_shape = [n] -> 0 < n ->
       0 < Generator.num_classes self -> 0 < Generator.batch_size self ->
       0 < dim -> 0 < data_dim ->
       run = inr (Generator.build_model self input_shape dim data_dim)).
Proof.
  intros self input_shape dim data_dim run. subst run.
  rewrite run_generator_build_model_cases.
  destruct (layers_accept _ _ _ _) eqn:Hacc; simpl.
  - apply layers_accept_spec in Hacc. destruct Hacc as (Hc & Hb & Hs & Hu).
    inversion Hu as [| u1 l1 Hu1 Hv1]; subst. inversion Hv1 as [| u2 l2 Hu2 Hv2]; subst.
    inversion Hv2 as [| u3 l3 Hu3 Hv3]; subst. inversion Hv3 as [| u4 l4 Hu4 _]; subst.
    destruct (List.length input_shape =? 1)%nat eqn:E.
    + apply Nat.eqb_eq in E.
      split; [| split; [| split; [| split; [| split]]]].
      * intros m [= <-]. destruct input_shape as [| n [| b rest]]; try discriminate.
        repeat split; try assumption. apply generator_graph_shape.
      * discriminate.
      * lia.
      * lia.
      * intros Hrank. now contradiction Hrank.
      * reflexivity.
    + apply Nat.eqb_neq in E.
      split; [| split; [| split; [| split; [| split]]]]; try reflexivity.
      * discriminate.
      * now intros e [= <-].
      * intros n ->. now contradiction E.
  - split; [| split; [| split; [| split; [| split]]]]; try reflexivity.
    + discriminate.
    + now intros e [= <-].
    + intros n -> Hn Hc Hb Hd Hdd. exfalso.
      assert (Hacc' : layers_accept (Generator.num_classes self) (Generator.batch_size self)
                        [n] [dim; dim * 2; dim * 4; data_dim] = true).
      { apply layers_accept_spec. repeat split; try assumption;
          repeat constructor; lia. }
      congruence.
Qed.

Lemma generator_output_shape_witness :
  run_generator_build_model {| Generator.batch_size := 2; Generator.num_classes := 0 |}
    [3] 4 2 = inl ValueError /\
  run_generator_build_model {| Generator.batch_size := 2; Generator.num_classes := 2 |}
    [3; 3] 4 2 = inl ValueError /\
  (exists m,
     run_generator_build_model {| Generator.batch_size := 2; Generator.num_classes := 2 |}
       [3] 4 2 = inr m /\
     shape_of (outputs m) = inr [2; 2]).
Proof.
  split; [| split].
  - apply (proj1 (proj2 (proj2 (@generator_output_shape
             {| Generator.batch_size := 2; Generator.num_classes := 0 |} [3] 4 2)))).
    simpl. lia.
  - apply (proj1 (proj2 (proj2 (proj2 (proj2 (@generator_output_shape
             {| Generator.batch_size := 2; Generator.num_classes := 2 |} [3; 3] 4 2)))))).
    simpl. lia.
  - eexists. split.
    + apply (proj2 (proj2 (proj2 (proj2 (proj2 (@generator_output_shape
               {| Generator.batch_size := 2; Generator.num_classes := 2 |} [3] 4 2)))))
               3); simpl; try reflexivity; lia.
    + reflexivity.
Defined.

(** X18. [Discriminator.build_model] as Python runs it. When it returns,
    the data shape is one-dimensional, [(n,)], the number of classes is
    positive, and the model maps a batch to one value per row, shape
    [(batch_size, 1)], through a sigmoid, with no [Embedding] layer on the
    way from its inputs to its output. It raises [ValueError], and nothing
    else, in every other case: with a number of classes that is not
    positive, with a negative batch size or layer width, and with a data
    shape of any other rank. With a positive number of classes, positive
    sizes and a one-dimensional shape it does return. *)
Theorem discriminator_output_shape :
  forall (self : Discriminator.t) (input_shape : list Z) (dim : Z),
    let run := run_discriminator_build_model self input_shape dim in
    (forall m, run = inr m ->
       m = Discriminator.build_model self input_shape dim /\
       List.length input_shape = 1%nat /\
       0 < Discriminator.num_classes self /\
       0 <= Discriminator.batch_size self /\ 0 <= dim /\
       shape_of (outputs m) = inr [Discriminator.batch_size self; 1] /\
       hd_error (dense_layers (outputs m)) = Some (1, Some sigmoid) /\
       through_embedding (outputs m) = false) /\
    (forall e, run = inl e -> e = ValueError) /\
    (Discriminator.num_classes self <= 0 -> run = inl ValueError) /\
    (Discriminator.batch_size self < 0 \/ dim < 0 -> run = inl ValueError) /\
    (List.length input_shape <> 1%nat -> run = inl ValueError) /\
    (forall n, input_shape = [n] -> 0 < n ->
       0 < Discriminator.num_classes self -> 0 < Discriminator.batch_size self ->
       0 < dim ->
       run = inr (Discriminator.build_model self input_shape dim)).
Proof.
  intros self input_shape dim run. subst run.
  rewrite run_discriminator_build_model_cases.
  destruct (layers_accept _ _ _ _) eqn:Hacc; simpl.
  - apply layers_accept_spec in Hacc. destruct Hacc as (Hc & Hb & Hs & Hu).
    inversion Hu as [| u1 l1 Hu1 Hv1]; subst. inversion Hv1 as [| u2 l2 Hu2 Hv2]; subst.
    inversion Hv2 as [| u3 l3 Hu3 Hv3]; subst.
    destruct (List.length input_shape =? 1)%nat eqn:E.
    + apply Nat.eqb_eq in E.
      split; [| split; [| split; [| split; [| split]]]].
      * intros m [= <-]. destruct input_shape as [| n [| b rest]]; try discriminate.
        repeat split; try assumption. apply discriminator_graph_shape.
      * discriminate.
      * lia.
      * lia.
      * intros Hrank. now contradiction Hrank.
      * reflexivity.
    + apply Nat.eqb_neq in E.
      split; [| split; [| split; [| split; [| split]]]]; try reflexivity.
      * discriminate.
      * now intros e [= <-].
      * intros n ->. now contradiction E.
  - split; [| split; [| split; [| split; [| split]]]]; try reflexivity.
    + discriminate.
    + now intros e [= <-].
    + intros n -> Hn Hc Hb Hd. exfalso.
      assert (Hacc' : layers_accept (Discriminator.num_classes self)
                        (Discriminator.batch_size self) [n] [dim * 4; dim * 2; dim; 1] = true).
      { apply layers_accept_spec. repeat split; try assumption;
          repeat constructor; lia. }
      congruence.
Qed.

Lemma discriminator_output_shape_witness :
  run_discriminator_build_model
    {| Discriminator.batch_size := 2; Discriminator.num_classes := 0 |} [2] 4
    = inl ValueError /\
  run_discriminator_build_model
    {| Discriminator.batch_size := 2; Discriminator.num_classes := 2 |} [] 4
    = inl ValueError /\
  (exists m,
     run_discriminator_build_model
       {| Discriminator.batch_size := 2; Discriminator.num_classes := 2 |} [2] 4 = inr m /\
     shape_of (outputs m) = inr [2; 1]).
Proof.
  split; [| split].
  - apply (proj1 (proj2 (proj2 (@discriminator_output_shape
             {| Discriminator.batch_size := 2; Discriminator.num_classes := 0 |} [2] 4)))).
    simpl. lia.
  - apply (proj1 (proj2 (proj2 (proj2 (proj2 (@discriminator_output_shape
             {| Discriminator.batch_size := 2; Discriminator.num_classes := 2 |} [] 4)))))).
    simpl. lia.
  - eexists. split.
    + apply (proj2 (proj2 (proj2 (proj2 (proj2 (@discriminator_output_shape
               {| Discriminator.batch_size := 2; Discriminator.num_classes := 2 |} [2] 4)))))
               2); simpl; try reflexivity; lia.
    + reflexivity.
Defined.

(** X19. The combined model of [__init__] fits together: whatever the
    arguments, the generator's output has the shape that the discriminator
    was built for, and the model maps noise of shape
    [(batch_size, noise_dim)] and labels of shape [(batch_size, 1)] to one
    value per row. *)
Theorem combined_model_shape :
  forall (V : Type) (R : NumpyRandom) (K : Keras V) (a : gan_args V)
         (env env' : Env V) (w : World V),
    init a env = (inr w, env') ->
    map shape_of (inputs (combined w)) =
      [inr [arg_batch_size a; arg_noise_dim a]; inr [arg_batch_size a; 1]] /\
    shape_of (outputs (combined w)) = inr [arg_batch_size a; 1] /\
    (forall net, generator w = Built net ->
       map shape_of [outputs (graph net)] =
       firstn 1 (map shape_of (inputs (graph (discriminator w))))).
Proof.
  intros V R K a env env' w. unfold init. simpl.
  rewrite run_generator_build_model_cases, run_discriminator_build_model_cases. simpl.
  rewrite !andb_true_r.
  destruct (layers_accept _ _ _ _); [| discriminate].
  destruct (layers_accept _ _ _ _); [| discriminate].
  destruct (initial_weights _ (env_tf_random env)) as [[e | pg] tf1]; [discriminate |].
  destruct (initial_weights _ tf1) as [[e | pd] tf2]; [discriminate |].
  intros [= <- _]. repeat split.
  - shape_tac.
  - intros net [= <-]. shape_tac.
Qed.

Lemma combined_model_shape_witness :
  init (Demo.args 2) Demo.env = (inr Demo.cgan, Demo.env) /\
  shape_of (outputs (combined Demo.cgan)) = inr [2; 1].
Proof.
  assert (Hinit : init (Demo.args 2) Demo.env = (inr Demo.cgan, Demo.env)) by reflexivity.
  split; [exact Hinit |].
  exact (proj1 (proj2 (@combined_model_shape Z Demo.numpy Demo.keras (Demo.args 2)
                         Demo.env Demo.env Demo.cgan Hinit))).
Defined.

(** ** The two phases and the checkpoint: which network they touch *)

(** X20. The discriminator phase of an epoch (lines 69 to 84) never
    changes the generator: whatever the phase does, and also when it
    raises, [self.generator] is afterwards what it was; nor does the phase
    save weights or touch a file, and all that it prints is the progress
    bar of [predict]. *)
Theorem discriminator_phase_keeps_generator :
  forall (V : Type) (R : NumpyRandom) (K : Keras V) (data : DataFrame V)
         (a : train_arguments) (valid fake : list (list V)) (epoch : Z) (w : World V),
    let w' := snd (train_discriminator data a valid fake epoch w) in
    generator w' = generator w /\
    written w' = written w /\
    disk w' = disk w /\
    exists bars, stdout w' = stdout w ++ map (@Bar V K) bars.
Proof.
  intros V R K data a valid fake epoch w w'. subst w'.
  assert (H1 : keeps (@generator V R K) (train_discriminator data a valid fake epoch))
    by (unfold train_discriminator; frame).
  assert (H2 : keeps (@disk V R K) (train_discriminator data a valid fake epoch))
    by (unfold train_discriminator; frame).
  repeat split.
  - apply H1.
  - apply train_discriminator_keeps_written.
  - apply H2.
  - apply train_discriminator_only_bars.
Qed.

(** X21. What a checkpoint holds: at a step that is a multiple of the
    interval (names without braces, generator built), [save_weights] is
    called with the weights that the generator and the discriminator have
    at that moment, the generator's first. Where both files can be created
    they hold these weights afterwards, also when the sampling of noise
    after the writes raises, and no other file is touched; where the
    generator's file cannot be created (the output directory is missing)
    the step raises [OSError] with no file written and the discriminator
    not saved; where only the discriminator's cannot, it raises with the
    generator's file written. In every case the checkpoint changes neither
    network. *)
Theorem checkpoint_saves_current_weights :
  forall (V : Type) (R : NumpyRandom) (K : Keras V) (a : train_arguments) (epoch : Z)
         (w : World V) (net : Network V),
    brace_free (data_dir a ++ cache_prefix a) = true ->
    sample_interval a <> 0 ->
    epoch mod sample_interval a = 0 ->
    generator w = Built net ->
    let gen_path := spec_checkpoint_path a "generator" epoch in
    let dis_path := spec_checkpoint_path a "discriminator" epoch in
    let gen_call := (gen_path, the_generator, params net) in
    let dis_call := (dis_path, the_discriminator, params (discriminator w)) in
    let w' := snd (checkpoint a epoch w) in
    (can_create w gen_path = true -> can_create w dis_path = true ->
     written w' = written w ++ [gen_call; dis_call] /\
     disk w' gen_path = Some (the_generator, params net) /\
     disk w' dis_path = Some (the_discriminator, params (discriminator w)) /\
     (forall p, p <> gen_path -> p <> dis_path -> disk w' p = disk w p)) /\
    (can_create w gen_path = false ->
     fst (checkpoint a epoch w) = inl OSError /\
     written w' = written w ++ [gen_call] /\
     disk w' = disk w) /\
    (can_create w gen_path = true -> can_create w dis_path = false ->
     fst (checkpoint a epoch w) = inl OSError /\
     written w' = written w ++ [gen_call; dis_call] /\
     disk w' gen_path = Some (the_generator, params net) /\
     (forall p, p <> gen_path -> disk w' p = disk w p)) /\
    generator w' = generator w /\
    discriminator w' = discriminator w.
Proof.
  intros V R K a epoch w net Hfree Hk Hmod Hnet pg pd gen_call dis_call w'.
  subst gen_call dis_call w'.
  assert (Hne : String.eqb pg pd = false) by apply checkpoint_paths_differ.
  remember (checkpoint a epoch w) as c eqn:Hc.
  unfold checkpoint, py_mod, lift_result in Hc.
  apply Z.eqb_neq in Hk.
  unfold bind at 1 in Hc. rewrite Hk, Hmod in Hc. cbn [Z.eqb] in Hc.
  unfold generator_model, write_file, log_call, store_file, print, with_tf, bind, gets,
    modify, raise in Hc.
  rewrite Hnet, !(checkpoint_name _ _ _ Hfree) in Hc.
  fold pg pd in Hc. clearbody pg pd.
  destruct (can_create w pg) eqn:Hg; destruct (can_create w pd) eqn:Hd;
    destruct (tf_random_normal 432 (noise_dim w) (tf_random w)) as [[e | z] g1] eqn:Ht;
    repeat (progress (simpl in Hc; rewrite ?Hnet, ?Hg, ?Hd, ?Ht in Hc));
    subst c; simpl;
    repeat match goal with
           | |- _ /\ _ => split
           | |- forall _, _ => intro
           end;
    try discriminate; try reflexivity; try assumption;
    repeat match goal with
           | H : _ <> _ |- _ => apply String.eqb_neq in H
           end;
    rewrite ?String.eqb_refl, ?Hne;
    repeat match goal with
           | H : String.eqb _ _ = false |- _ => rewrite H
           end;
    try reflexivity; try (symmetry; assumption); rewrite <- app_assoc; reflexivity.
Qed.

Lemma checkpoint_saves_current_weights_witness :
  brace_free ("out/" ++ "run") = true /\
  sample_interval (Demo.targs "run" 3 2) <> 0 /\
  4 mod sample_interval (Demo.targs "run" 3 2) = 0 /\
  can_create Demo.cgan "out/run_generator_model_weights_step_4.h5" = true /\
  can_create Demo.cgan "out/run_discriminator_model_weights_step_4.h5" = true /\
  written (snd (checkpoint (Demo.targs "run" 3 2) 4 Demo.cgan)) =
    written Demo.cgan ++
      [("out/run_generator_model_weights_step_4.h5"%string, the_generator, 0);
       ("out/run_discriminator_model_weights_step_4.h5"%string, the_discriminator, 0)] /\
  disk (snd (checkpoint (Demo.targs "run" 3 2) 4 Demo.cgan))
    "out/run_generator_model_weights_step_4.h5" = Some (the_generator, 0).
Proof.
  assert (H1 : brace_free ("out/" ++ "run") = true) by reflexivity.
  assert (H2 : sample_interval (Demo.targs "run" 3 2) <> 0) by (vm_compute; congruence).
  assert (H3 : 4 mod sample_interval (Demo.targs "run" 3 2) = 0) by reflexivity.
  assert (H4 : can_create Demo.cgan "out/run_generator_model_weights_step_4.h5" = true)
    by reflexivity.
  assert (H5 : can_create Demo.cgan "out/run_discriminator_model_weights_step_4.h5" = true)
    by reflexivity.
  split; [exact H1 | split; [exact H2 | split; [exact H3 | split; [exact H4 |
    split; [exact H5 |]]]]].
  destruct (proj1 (@checkpoint_saves_current_weights Z Demo.numpy Demo.keras
                     (Demo.targs "run" 3 2) 4 Demo.cgan _ H1 H2 H3 eq_refl) H4 H5)
    as (Hw & Hg & _).
  split; [exact Hw | exact Hg].
Defined.
